(** * MCP GitHub App server: credential cache, branch naming and
      pull-request reconciliation

    A shallow embedding of [mcp_github_app/server.py].  Python [str] values
    are sequences of Unicode code points, the server object is a record
    threaded through every call, and the GitHub API is a remote whose calls
    are logged and may raise. *)

From Stdlib Require Import List String Ascii NArith ZArith QArith Bool Lia Lqa.
Import ListNotations.

Set Implicit Arguments.

(* ================================================================= *)
(** ** Python strings *)

(** A Python [str] is a sequence of code points. *)
Definition pystr := list N.

(** An ASCII literal of the source, as code points. *)
Definition lit (s : string) : pystr :=
  map N_of_ascii (list_ascii_of_string s).

Definition pystr_eqb (a b : pystr) : bool :=
  if list_eq_dec N.eq_dec a b then true else false.

(** [s.startswith(p)] *)
Fixpoint startswith (s p : pystr) {struct p} : bool :=
  match p, s with
  | [], _ => true
  | _ :: _, [] => false
  | x :: p', y :: s' => N.eqb x y && startswith s' p'
  end.

(** [c in s] for a one-character [c]. *)
Definition contains (c : N) (s : pystr) : bool := existsb (N.eqb c) s.

(** [s.split(sep)] for a one-character separator: never empty. *)
Fixpoint split_on (sep : N) (s : pystr) : list pystr :=
  match s with
  | [] => [[]]
  | c :: t =>
      if N.eqb c sep then [] :: split_on sep t
      else match split_on sep t with
           | [] => [[c]]
           | seg :: segs => (c :: seg) :: segs
           end
  end.

(** [s.lstrip(chars)]: drop the leading characters of the class. *)
Fixpoint lstrip (p : N -> bool) (s : pystr) : pystr :=
  match s with
  | [] => []
  | c :: t => if p c then lstrip p t else s
  end.

(** [s.rstrip(chars)]: drop the trailing characters of the class. *)
Fixpoint rstrip (p : N -> bool) (s : pystr) : pystr :=
  match s with
  | [] => []
  | c :: t =>
      match rstrip p t with
      | [] => if p c then [] else [c]
      | t' => c :: t'
      end
  end.

(** [s.strip(chars)] *)
Definition strip (p : N -> bool) (s : pystr) : pystr := rstrip p (lstrip p s).

(** [re.sub(r'X{2,}', 'X', s)] for a single character X: every maximal run
    of two or more X becomes one X. *)
Fixpoint collapse_runs (x : N) (s : pystr) : pystr :=
  match s with
  | [] => []
  | a :: t =>
      match t with
      | b :: _ => if N.eqb a x && N.eqb b x then collapse_runs x t
                  else a :: collapse_runs x t
      | [] => [a]
      end
  end.

(** Two neighbouring occurrences of [x], the matches of [X{2,}]. *)
Fixpoint adjacent (x : N) (s : pystr) : bool :=
  match s with
  | [] => false
  | a :: t =>
      match t with
      | b :: _ => N.eqb a x && N.eqb b x || adjacent x t
      | [] => false
      end
  end.

Definition ch_slash : N := 47.
Definition ch_dot : N := 46.
Definition ch_hyphen : N := 45.
Definition ch_underscore : N := 95.

Definition in_range (lo hi c : N) : bool := N.leb lo c && N.leb c hi.

(** The characters [str.strip()] removes when called without argument
    (CPython's [_PyUnicode_IsWhitespace]). *)
Definition isspace (c : N) : bool :=
  in_range 9 13 c || in_range 28 32 c || N.eqb c 133 || N.eqb c 160
  || N.eqb c 5760 || in_range 8192 8202 c || N.eqb c 8232 || N.eqb c 8233
  || N.eqb c 8239 || N.eqb c 8287 || N.eqb c 12288.

Definition ascii_alnum (c : N) : bool :=
  in_range 48 57 c || in_range 65 90 c || in_range 97 122 c.

(** A sample of [str.isalnum] beyond ASCII: the Latin letters of
    U+00C0..U+024F (the signs U+00D7 and U+00F7 are not letters). *)
Definition latin_alnum (c : N) : bool :=
  in_range 192 591 c && negb (N.eqb c 215) && negb (N.eqb c 247).

(** [" feature/caf<U+00E9> au lait..v2 "] *)
Definition sample_branch_name : pystr :=
  lit " feature/caf" ++ [233%N] ++ lit " au lait..v2 ".

Section Server.

(** [str.isalnum] beyond ASCII is a table of the Unicode database, which
    the program takes from its runtime. *)
Variable unicode_alnum : N -> bool.

(** [jwt.encode(payload, key, algorithm='RS256')] on the payload
    [{iat, exp, iss}]; [None] when it raises. *)
Variable jwt_encode : Z -> Z -> option pystr -> pystr -> option pystr.

(** [datetime.fromisoformat(s).timestamp()]; [None] when the text is not an
    ISO date. *)
Variable fromisoformat : pystr -> option Q.

(** [\w] of [re] on a [str] pattern: alphanumeric or underscore. *)
Definition isword (c : N) : bool :=
  N.eqb c ch_underscore
  || (if N.ltb c 128 then ascii_alnum c else unicode_alnum c).

(* ================================================================= *)
(** ** Branch-name normalization ([create_branch], lines 672-699) *)

Definition branch_prefix : pystr := lit "c3/".

(** Lines 677-685: a name that does not start with [c3/] keeps only its
    last path segment and gets the prefix. *)
Definition add_prefix (n : pystr) : pystr :=
  if negb (startswith n branch_prefix) then
    if contains ch_slash n then branch_prefix ++ last (split_on ch_slash n) []
    else branch_prefix ++ n
  else n.

(** Line 690: [re.sub(r'[^\w\-/]', '-', name)]. *)
Definition allowed (c : N) : bool :=
  isword c || N.eqb c ch_hyphen || N.eqb c ch_slash.

Definition replace_disallowed (s : pystr) : pystr :=
  map (fun c => if allowed c then c else ch_hyphen) s.

(** Line 695: the class of [strip('/.-')]. *)
Definition edge_char (c : N) : bool :=
  N.eqb c ch_slash || N.eqb c ch_dot || N.eqb c ch_hyphen.

(** Lines 697-699. *)
Definition ensure_prefix (n : pystr) : pystr :=
  if negb (startswith n branch_prefix) then branch_prefix ++ n else n.

Definition normalize_branch_name (branch_name : pystr) : pystr :=
  let n := strip isspace branch_name in
  let n := add_prefix n in
  let n := replace_disallowed n in
  let n := collapse_runs ch_slash n in
  let n := collapse_runs ch_dot n in
  let n := strip edge_char n in
  ensure_prefix n.


(** What every name produced by the normalization looks like: it carries the
    prefix, holds only characters line 690 keeps, has no doubled slash and
    does not end in a character line 695 strips. *)
Definition well_formed_name (o : pystr) : Prop :=
  startswith o branch_prefix = true
  /\ Forall (fun c => allowed c = true) o
  /\ adjacent ch_slash o = false
  /\ edge_char (last o 0%N) = false.

(* ================================================================= *)
(** ** Values, exceptions and the outside world *)

(** The f-strings of the source that build messages; a message is the
    template together with the interpolated values. *)
Inductive template :=
| TJwtError            (* line 68 *)
| TTokenError          (* line 102 *)
| TNoKeyConfigured     (* line 49 *)
| TFileMissing         (* line 554 *)
| TGithubApiError      (* "GitHub API error: {error_msg}" *)
| TUnknownError        (* "Unknown error: {type}" *)
| TAssertion           (* "Assertion failed: {error_msg}. ..." *)
| TBranchCreated       (* line 718 *)
| TBranchRenamed       (* line 720 *)
| TNoBranches          (* line 934 *)
| TNoOtherBranch       (* line 976 *)
| TSameBranchNoOther   (* line 1031 *)
| TBaseMissing         (* line 1051 *)
| THeadMissing         (* line 1123 *)
| TNoDifferences       (* line 1139 *)
| TNoNewCommits        (* line 1176 *)
| TNoCommitsBetween    (* line 1251 *)
| TForked              (* line 1215 *)
| TUserReposError      (* line 1757 *)
| TInstallReposError   (* line 1849 *)
| TUnknownTool         (* line 480 *)
| TIsoformat           (* [datetime.isoformat()] *)
| TUnknownMethod       (* line 1943 *)
| TText (line : nat)   (* the fixed texts of lines 111-409 *)
| TSuggestion (line : nat)   (* the fixed "suggestion"/"note" texts *)
| THelp (line : nat).        (* the fixed texts of [get_help] *)

(** Python values that end up in results: JSON, with two kinds of string
    besides literals: a formatted message, and the text [json.dumps] gives
    for a value. *)
#[warnings="-register-all"]
Inductive json :=
| JNull
| JBool (b : bool)
| JNum (z : Z)
| JFloat (q : Q)
| JStr (s : pystr)
| JFmt (t : template) (args : list json)
| JDumps (payload : json)
| JArr (items : list json)
| JObj (fields : list (string * json)).

(** [d.get(key)] on a dict. *)
Fixpoint lookup (key : string) (fields : list (string * json)) : option json :=
  match fields with
  | [] => None
  | (k, v) :: rest => if String.eqb k key then Some v else lookup key rest
  end.

(** Truth value of a Python object. *)
Definition truthy (v : json) : bool :=
  match v with
  | JNull => false
  | JBool b => b
  | JNum z => negb (Z.eqb z 0)
  | JFloat q => negb (Qeq_bool q 0)
  | JStr s => match s with [] => false | _ => true end
  | JFmt _ _ => true
  | JDumps _ => true
  | JArr l => match l with [] => false | _ => true end
  | JObj l => match l with [] => false | _ => true end
  end.

Definition truthy_str (s : pystr) : bool :=
  match s with [] => false | _ => true end.

Definition opt_str (o : option pystr) : json :=
  match o with Some s => JStr s | None => JNull end.

(** The body of an error answer of the GitHub API: a message and a list
    of errors, each of which is a dict that may have a message, or something
    else. *)
Inductive ErrorItem :=
| ErrorDict (message : option pystr)
| ErrorOther.

Record ErrorBody := {
  eb_message : option pystr;
  eb_errors : option (list ErrorItem)
}.

(** Exceptions: PyGithub's [GithubException] family, whose [data] is the
    body of the answer when that is a dict, and everything else. *)
Inductive exn :=
| GithubException (cls : string) (status : Z) (data : option ErrorBody)
    (text : pystr)
| PyError (cls : string) (text : json).

Definition is_github_exception (e : exn) : bool :=
  match e with GithubException _ _ _ _ => true | PyError _ _ => false end.

(** [type(e).__name__] and [str(e)]. *)
Definition type_name (e : exn) : json :=
  match e with
  | GithubException cls _ _ _ => JStr (lit cls)
  | PyError cls _ => JStr (lit cls)
  end.

Definition str_of (e : exn) : json :=
  match e with
  | GithubException _ _ _ text => JStr text
  | PyError _ text => text
  end.

(** The server object (lines 27-34). *)
Record Client := { client_token : pystr }.

Record Server := {
  app_id : option pystr;
  private_key_path : option pystr;
  private_key : option pystr;
  installation_id : option pystr;
  github : option Client;
  _installation_token : option pystr;
  _token_expires_at : option Q
}.

(** A reading of the clock: [time.time()] is [dt_timestamp], and
    [datetime.now()] gives the calendar fields for [strftime]. *)
Record DateTime := {
  dt_year : N; dt_month : N; dt_day : N;
  dt_hour : N; dt_minute : N; dt_second : N;
  dt_timestamp : Q
}.

(** The body of an answer of the token endpoint: [token] and [expires_at]
    may each be missing. *)
Record TokenBody := {
  tb_token : option pystr;
  tb_expires_at : option pystr
}.

(** An HTTP answer seen through [requests]: [raise_for_status] raises when
    the status is not 2xx, [json()] raises when there is no JSON body. *)
Record Response (B : Type) := {
  resp_ok : bool;
  resp_status : Z;
  resp_body : option B
}.

(** What the code reads from a branch: its commit's sha and the date of the
    commit, which may be missing or may fail to load. *)
Inductive CommitDate :=
| DateKnown (timestamp : Q)
| DateMissing
| DateFails (e : exn).

Record Branch := {
  b_name : pystr;
  b_sha : pystr;
  b_date : CommitDate;
  b_protected : bool
}.

Record Pull := {
  pr_number : Z;
  pr_state : pystr;
  pr_head : pystr;
  pr_base : pystr;
  pr_title : json;
  pr_body : json;
  pr_attrs : list (string * json)
}.

Record FileContent := {
  fc_attrs : list (string * json);     (* size, encoding, type *)
  fc_sha : pystr;
  fc_decoded : list N + exn;           (* decoded_content: bytes, or it raises *)
  fc_content : option pystr            (* content, base64 text *)
}.

(** What [get_contents] gives: a file, or the entries of a directory. *)
Inductive Contents :=
| ContentFile (f : FileContent)
| ContentList (entries : list FileContent).

(** What [update_file] and [create_file] give: a dict that may have a commit
    and a content, of which the code reads some attributes. *)
Record WriteResult := {
  wr_commit : option (list (string * json));
  wr_content : option (list (string * json))
}.

(** One repository on the remote side. *)
Record Repo := {
  r_full_name : pystr;
  r_default_branch : pystr;
  r_branches : list Branch;
  r_pulls : list Pull;
  r_history : pystr -> list pystr;     (* commits reachable from a sha *)
  r_files : pystr -> pystr -> option Contents;      (* path, ref *)
  r_write : pystr -> WriteResult;                   (* answer to a write *)
  r_attrs : list (string * json)
}.

(** One page of [/installation/repositories]. *)
Record ReposPage := {
  page_repositories : option (list (list (string * json)));
  page_total_count : option Z
}.

(** The requests the program sends. *)
Inductive call :=
| PostAccessToken
| GetInstallationRepos (token : pystr) (page : Z)
| GetRepo (full_name : pystr)
| GetBranches
| GetBranch (name : pystr)
| GetPulls (state : json)
| GetPull (number : json)
| GetCommits (sha : pystr)
| GetContents (path ref : json)
| UpdateFile (path : json)
| CreateFile (path : json)
| CreateGitRef (ref sha : pystr)
| CreatePull (head base : pystr)
| GetUser (login : pystr)
| GetUserRepos
| GetOrganization (login : pystr)
| GetOrgRepos.

(** A request in the log, with the exception it ended in, if any. *)
Record event := { ev_call : call; ev_failure : option exn }.

(** Everything outside the function being run: the server object, the clock,
    the remote side, the failures the remote side is going to answer with
    (one entry per request, [None] for a request that is served), and the
    log of the requests sent so far. *)
Record World := {
  w_server : Server;
  w_clock : nat -> DateTime;
  w_ticks : nat;
  w_random : N;
  w_files : pystr -> option (pystr + exn);            (* local file system *)
  w_tokens : list (Response TokenBody);               (* token endpoint *)
  w_repo : Repo;
  w_accounts : pystr -> option (list (list (string * json)));
  w_orgs : pystr -> option (list (list (string * json)));
  w_pages : list (Response ReposPage);
  w_faults : list (option exn);
  w_trace : list event
}.

Definition set_server (s : Server) (w : World) : World :=
  {| w_server := s; w_clock := w_clock w; w_ticks := w_ticks w;
     w_random := w_random w; w_files := w_files w; w_tokens := w_tokens w;
     w_repo := w_repo w; w_accounts := w_accounts w; w_orgs := w_orgs w;
     w_pages := w_pages w; w_faults := w_faults w; w_trace := w_trace w |}.

Definition set_ticks (n : nat) (w : World) : World :=
  {| w_server := w_server w; w_clock := w_clock w; w_ticks := n;
     w_random := w_random w; w_files := w_files w; w_tokens := w_tokens w;
     w_repo := w_repo w; w_accounts := w_accounts w; w_orgs := w_orgs w;
     w_pages := w_pages w; w_faults := w_faults w; w_trace := w_trace w |}.

Definition set_tokens (l : list (Response TokenBody)) (w : World) : World :=
  {| w_server := w_server w; w_clock := w_clock w; w_ticks := w_ticks w;
     w_random := w_random w; w_files := w_files w; w_tokens := l;
     w_repo := w_repo w; w_accounts := w_accounts w; w_orgs := w_orgs w;
     w_pages := w_pages w; w_faults := w_faults w; w_trace := w_trace w |}.

Definition set_repo (r : Repo) (w : World) : World :=
  {| w_server := w_server w; w_clock := w_clock w; w_ticks := w_ticks w;
     w_random := w_random w; w_files := w_files w; w_tokens := w_tokens w;
     w_repo := r; w_accounts := w_accounts w; w_orgs := w_orgs w;
     w_pages := w_pages w; w_faults := w_faults w; w_trace := w_trace w |}.

Definition set_faults (l : list (option exn)) (w : World) : World :=
  {| w_server := w_server w; w_clock := w_clock w; w_ticks := w_ticks w;
     w_random := w_random w; w_files := w_files w; w_tokens := w_tokens w;
     w_repo := w_repo w; w_accounts := w_accounts w; w_orgs := w_orgs w;
     w_pages := w_pages w; w_faults := l; w_trace := w_trace w |}.

Definition set_trace (l : list event) (w : World) : World :=
  {| w_server := w_server w; w_clock := w_clock w; w_ticks := w_ticks w;
     w_random := w_random w; w_files := w_files w; w_tokens := w_tokens w;
     w_repo := w_repo w; w_accounts := w_accounts w; w_orgs := w_orgs w;
     w_pages := w_pages w; w_faults := w_faults w; w_trace := l |}.

(* ================================================================= *)
(** ** Control flow: a state monad with exceptions and [return] *)

Inductive outcome (A : Type) :=
| Val (a : A)          (* the statement ran to its end *)
| Raise (e : exn)      (* an exception is propagating *)
| Return (r : json).   (* a [return] statement was executed *)

Arguments Val {A} a.
Arguments Raise {A} e.
Arguments Return {A} r.

Definition M (A : Type) : Type := World -> outcome A * World.

Definition ret {A} (a : A) : M A := fun w => (Val a, w).

Definition bind {A B} (m : M A) (f : A -> M B) : M B :=
  fun w =>
    match m w with
    | (Val a, w') => f a w'
    | (Raise e, w') => (Raise e, w')
    | (Return r, w') => (Return r, w')
    end.

Definition raise {A} (e : exn) : M A := fun w => (Raise e, w).

Definition return_ {A} (r : json) : M A := fun w => (Return r, w).

(** [try: m  except Exception as e: h e] *)
Definition try_except {A} (m : M A) (h : exn -> M A) : M A :=
  fun w =>
    match m w with
    | (Raise e, w') => h e w'
    | other => other
    end.

(** [try: m  except GithubException as e: h e] *)
Definition try_except_github {A} (m : M A) (h : exn -> M A) : M A :=
  try_except m (fun e => if is_github_exception e then h e else raise e).

(** The body of a [def] whose result is a dict: a [return] ends it. *)
Definition def (body : M json) : M json :=
  fun w =>
    match body w with
    | (Return r, w') => (Val r, w')
    | other => other
    end.

Declare Scope monad_scope.
Delimit Scope monad_scope with monad.
Notation "x <- m ;; k" := (bind m (fun x => k))
  (at level 100, m at next level, right associativity) : monad_scope.
Notation "m ;; k" := (bind m (fun _ => k))
  (at level 100, right associativity) : monad_scope.
Open Scope monad_scope.

Definition get_server : M Server := fun w => (Val (w_server w), w).
Definition put_server (s : Server) : M unit := fun w => (Val tt, set_server s w).

(** Reading the clock; every reading is a later one. *)
Definition datetime_now : M DateTime :=
  fun w => (Val (w_clock w (w_ticks w)), set_ticks (S (w_ticks w)) w).

Definition time_time : M Q :=
  t <- datetime_now ;; ret (dt_timestamp t).

Definition log (c : call) (failure : option exn) (w : World) : World :=
  set_trace (w_trace w ++ [{| ev_call := c; ev_failure := failure |}]) w.

(** Sending a request: the remote side may fail it; otherwise [serve] is
    what the remote side does with it.  Either way it is logged; [failed]
    tells an answer that reports a failure (an HTTP error status). *)
Definition request_as {A} (c : call) (failed : A -> option exn)
    (serve : World -> (A + exn) * World) : M A :=
  fun w =>
    match w_faults w with
    | Some e :: rest => (Raise e, log c (Some e) (set_faults rest w))
    | faults =>
        match serve (set_faults (tl faults) w) with
        | (inl a, w') => (Val a, log c (failed a) w')
        | (inr e, w') => (Raise e, log c (Some e) w')
        end
    end.

Definition request {A} (c : call) (serve : World -> (A + exn) * World) : M A :=
  request_as c (fun _ => None) serve.

(* ================================================================= *)
(** ** Credential manager (lines 41-109) *)

Definition set_token (t : option pystr) (s : Server) : Server :=
  {| app_id := app_id s; private_key_path := private_key_path s;
     private_key := private_key s; installation_id := installation_id s;
     github := github s; _installation_token := t;
     _token_expires_at := _token_expires_at s |}.

Definition set_expires_at (t : option Q) (s : Server) : Server :=
  {| app_id := app_id s; private_key_path := private_key_path s;
     private_key := private_key s; installation_id := installation_id s;
     github := github s; _installation_token := _installation_token s;
     _token_expires_at := t |}.

Definition set_github (c : option Client) (s : Server) : Server :=
  {| app_id := app_id s; private_key_path := private_key_path s;
     private_key := private_key s; installation_id := installation_id s;
     github := c; _installation_token := _installation_token s;
     _token_expires_at := _token_expires_at s |}.

Definition Qlt_bool (a b : Q) : bool := negb (Qle_bool b a).

(** Truth value of a float. *)
Definition truthy_float (q : Q) : bool := negb (Qeq_bool q 0).

(** [int(x)] of a float: truncation towards zero. *)
Definition int_of (q : Q) : Z := Z.quot (Qnum q) (Zpos (Qden q)).

(** [s.replace('Z', '+00:00')] *)
Definition replace_Z (s : pystr) : pystr :=
  flat_map (fun c => if N.eqb c 90 then lit "+00:00" else [c]) s.

Definition value_error (t : template) (args : list json) : exn :=
  PyError "ValueError" (JFmt t args).

Definition http_error (B : Type) (r : Response B) : option exn :=
  if resp_ok r then None else Some (PyError "HTTPError" (JNum (resp_status r))).

(** Lines 41-49: a path that [os.path.exists] is opened and read, which
    gives its content or raises (a directory, a file that may not be
    read). *)
Definition _load_private_key : M pystr :=
  s <- get_server ;;
  match private_key s with
  | Some (c :: k) => ret (c :: k)
  | _ =>
      match private_key_path s with
      | Some (c :: path) =>
          fun w => match w_files w (c :: path) with
                   | Some (inl content) => (Val content, w)
                   | Some (inr e) => (Raise e, w)
                   | None => (Raise (value_error TNoKeyConfigured []), w)
                   end
      | _ => raise (value_error TNoKeyConfigured [])
      end
  end.

(** Lines 51-68. *)
Definition _generate_jwt : M pystr :=
  try_except
    (key <- _load_private_key ;;
     t <- time_time ;;
     let now := int_of t in
     s <- get_server ;;
     match jwt_encode (now - 60) (now + 10 * 60) (app_id s) key with
     | Some token => ret token
     | None => raise (PyError "PyJWTError" JNull)
     end)
    (fun e => raise (value_error TJwtError [str_of e])).

(** [requests.post(url, headers=headers)] on the access-token endpoint. *)
Definition post_access_tokens : M (Response TokenBody) :=
  request_as PostAccessToken (@http_error TokenBody)
    (fun w => match w_tokens w with
              | r :: rest => (inl r, set_tokens rest w)
              | [] => (inl {| resp_ok := false; resp_status := 503;
                              resp_body := None |}, w)
              end).

(** [response.raise_for_status()] *)
Definition raise_for_status {B} (r : Response B) : M unit :=
  match http_error r with
  | Some e => raise e
  | None => ret tt
  end.

(** [response.json()] *)
Definition response_json {B} (r : Response B) : M B :=
  match resp_body r with
  | Some b => ret b
  | None => raise (PyError "JSONDecodeError" JNull)
  end.

(** The test of lines 73-74; the clock is read only when both fields are
    set. *)
Definition cached_token : M (option pystr) :=
  s <- get_server ;;
  match _installation_token s, _token_expires_at s with
  | Some token, Some expires_at =>
      if truthy_str token && truthy_float expires_at then
        now <- time_time ;;
        ret (if Qlt_bool now (expires_at - 60) then Some token else None)
      else ret None
  | _, _ => ret None
  end.

(** Lines 77-100: minting. *)
Definition mint_token : M pystr :=
  _ <- _generate_jwt ;;
  response <- post_access_tokens ;;
  raise_for_status response ;;
  data <- response_json response ;;
  match tb_token data with
  | None => raise (PyError "KeyError" (JStr (lit "'token'")))
  | Some token =>
      s <- get_server ;;
      put_server (set_token (Some token) s) ;;
      (match tb_expires_at data with
       | Some (c :: text) =>
           match fromisoformat (replace_Z (c :: text)) with
           | Some timestamp =>
               s <- get_server ;;
               put_server (set_expires_at (Some timestamp) s)
           | None => raise (PyError "ValueError" JNull)
           end
       | _ =>
           now <- time_time ;;
           s <- get_server ;;
           put_server (set_expires_at (Some (now + 55 * 60)) s)
       end) ;;
      ret token
  end.

(** Lines 70-102. *)
Definition _get_installation_token : M pystr :=
  cached <- cached_token ;;
  match cached with
  | Some token => ret token
  | None =>
      try_except mint_token
        (fun e => raise (value_error TTokenError [str_of e]))
  end.

(** Lines 104-109. *)
Definition _get_github_client : M Client :=
  s <- get_server ;;
  match github s with
  | None =>
      token <- _get_installation_token ;;
      s <- get_server ;;
      let client := {| client_token := token |} in
      put_server (set_github (Some client) s) ;;
      ret client
  | Some client => ret client
  end.

(** The world after one reading of the clock. *)
Definition tick (w : World) : World := set_ticks (S (w_ticks w)) w.

(** The time the next reading of the clock gives. *)
Definition now (w : World) : Q := dt_timestamp (w_clock w (w_ticks w)).

(** The condition of lines 73-74 on the server object, at a given time. *)
Definition token_is_fresh (s : Server) (t : Q) : bool :=
  match _installation_token s, _token_expires_at s with
  | Some token, Some expires_at =>
      truthy_str token && truthy_float expires_at
      && Qlt_bool t (expires_at - 60)
  | _, _ => false
  end.

Definition is_post (e : event) : bool :=
  match ev_call e with PostAccessToken => true | _ => false end.

(** How many requests to the token endpoint a log holds. *)
Definition posts (tr : list event) : nat := List.length (filter is_post tr).

(** [w'] is [w] after some readings of the clock and nothing else. *)
Definition later (w w' : World) : Prop :=
  w' = set_ticks (w_ticks w') w.

(* ================================================================= *)
(** ** Values at the boundary of the GitHub client *)

(** [a == b] for two values that are not both strings. *)
Variable py_eq : json -> json -> bool.

(** [str(v)], the text an f-string puts for a value that is not a string. *)
Variable py_str : json -> pystr.

(** [a == b] *)
Definition values_equal (a b : json) : bool :=
  match a, b with
  | JStr x, JStr y => pystr_eqb x y
  | JStr _, _ => false
  | _, JStr _ => false
  | _, _ => py_eq a b
  end.

(** [name == v] for a branch name of the remote side. *)
Definition name_is (name : pystr) (v : json) : bool :=
  values_equal (JStr name) v.

(** The text an f-string puts for a value. *)
Definition format_value (v : json) : pystr :=
  match v with
  | JStr s => s
  | _ => py_str v
  end.

(** PyGithub asserts that a name it is given is a [str]; the assertion
    carries the value, so that [str(e)] is the text of the value. *)
Definition expect_str (v : json) : M pystr :=
  match v with
  | JStr s => ret s
  | _ => raise (PyError "AssertionError" (JStr (py_str v)))
  end.

(** Decimal digits of a number, most significant first. *)
Fixpoint digits_fuel (fuel : nat) (n : N) (acc : pystr) : pystr :=
  match fuel with
  | O => acc
  | S fuel' =>
      let acc' := (48 + N.modulo n 10)%N :: acc in
      if N.ltb n 10 then acc' else digits_fuel fuel' (N.div n 10) acc'
  end.

Definition decimal (n : N) : pystr := digits_fuel (S (N.to_nat (N.log2 n))) n [].

(** [%02d]-style padding to a width, as [strftime] does for its fields. *)
Definition padded (width : nat) (n : N) : pystr :=
  let d := decimal n in
  repeat 48%N (width - List.length d) ++ d.

(** [now.strftime('%Y-%m-%d')] and [now.strftime('%H%M%S')]. *)
Definition date_str (t : DateTime) : pystr :=
  padded 4 (dt_year t) ++ lit "-" ++ padded 2 (dt_month t) ++ lit "-"
  ++ padded 2 (dt_day t).

Definition time_str (t : DateTime) : pystr :=
  padded 2 (dt_hour t) ++ padded 2 (dt_minute t) ++ padded 2 (dt_second t).

(** [random.randint(lo, hi)] *)
Definition randint (lo hi : N) : M N :=
  fun w => (Val (lo + N.modulo (w_random w) (hi - lo + 1))%N, w).

(** An entry [key: value] of a dict. *)
Definition kv (key : string) (value : json) : string * json := (key, value).

(** The shape every tool returns its payload in. *)
Definition tool_result (payload : list (string * json)) : json :=
  JObj [kv "content"
          (JArr [JObj [kv "type" (JStr (lit "text"));
                       kv "text" (JDumps (JObj payload))]])].

(* ================================================================= *)
(** ** The remote side, as PyGithub shows it *)

Definition github_exception (cls : string) (status : Z) (message : string)
    (errors : option (list ErrorItem)) : exn :=
  GithubException cls status
    (Some {| eb_message := Some (lit message); eb_errors := errors |})
    (lit message).

Definition not_found : exn :=
  github_exception "UnknownObjectException" 404 "Not Found" None.

Definition set_branches (l : list Branch) (r : Repo) : Repo :=
  {| r_full_name := r_full_name r; r_default_branch := r_default_branch r;
     r_branches := l; r_pulls := r_pulls r; r_history := r_history r;
     r_files := r_files r; r_write := r_write r; r_attrs := r_attrs r |}.

Definition set_pulls (l : list Pull) (r : Repo) : Repo :=
  {| r_full_name := r_full_name r; r_default_branch := r_default_branch r;
     r_branches := r_branches r; r_pulls := l; r_history := r_history r;
     r_files := r_files r; r_write := r_write r; r_attrs := r_attrs r |}.

Definition find_branch (name : pystr) (r : Repo) : option Branch :=
  find (fun b => pystr_eqb (b_name b) name) (r_branches r).

(** [github.get_repo(full_name)] *)
Definition get_repo (full_name : pystr) : M Repo :=
  request (GetRepo full_name)
    (fun w => if pystr_eqb full_name (r_full_name (w_repo w))
              then (inl (w_repo w), w) else (inr not_found, w)).

(** [list(repository.get_branches())] *)
Definition get_branches : M (list Branch) :=
  request GetBranches (fun w => (inl (r_branches (w_repo w)), w)).

(** [repository.get_branch(name)] *)
Definition get_branch (name : json) : M Branch :=
  n <- expect_str name ;;
  request (GetBranch n)
    (fun w => match find_branch n (w_repo w) with
              | Some b => (inl b, w)
              | None => (inr not_found, w)
              end).

Definition is_open (pr : Pull) : bool := pystr_eqb (pr_state pr) (lit "open").

(** [list(repository.get_pulls(state=state))] *)
Definition get_pulls (state : json) : M (list Pull) :=
  st <- expect_str state ;;
  request (GetPulls state)
    (fun w => (inl (filter (fun pr => pystr_eqb st (lit "all")
                                      || pystr_eqb (pr_state pr) st)
                      (r_pulls (w_repo w))), w)).

(** [list(repository.get_commits(sha=sha))] *)
Definition get_commits (sha : pystr) : M (list pystr) :=
  request (GetCommits sha) (fun w => (inl (r_history (w_repo w) sha), w)).

(** The branch [create_git_ref] adds to a repository. *)
Definition with_branch (name sha : pystr) (r : Repo) : Repo :=
  set_branches
    (r_branches r
     ++ [{| b_name := name; b_sha := sha;
            b_date := match find (fun b => pystr_eqb (b_sha b) sha)
                              (r_branches r) with
                      | Some b => b_date b
                      | None => DateMissing
                      end;
            b_protected := false |}]) r.

(** [repository.create_git_ref(ref=f"refs/heads/{name}", sha=sha)]: the
    remote side refuses a name that exists with status 422. *)
Definition create_git_ref (name sha : pystr) : M unit :=
  request (CreateGitRef (lit "refs/heads/" ++ name) sha)
    (fun w =>
       match find_branch name (w_repo w) with
       | Some _ =>
           (inr (github_exception "GithubException" 422
                   "Reference already exists" None), w)
       | None =>
           (inl tt, set_repo (with_branch name sha (w_repo w)) w)
       end).

Definition same_direction (head base : pystr) (pr : Pull) : bool :=
  pystr_eqb (pr_head pr) head && pystr_eqb (pr_base pr) base.

(** [repository.create_pull(title=, body=, head=, base=)]: the remote side
    refuses a second open pull request of the same direction with status
    422. *)
Definition create_pull (title body head base : json) : M Pull :=
  _ <- expect_str title ;;
  _ <- expect_str body ;;
  h <- expect_str head ;;
  b <- expect_str base ;;
  request (CreatePull h b)
    (fun w =>
       if existsb (fun pr => is_open pr && same_direction h b pr)
            (r_pulls (w_repo w))
       then (inr (github_exception "GithubException" 422 "Validation Failed"
                    (Some [ErrorDict
                             (Some (lit "A pull request already exists"))])),
             w)
       else
         let pr := {| pr_number := 1 + Z.of_nat (List.length (r_pulls (w_repo w)));
                      pr_state := lit "open"; pr_head := h; pr_base := b;
                      pr_title := title; pr_body := body; pr_attrs := [] |} in
         (inl pr, set_repo (set_pulls (r_pulls (w_repo w) ++ [pr]) (w_repo w)) w)).

(* ================================================================= *)
(** ** Error results *)

Definition status_of (e : exn) : json :=
  match e with
  | GithubException _ status _ _ => JNum status
  | PyError _ _ => JNull
  end.

(** The message the handlers of [GithubException] extract: [str(e)], or
    the [message] of the body when the body is a dict that has one. *)
Definition github_message (e : exn) : json :=
  let error_msg :=
    if truthy (str_of e) then str_of e else JStr (lit "Unknown error") in
  match e with
  | GithubException _ _ (Some body) _ =>
      match eb_message body with
      | Some m => JStr m
      | None => error_msg
      end
  | _ => error_msg
  end.

(** The message the handlers of [Exception] build. *)
Definition generic_message (e : exn) : json :=
  let error_msg :=
    if truthy (str_of e) then str_of e else JFmt TUnknownError [type_name e] in
  match e with
  | PyError "AssertionError" _ => JFmt TAssertion [error_msg]
  | _ => error_msg
  end.

(** The [except GithubException] block most tools end with. *)
Definition github_error_payload (e : exn) : list (string * json) :=
  [kv "success" (JBool false);
   kv "error" (JFmt TGithubApiError [github_message e]);
   kv "status" (status_of e);
   kv "error_type" (type_name e)].

(** The [except Exception] block every tool ends with. *)
Definition generic_error_payload (e : exn) : list (string * json) :=
  [kv "success" (JBool false);
   kv "error" (generic_message e);
   kv "error_type" (type_name e)].

(** The value [f"... {e.data.get('message', str(e)) if ... else str(e)}"]
    of lines 1051 and 1123 interpolates. *)
Definition branch_error_detail (e : exn) : json :=
  match e with
  | GithubException _ _ (Some body) _ =>
      match eb_message body with
      | Some m => JStr m
      | None => str_of e
      end
  | _ => str_of e
  end.

(* ================================================================= *)
(** ** Sorting as [list.sort] does *)

(** [x] goes before the first element that is not smaller than it. *)
Fixpoint insert_sorted {A} (lt : A -> A -> bool) (x : A) (l : list A) : list A :=
  match l with
  | [] => [x]
  | y :: t => if lt y x then y :: insert_sorted lt x t else x :: y :: t
  end.

(** A stable sort: equal elements keep their order. *)
Definition stable_sort {A} (lt : A -> A -> bool) (l : list A) : list A :=
  fold_right (insert_sorted lt) [] l.

(** [l.sort(reverse=...)]; with [reverse] the order is descending and equal
    elements still keep their order. *)
Definition sort_by {A} (lt : A -> A -> bool) (reverse : bool) (l : list A)
    : list A :=
  if reverse then stable_sort (fun a b => lt b a) l else stable_sort lt l.

(** [s.lower()] (the letters of ASCII) and [needle in s]. *)
Definition lower (s : pystr) : pystr :=
  map (fun c => if in_range 65 90 c then (c + 32)%N else c) s.

Fixpoint has_substring (needle s : pystr) : bool :=
  startswith s needle
  || match s with
     | [] => false
     | _ :: t => has_substring needle t
     end.

(* ================================================================= *)
(** ** [create_pull_request] (lines 911-1303) *)

(** A [datetime]: one with a time zone (a commit date) or a naive one
    ([datetime.now()]); the two kinds cannot be compared. *)
Record PushedAt := { pa_aware : bool; pa_timestamp : Q }.

Record HeadCandidate := {
  hc_name : pystr; hc_commit_sha : pystr; hc_pushed_at : PushedAt
}.

Record BaseCandidate := {
  bc_name : pystr; bc_pushed_at : PushedAt; bc_is_default : bool
}.

Definition aware (q : Q) : PushedAt := {| pa_aware := true; pa_timestamp := q |}.
Definition naive (t : DateTime) : PushedAt :=
  {| pa_aware := false; pa_timestamp := dt_timestamp t |}.

(** Lines 941-967: the branches other than [base], with the date of their
    last commit; a branch whose commit fails to load is skipped. *)
Fixpoint branches_with_commits (base : json) (branches : list Branch)
    : M (list HeadCandidate) :=
  match branches with
  | [] => ret []
  | branch :: rest =>
      if negb (name_is (b_name branch) base) then
        match b_date branch with
        | DateFails _ => branches_with_commits base rest
        | DateKnown q =>
            more <- branches_with_commits base rest ;;
            ret ({| hc_name := b_name branch; hc_commit_sha := b_sha branch;
                    hc_pushed_at := aware q |} :: more)
        | DateMissing =>
            t <- datetime_now ;;
            more <- branches_with_commits base rest ;;
            ret ({| hc_name := b_name branch; hc_commit_sha := b_sha branch;
                    hc_pushed_at := naive t |} :: more)
        end
      else branches_with_commits base rest
  end.

(** Line 985: sorting by [pushed_at], newest first; comparing an aware and
    a naive [datetime] raises [TypeError]. *)
Definition sort_newest_first (l : list HeadCandidate) : M (list HeadCandidate) :=
  if existsb (fun c => pa_aware (hc_pushed_at c)) l
     && existsb (fun c => negb (pa_aware (hc_pushed_at c))) l
  then raise (PyError "TypeError" (JStr (lit "can't compare offset-naive and offset-aware datetimes")))
  else ret (sort_by (fun a b => Qlt_bool (pa_timestamp (hc_pushed_at a))
                                   (pa_timestamp (hc_pushed_at b)))
              true l).

(** Lines 924-988: choosing [head] when the caller gave none. *)
Definition default_head (base : json) : M json :=
  branches <- get_branches ;;
  match branches with
  | [] => return_ (tool_result [kv "success" (JBool false);
                                kv "error" (JFmt TNoBranches [])])
  | _ =>
      candidates <- branches_with_commits base branches ;;
      match candidates with
      | [] =>
          return_ (tool_result
                     [kv "success" (JBool false);
                      kv "error" (JFmt TNoOtherBranch [base]);
                      kv "available_branches"
                        (JArr (map (fun b => JStr (b_name b)) branches));
                      kv "suggestion" (JFmt (TSuggestion 978) [])])
      | _ =>
          sorted <- sort_newest_first candidates ;;
          match sorted with
          | first :: _ => ret (JStr (hc_name first))
          | [] => raise (PyError "IndexError" (JStr (lit "list index out of range")))
          end
      end
  end.

(** Lines 997-1022: the branches other than [head]; a branch whose commit
    has no date, or fails to load, counts as pushed now. *)
Fixpoint other_branches (head : json) (default_branch : pystr)
    (branches : list Branch) : M (list BaseCandidate) :=
  match branches with
  | [] => ret []
  | branch :: rest =>
      if negb (name_is (b_name branch) head) then
        pushed_at <- match b_date branch with
                     | DateKnown q => ret (aware q)
                     | _ => t <- datetime_now ;; ret (naive t)
                     end ;;
        more <- other_branches head default_branch rest ;;
        ret ({| bc_name := b_name branch; bc_pushed_at := pushed_at;
                bc_is_default := pystr_eqb (b_name branch) default_branch |}
             :: more)
      else other_branches head default_branch rest
  end.

(** The key of line 1039, [(is_default, -timestamp)], compared as tuples. *)
Definition base_key_lt (a b : BaseCandidate) : bool :=
  (negb (bc_is_default a) && bc_is_default b)
  || (Bool.eqb (bc_is_default a) (bc_is_default b)
      && Qlt_bool (- pa_timestamp (bc_pushed_at a))
                  (- pa_timestamp (bc_pushed_at b))).

(** Lines 991-1040: choosing another [base] when [head == base]. *)
Definition other_base (repository : Repo) (head base : json) : M json :=
  branches <- get_branches ;;
  others <- other_branches head (r_default_branch repository) branches ;;
  match others with
  | [] =>
      return_ (tool_result [kv "success" (JBool false);
                            kv "error" (JFmt TSameBranchNoOther [head; base]);
                            kv "suggestion" (JFmt (TSuggestion 1032) [])])
  | _ =>
      match sort_by base_key_lt false others with
      | first :: _ => ret (JStr (bc_name first))
      | [] => raise (PyError "IndexError" (JStr (lit "list index out of range")))
      end
  end.

Definition status_is (code : Z) (e : exn) : bool :=
  match e with
  | GithubException _ status _ _ => Z.eqb status code
  | PyError _ _ => false
  end.

Definition pr_matches (head base : json) (pr : Pull) : bool :=
  name_is (pr_head pr) head && name_is (pr_base pr) base.

(** Lines 1079-1082: [c3/YYYY-MM-DD/HHMMSS]. *)
Definition fork_name (t : DateTime) : pystr :=
  lit "c3/" ++ date_str t ++ lit "/" ++ time_str t.

(** Lines 1079-1105: forking a branch named after the date and the time
    from the commit of [head]; a 422 from the creation is answered with one
    more creation under the name with two random digits appended. *)
Definition fork_branch (head_sha : pystr) : M pystr :=
  t <- datetime_now ;;
  let new_branch_name := fork_name t in
  try_except_github
    (create_git_ref new_branch_name head_sha ;; ret new_branch_name)
    (fun branch_error =>
       if status_is 422 branch_error then
         r <- randint 10 99 ;;
         let new_branch_name := new_branch_name ++ decimal r in
         create_git_ref new_branch_name head_sha ;;
         ret new_branch_name
       else raise branch_error).

(** Lines 1065-1108, the body of the [try]: the result is the head to use
    and [new_branch_created]. *)
Definition check_open_pulls (head base : json) : M (json * bool) :=
  head_branch <- get_branch head ;;
  all_prs <- get_pulls (JStr (lit "open")) ;;
  if existsb (pr_matches head base) all_prs then
    new_branch_name <- fork_branch (b_sha head_branch) ;;
    ret (JStr new_branch_name, true)
  else ret (head, false).

(** Lines 1061-1111: whatever the check raises is dropped, and [head] and
    [new_branch_created] stay as they were. *)
Definition avoid_collision (head base : json) : M (json * bool) :=
  try_except (check_open_pulls head base) (fun _ => ret (head, false)).

(** [l[:n]] *)
Definition take (n : nat) (l : list pystr) : list pystr := firstn n l.

Definition mem (x : pystr) (l : list pystr) : bool := existsb (pystr_eqb x) l.

(** Lines 1152-1183, the body of the [try]: when the ten newest commits of
    [head] are all among the ten newest of [base], and no commit of [head]
    is missing from those, the call ends with an error. *)
Definition check_history (head base : json) (head_branch base_branch : Branch)
    : M unit :=
  head_commits <- get_commits (b_sha head_branch) ;;
  base_commits <- get_commits (b_sha base_branch) ;;
  let head_commit_shas := take 10 head_commits in
  let base_commit_shas := take 10 base_commits in
  if forallb (fun c => mem c base_commit_shas) head_commit_shas
     && negb (pystr_eqb (b_sha head_branch) (b_sha base_branch)) then
    let head_only_commits :=
      take 5 (filter (fun c => negb (mem c base_commit_shas)) head_commits) in
    match head_only_commits with
    | [] =>
        return_ (tool_result
                   [kv "success" (JBool false);
                    kv "error" (JFmt TNoNewCommits [head; base]);
                    kv "head_sha" (JStr (b_sha head_branch));
                    kv "base_sha" (JStr (b_sha base_branch));
                    kv "suggestion" (JFmt (TSuggestion 1179) [])])
    | _ => ret tt
    end
  else ret tt.

Definition attr (key : string) (attrs : list (string * json)) : json :=
  match lookup key attrs with
  | Some v => v
  | None => JNull
  end.

(** Lines 1197-1227. *)
Definition pull_request_result (owner repo : json) (pr : Pull)
    (new_branch_created : bool) (original_head head base : json) : json :=
  tool_result
    ([kv "success" (JBool true);
      kv "owner" owner;
      kv "repo" repo;
      kv "pull_request"
        (JObj [kv "number" (JNum (pr_number pr));
               kv "title" (pr_title pr);
               kv "body" (pr_body pr);
               kv "state" (JStr (pr_state pr));
               kv "head" (JStr (pr_head pr));
               kv "base" (JStr (pr_base pr));
               kv "url" (attr "html_url" (pr_attrs pr));
               kv "created_at" (attr "created_at" (pr_attrs pr))])]
     ++ if new_branch_created then
          [kv "message" (JFmt TForked [original_head; base; head]);
           kv "new_branch" head;
           kv "original_head" original_head;
           kv "note" (JFmt (TSuggestion 1218) [])]
        else []).

(** Lines 1133-1146: the result of the guard against a pull request
    without differences. *)
Definition no_differences_error (head base : json)
    (head_branch base_branch : Branch) : json :=
  tool_result
    [kv "success" (JBool false);
     kv "error" (JFmt TNoDifferences [head; base]);
     kv "head_sha" (JStr (b_sha head_branch));
     kv "base_sha" (JStr (b_sha base_branch));
     kv "suggestion" (JFmt (TSuggestion 1142) [])].

(** Lines 1131-1227: the guards and the submission, once the branch of
    [head] is there. *)
Definition guard_and_submit (owner repo title body : json)
    (base_branch : Branch) (new_branch_created : bool)
    (original_head head base : json) (head_branch : Branch) : M json :=
  if pystr_eqb (b_sha head_branch) (b_sha base_branch) then
    return_ (no_differences_error head base head_branch base_branch)
  else
    try_except (check_history head base head_branch base_branch)
      (fun _ => ret tt) ;;
    pr <- create_pull title (if truthy body then body else JStr []) head base ;;
    ret (pull_request_result owner repo pr new_branch_created original_head
           head base).

(** Lines 1113-1227: the branch of [head] is fetched again, then come the
    guards and the submission. *)
Definition submit (owner repo title body : json) (base_branch : Branch)
    (new_branch_created : bool) (original_head head base : json) : M json :=
  head_branch <-
    try_except_github (get_branch head)
      (fun e => return_ (tool_result
                           [kv "success" (JBool false);
                            kv "error" (JFmt THeadMissing
                                          [head; branch_error_detail e]);
                            kv "status" (status_of e);
                            kv "error_type" (type_name e)])) ;;
  guard_and_submit owner repo title body base_branch new_branch_created
    original_head head base head_branch.

(** The messages of the [errors] of an error body (lines 1239-1245). *)
Definition error_details (e : exn) : list pystr :=
  match e with
  | GithubException _ _ (Some body) _ =>
      match eb_errors body with
      | Some errors =>
          flat_map (fun err => match err with
                               | ErrorDict (Some (c :: m)) => [c :: m]
                               | _ => []
                               end) errors
      | None => []
      end
  | _ => []
  end.

(** Lines 1228-1279: the [except GithubException] block of
    [create_pull_request]. *)
Definition pull_request_github_payload (head base : json) (e : exn)
    : list (string * json) :=
  let details := error_details e in
  let is_duplicate_pr :=
    existsb (fun m => has_substring (lit "pull request already exists") (lower m)
                      || has_substring (lit "already exists") (lower m))
      details in
  let no_commits :=
    existsb (fun m => has_substring (lit "No commits") m
                      || has_substring (lit "no commits") (lower m))
      details in
  let error_msg :=
    if no_commits then JFmt TNoCommitsBetween [head; base]
    else github_message e in
  [kv "success" (JBool false);
   kv "error" (JFmt TGithubApiError [error_msg]);
   kv "status" (status_of e);
   kv "error_type" (type_name e)]
  ++ (match details with
      | [] => []
      | _ => [kv "error_details" (JArr (map JStr details))]
      end)
  ++ (if status_is 422 e then
        [kv "suggestion"
           (JFmt (TSuggestion (if is_duplicate_pr then 1268 else 1270)) [])]
      else []).

(** The two [except] blocks that close [create_pull_request], with the
    values [head] and [base] have when the exception arrives. *)
Definition pull_request_error {A} (head base : json) (e : exn) : M A :=
  return_ (tool_result (if is_github_exception e
                        then pull_request_github_payload head base e
                        else generic_error_payload e)).

(** [f"{owner}/{repo}"] *)
Definition full_name (owner repo : json) : pystr :=
  format_value owner ++ lit "/" ++ format_value repo.

(** Lines 1042-1057. *)
Definition fetch_base (base : json) : M Branch :=
  try_except_github (get_branch base)
    (fun e => return_ (tool_result
                         [kv "success" (JBool false);
                          kv "error" (JFmt TBaseMissing
                                        [base; branch_error_detail e]);
                          kv "status" (status_of e);
                          kv "error_type" (type_name e)])).

(** Lines 911-1303.  The function is one [try] whose handlers return an
    error result built from the current [head] and [base]; here the handler
    is attached to each stretch of the body over which the two do not
    change. *)
Definition create_pull_request (owner repo title head base body : json)
    : M json :=
  def
    (opened <-
       try_except
         (_ <- _get_github_client ;;
          repository <- get_repo (full_name owner repo) ;;
          ret (repository,
               if negb (truthy base) then JStr (r_default_branch repository)
               else base))
         (pull_request_error head base) ;;
     let repository := fst opened in
     let base := snd opened in
     head <-
       try_except (if negb (truthy head) then default_head base else ret head)
         (pull_request_error head base) ;;
     base <-
       try_except
         (if values_equal head base then other_base repository head base
          else ret base)
         (pull_request_error head base) ;;
     base_branch <-
       try_except (fetch_base base) (pull_request_error head base) ;;
     let original_head := head in
     checked <- avoid_collision head base ;;
     let head := fst checked in
     let new_branch_created := snd checked in
     try_except
       (submit owner repo title body base_branch new_branch_created
          original_head head base)
       (pull_request_error head base)).

(* ================================================================= *)
(** ** The other tools (lines 484-909 and 1305-1915) *)

(** Codecs of the runtime: [bytes.decode('utf-8')] and [str.encode('utf-8')]
    ([None] when they raise), [base64.b64encode] and [base64.b64decode]
    (which raises [binascii.Error] or something else). *)
Variable utf8_decode : list N -> option pystr.
Variable utf8_encode : pystr -> option (list N).
Variable b64encode : list N -> pystr.
Variable b64decode : pystr -> list N + exn.

(** The two [except] blocks every tool but [get_help] ends with. *)
Definition tool (body : M json) : M json :=
  def (try_except body
         (fun e => return_ (tool_result
                              (if is_github_exception e
                               then github_error_payload e
                               else generic_error_payload e)))).

(** [v.isoformat() if v else None] *)
Definition isoformat (v : json) : json :=
  if truthy v then JFmt TIsoformat [v] else JNull.

Definition clock_value (t : DateTime) : json :=
  JArr [JNum (Z.of_N (dt_year t)); JNum (Z.of_N (dt_month t));
        JNum (Z.of_N (dt_day t)); JNum (Z.of_N (dt_hour t));
        JNum (Z.of_N (dt_minute t)); JNum (Z.of_N (dt_second t))].

Definition help_tool (name : string) (line : nat) : json :=
  JObj [kv "name" (JStr (lit name)); kv "description" (JFmt (THelp line) [])].

(** Lines 484-530. *)
Definition get_help : M json :=
  t <- datetime_now ;;
  ret (tool_result
         [kv "success" (JBool true);
          kv "message" (JFmt (THelp 492) []);
          kv "data"
            (JObj [kv "server" (JFmt (THelp 494) []);
                   kv "version" (JStr (lit "1.0.0"));
                   kv "total_functions" (JNum 10);
                   kv "tools"
                     (JArr [help_tool "read_file" 498;
                            help_tool "create_branch" 499;
                            help_tool "create_or_update_file" 500;
                            help_tool "create_pull_request" 501;
                            help_tool "list_branches" 502;
                            help_tool "get_repository" 503;
                            help_tool "list_repositories" 504;
                            help_tool "list_pull_requests" 505;
                            help_tool "get_pull_request" 506;
                            help_tool "get_help" 507]);
                   kv "environment_variables"
                     (JObj [kv "GITHUB_APP_ID" (JFmt (THelp 510) []);
                            kv "GITHUB_APP_PRIVATE_KEY" (JFmt (THelp 511) []);
                            kv "GITHUB_APP_PRIVATE_KEY_PATH"
                              (JFmt (THelp 512) []);
                            kv "GITHUB_APP_INSTALLATION_ID"
                              (JFmt (THelp 513) [])]);
                   kv "usage_tips"
                     (JArr (map (fun line => JFmt (THelp line) [])
                              [516; 517; 518; 519; 520; 521; 522; 523]%nat))]);
          kv "timestamp" (JFmt TIsoformat [clock_value t])]).

(** [repository.get_contents(path, ref=ref)] *)
Definition get_contents (path ref : json) : M Contents :=
  p <- expect_str path ;;
  r <- expect_str ref ;;
  request (GetContents path ref)
    (fun w => match r_files (w_repo w) p r with
              | Some c => (inl c, w)
              | None => (inr not_found, w)
              end).

(** [type(v).__name__] *)
Definition py_type (v : json) : string :=
  match v with
  | JNull => "NoneType"
  | JBool _ => "bool"
  | JNum _ => "int"
  | JFloat _ => "float"
  | JStr _ | JFmt _ _ | JDumps _ => "str"
  | JArr _ => "list"
  | JObj _ => "dict"
  end.

(** The exception of reading an attribute that a value of the type does
    not have. *)
Definition attribute_error (type attribute : string) : exn :=
  PyError "AttributeError"
    (JStr (lit ("'" ++ type ++ "' object has no attribute '"
                ++ attribute ++ "'"))).

(** Reading a file's attribute from what [get_contents] gave. *)
Definition as_file (c : Contents) (attribute : string) : M FileContent :=
  match c with
  | ContentFile f => ret f
  | ContentList _ =>
      raise (attribute_error "list" attribute)
  end.

(** Lines 544-562. *)
Definition file_missing (path ref : json) (e : exn) : M Contents :=
  if status_is 404 e then
    return_ (tool_result
               [kv "success" (JBool false);
                kv "error"
                  (JFmt TFileMissing
                     [path; ref;
                      match e with
                      | GithubException _ _ (Some body) _ =>
                          match eb_message body with
                          | Some m => JStr m
                          | None => JStr (lit "Not Found")
                          end
                      | _ => str_of e
                      end]);
                kv "status" (JNum 404);
                kv "error_type" (type_name e)])
  else raise e.

Definition strip_newlines (s : pystr) : pystr :=
  filter (fun c => negb (N.eqb c 10 || N.eqb c 13)) s.

Definition as_text (s : pystr) : list (string * json) :=
  [kv "content" (JStr s); kv "is_binary" (JBool false)].

Definition as_base64 (v : json) : list (string * json) :=
  [kv "content_base64" v; kv "is_binary" (JBool true)].

(** Lines 579-609: the entries of the result that hold the content. *)
Definition decoded_fields (f : FileContent) : list (string * json) :=
  let failed (e : exn) :=
    as_base64 (opt_str (fc_content f)) ++ [kv "decode_error" (str_of e)] in
  match fc_decoded f with
  | inr e => failed e
  | inl ((_ :: _) as bytes) =>
      match utf8_decode bytes with
      | Some text => as_text text
      | None => as_base64 (JStr (b64encode bytes))
      end
  | inl [] =>
      match fc_content f with
      | Some ((_ :: _) as content) =>
          match b64decode (strip_newlines content) with
          | inl bytes =>
              match utf8_decode bytes with
              | Some text => as_text text
              | None => as_base64 (JStr content)
              end
          | inr (PyError "Error" _) => as_base64 (JStr content)
          | inr e => failed e
          end
      | _ => as_text []
      end
  end.

(** Lines 532-663. *)
Definition read_file (owner repo path ref : json) : M json :=
  tool
    (_ <- _get_github_client ;;
     repository <- get_repo (full_name owner repo) ;;
     let ref := if negb (truthy ref) then JStr (r_default_branch repository)
                else ref in
     contents <- try_except_github (get_contents path ref)
                   (file_missing path ref) ;;
     f <- as_file contents "size" ;;
     ret (tool_result
            ([kv "success" (JBool true);
              kv "owner" owner;
              kv "repo" repo;
              kv "path" path;
              kv "ref" (if truthy ref then ref
                        else JStr (r_default_branch repository));
              kv "size" (attr "size" (fc_attrs f));
              kv "sha" (JStr (fc_sha f));
              kv "encoding" (attr "encoding" (fc_attrs f));
              kv "type" (attr "type" (fc_attrs f))]
             ++ decoded_fields f))).

(** [branch_name.strip()] and the like need a [str]. *)
Definition expect_method (v : json) (method : string) : M pystr :=
  match v with
  | JStr s => ret s
  | _ => raise (attribute_error (py_type v) method)
  end.

(** Lines 701-709. *)
Definition source_ref (repository : Repo) (source_branch source_sha : json)
    : M json :=
  if truthy source_sha then ret source_sha
  else if truthy source_branch then
    b <- get_branch source_branch ;; ret (JStr (b_sha b))
  else
    b <- get_branch (JStr (r_default_branch repository)) ;;
    ret (JStr (b_sha b)).

(** Lines 665-783. *)
Definition create_branch (owner repo branch_name source_branch source_sha : json)
    : M json :=
  tool
    (_ <- _get_github_client ;;
     repository <- get_repo (full_name owner repo) ;;
     original_branch_name <- expect_method branch_name "strip" ;;
     let normalized_branch_name := normalize_branch_name original_branch_name in
     source <- source_ref repository source_branch source_sha ;;
     sha <- expect_str source ;;
     create_git_ref normalized_branch_name sha ;;
     let renamed :=
       negb (pystr_eqb original_branch_name normalized_branch_name) in
     ret (tool_result
            [kv "success" (JBool true);
             kv "owner" owner;
             kv "repo" repo;
             kv "branch_name" (JStr normalized_branch_name);
             kv "original_branch_name"
               (if renamed then branch_name else JNull);
             kv "source_ref" source;
             kv "message"
               (if renamed
                then JFmt TBranchRenamed
                       [JStr normalized_branch_name; branch_name]
                else JFmt TBranchCreated [JStr normalized_branch_name]);
             kv "note" (JFmt (TSuggestion 734) [])])).

(** [repository.update_file(...)] and [repository.create_file(...)] *)
Definition write_file (c : json -> call) (path message content : json)
    : M WriteResult :=
  p <- expect_str path ;;
  _ <- expect_str message ;;
  _ <- expect_str content ;;
  request (c path) (fun w => (inl (r_write (w_repo w) p), w)).

(** Lines 829-846. *)
Definition commit_info (message : json) (commit : option (list (string * json)))
    : json :=
  match commit with
  | Some c =>
      JObj [kv "sha" (attr "sha" c);
            kv "url" (attr "html_url" c);
            kv "message" (if truthy (attr "commit" c) then attr "message" c
                          else message)]
  | None => JObj []
  end.

Definition content_info (content : option (list (string * json))) : json :=
  match content with
  | Some c => JObj [kv "sha" (attr "sha" c); kv "url" (attr "html_url" c)]
  | None => JObj []
  end.

(** Lines 785-909. *)
Definition create_or_update_file
    (owner repo path content message branch is_base64 : json) : M json :=
  tool
    (_ <- _get_github_client ;;
     repository <- get_repo (full_name owner repo) ;;
     let branch := if negb (truthy branch)
                   then JStr (r_default_branch repository) else branch in
     sha <- try_except_github
              (c <- get_contents path branch ;;
               f <- as_file c "sha" ;;
               ret (Some (fc_sha f)))
              (fun _ => ret None) ;;
     file_content_base64 <-
       (if truthy is_base64 then ret content
        else
          text <- expect_method content "encode" ;;
          match utf8_encode text with
          | Some bytes => ret (JStr (b64encode bytes))
          | None => raise (PyError "UnicodeEncodeError" (JStr (lit "utf-8")))
          end) ;;
     result <- match sha with
               | Some (_ :: _) =>
                   write_file UpdateFile path message file_content_base64
               | _ => write_file CreateFile path message file_content_base64
               end ;;
     ret (tool_result
            [kv "success" (JBool true);
             kv "owner" owner;
             kv "repo" repo;
             kv "path" path;
             kv "branch" branch;
             kv "action" (JStr (lit (match sha with
                                     | Some _ => "updated"
                                     | None => "created"
                                     end)));
             kv "commit" (commit_info message (wr_commit result));
             kv "content" (content_info (wr_content result))])).

(** Lines 1313-1321: the date of the last commit of a branch. *)
Definition last_commit_at (b : Branch) : M json :=
  match b_date b with
  | DateKnown q => ret (JFmt TIsoformat [JFloat q])
  | DateMissing => ret JNull
  | DateFails e => raise e
  end.

(** Lines 1312-1329. *)
Fixpoint branch_entries (repository : Repo) (branches : list Branch)
    : M (list json) :=
  match branches with
  | [] => ret []
  | b :: rest =>
      pushed_at <- last_commit_at b ;;
      entries <- branch_entries repository rest ;;
      ret (JObj [kv "name" (JStr (b_name b));
                 kv "sha" (JStr (b_sha b));
                 kv "protected" (JBool (b_protected b));
                 kv "last_commit_at" pushed_at;
                 kv "is_default"
                   (JBool (pystr_eqb (b_name b) (r_default_branch repository)))]
           :: entries)
  end.

Definition total {A} (l : list A) : json := JNum (Z.of_nat (List.length l)).

(** Lines 1305-1389. *)
Definition list_branches (owner repo : json) : M json :=
  tool
    (_ <- _get_github_client ;;
     repository <- get_repo (full_name owner repo) ;;
     listed <- get_branches ;;
     branches <- branch_entries repository listed ;;
     ret (tool_result
            [kv "success" (JBool true);
             kv "owner" owner;
             kv "repo" repo;
             kv "branches" (JArr branches);
             kv "total" (total branches)])).

(** Lines 1391-1471. *)
Definition get_repository (owner repo : json) : M json :=
  tool
    (_ <- _get_github_client ;;
     repository <- get_repo (full_name owner repo) ;;
     let a := r_attrs repository in
     ret (tool_result
            [kv "success" (JBool true);
             kv "repository"
               (JObj [kv "id" (attr "id" a);
                      kv "name" (attr "name" a);
                      kv "full_name" (JStr (r_full_name repository));
                      kv "owner" (attr "owner" a);
                      kv "description" (attr "description" a);
                      kv "url" (attr "html_url" a);
                      kv "default_branch" (JStr (r_default_branch repository));
                      kv "private" (attr "private" a);
                      kv "fork" (attr "fork" a);
                      kv "archived" (attr "archived" a);
                      kv "created_at" (isoformat (attr "created_at" a));
                      kv "updated_at" (isoformat (attr "updated_at" a));
                      kv "pushed_at" (isoformat (attr "pushed_at" a));
                      kv "stargazers_count" (attr "stargazers_count" a);
                      kv "watchers_count" (attr "watchers_count" a);
                      kv "forks_count" (attr "forks_count" a);
                      kv "open_issues_count" (attr "open_issues_count" a);
                      kv "language" (attr "language" a)])])).

(** [pr.user.login if pr.user else None] *)
Definition user_login (a : list (string * json)) : json :=
  if truthy (attr "user" a) then attr "login" a else JNull.

(** Lines 1481-1491. *)
Definition pull_entry (pr : Pull) : json :=
  let a := pr_attrs pr in
  JObj [kv "number" (JNum (pr_number pr));
        kv "title" (pr_title pr);
        kv "state" (JStr (pr_state pr));
        kv "head" (JStr (pr_head pr));
        kv "base" (JStr (pr_base pr));
        kv "url" (attr "html_url" a);
        kv "created_at" (isoformat (attr "created_at" a));
        kv "updated_at" (isoformat (attr "updated_at" a));
        kv "user" (user_login a)].

(** Lines 1473-1552. *)
Definition list_pull_requests (owner repo state : json) : M json :=
  tool
    (_ <- _get_github_client ;;
     repository <- get_repo (full_name owner repo) ;;
     pulls <- get_pulls state ;;
     let prs := map pull_entry pulls in
     ret (tool_result
            [kv "success" (JBool true);
             kv "owner" owner;
             kv "repo" repo;
             kv "state" state;
             kv "pull_requests" (JArr prs);
             kv "total" (total prs)])).

(** [repository.get_pull(number)]: PyGithub asserts that the number is an
    [int], which a [bool] is; the number is put into the address as its
    text, and no pull request has the address of [True] or [False]. *)
Definition get_pull (number : json) : M Pull :=
  n <- match number with
       | JNum z => ret (Some z)
       | JBool _ => ret None
       | _ => raise (PyError "AssertionError" (JStr (py_str number)))
       end ;;
  request (GetPull number)
    (fun w => match n with
              | Some z =>
                  match find (fun pr => Z.eqb (pr_number pr) z)
                          (r_pulls (w_repo w)) with
                  | Some pr => (inl pr, w)
                  | None => (inr not_found, w)
                  end
              | None => (inr not_found, w)
              end).

(** Lines 1554-1636. *)
Definition get_pull_request (owner repo number : json) : M json :=
  tool
    (_ <- _get_github_client ;;
     repository <- get_repo (full_name owner repo) ;;
     pr <- get_pull number ;;
     let a := pr_attrs pr in
     ret (tool_result
            [kv "success" (JBool true);
             kv "owner" owner;
             kv "repo" repo;
             kv "pull_request"
               (JObj [kv "number" (JNum (pr_number pr));
                      kv "title" (pr_title pr);
                      kv "body" (pr_body pr);
                      kv "state" (JStr (pr_state pr));
                      kv "head" (JStr (pr_head pr));
                      kv "base" (JStr (pr_base pr));
                      kv "url" (attr "html_url" a);
                      kv "created_at" (isoformat (attr "created_at" a));
                      kv "updated_at" (isoformat (attr "updated_at" a));
                      kv "merged_at" (isoformat (attr "merged_at" a));
                      kv "merged" (attr "merged" a);
                      kv "mergeable" (attr "mergeable" a);
                      kv "user" (user_login a);
                      kv "draft" (attr "draft" a);
                      kv "additions" (attr "additions" a);
                      kv "deletions" (attr "deletions" a);
                      kv "changed_files" (attr "changed_files" a)])])).

(** [l.sort(key=key, reverse=reverse)] on values of types the program does
    not know, or the exception it raises when two keys cannot be compared. *)
Variable py_sort : (json -> json) -> bool -> list json -> list json + exn.

(** [d.get(key, default)] *)
Definition get_or (key : string) (default : json) (d : list (string * json))
    : json :=
  match lookup key d with
  | Some v => v
  | None => default
  end.

(** [x[key]] on an entry of the result. *)
Definition field (key : string) (x : json) : json :=
  match x with
  | JObj fields => attr key fields
  | _ => JNull
  end.

(** Lines 1654-1673 and 1680-1699: the entry of a repository PyGithub
    lists. *)
Definition repository_entry (a : list (string * json)) : json :=
  JObj [kv "id" (attr "id" a);
        kv "name" (attr "name" a);
        kv "full_name" (attr "full_name" a);
        kv "owner" (attr "owner" a);
        kv "description" (attr "description" a);
        kv "url" (attr "html_url" a);
        kv "default_branch" (attr "default_branch" a);
        kv "private" (attr "private" a);
        kv "fork" (attr "fork" a);
        kv "archived" (attr "archived" a);
        kv "created_at" (isoformat (attr "created_at" a));
        kv "updated_at" (isoformat (attr "updated_at" a));
        kv "pushed_at" (isoformat (attr "pushed_at" a));
        kv "stargazers_count" (attr "stargazers_count" a);
        kv "watchers_count" (attr "watchers_count" a);
        kv "forks_count" (attr "forks_count" a);
        kv "open_issues_count" (attr "open_issues_count" a);
        kv "language" (attr "language" a)].

(** Lines 1721-1725 and 1792-1796. *)
Definition owner_login (repo_data : list (string * json)) : json :=
  match attr "owner" repo_data with
  | JObj o => attr "login" o
  | v => if truthy v then v else JNull
  end.

(** Lines 1727-1746 and 1798-1817: the entry of a repository of the
    installation. *)
Definition installation_entry (repo_data : list (string * json)) (login : json)
    : json :=
  JObj [kv "id" (attr "id" repo_data);
        kv "name" (attr "name" repo_data);
        kv "full_name" (attr "full_name" repo_data);
        kv "owner" login;
        kv "description" (attr "description" repo_data);
        kv "url" (attr "html_url" repo_data);
        kv "default_branch" (attr "default_branch" repo_data);
        kv "private" (get_or "private" (JBool false) repo_data);
        kv "fork" (get_or "fork" (JBool false) repo_data);
        kv "archived" (get_or "archived" (JBool false) repo_data);
        kv "created_at" (attr "created_at" repo_data);
        kv "updated_at" (attr "updated_at" repo_data);
        kv "pushed_at" (attr "pushed_at" repo_data);
        kv "stargazers_count" (get_or "stargazers_count" (JNum 0) repo_data);
        kv "watchers_count" (get_or "watchers_count" (JNum 0) repo_data);
        kv "forks_count" (get_or "forks_count" (JNum 0) repo_data);
        kv "open_issues_count" (get_or "open_issues_count" (JNum 0) repo_data);
        kv "language" (attr "language" repo_data)].

(** [github.get_user(login)] and [github.get_organization(login)] *)
Definition get_account (c : pystr -> call)
    (accounts : World -> pystr -> option (list (list (string * json))))
    (login : json) : M (list (list (string * json))) :=
  n <- expect_str login ;;
  request (c n)
    (fun w => match accounts w n with
              | Some repos => (inl repos, w)
              | None => (inr not_found, w)
              end).

(** [list(account.get_repos(type=, sort=, direction=))] *)
Definition get_repos (c : call) (repos : list (list (string * json)))
    (repo_type sort direction : json) : M (list (list (string * json))) :=
  _ <- expect_str repo_type ;;
  _ <- expect_str sort ;;
  _ <- expect_str direction ;;
  request c (fun w => (inl repos, w)).

Definition empty_page : Response ReposPage :=
  {| resp_ok := true; resp_status := 200;
     resp_body := Some {| page_repositories := Some [];
                          page_total_count := Some 0%Z |} |}.

(** [requests.get(url, headers=headers, params={page, per_page})], whose
    headers carry the [token] as the authorization: past the last page the
    remote side answers a page without repositories. *)
Definition get_installation_repositories (token : pystr) (page : Z)
    : M (Response ReposPage) :=
  request_as (GetInstallationRepos token page) (@http_error ReposPage)
    (fun w => (inl (nth (Z.to_nat (page - 1)) (w_pages w) empty_page), w)).

Definition per_page : nat := 100.

(** The loops of lines 1711-1750 and 1779-1823, which differ in the entries
    they keep and in the test that ends them.  [following] is the pages after
    the one being requested: when there is none the answer has no
    repositories and the loop ends. *)
Fixpoint installation_pages
    (keep : list (string * json) -> M (list json))
    (done : list json -> Z -> bool) (token : pystr)
    (following : list (Response ReposPage)) (page : Z)
    (repositories : list json) : M (list json) :=
  response <- get_installation_repositories token page ;;
  raise_for_status response ;;
  data <- response_json response ;;
  match page_repositories data with
  | None => ret repositories
  | Some [] => ret repositories
  | Some repos_data =>
      kept <- (fix each (l : list (list (string * json))) : M (list json) :=
                 match l with
                 | [] => ret []
                 | repo_data :: rest =>
                     entry <- keep repo_data ;;
                     entries <- each rest ;;
                     ret (entry ++ entries)
                 end) repos_data ;;
      let repositories := repositories ++ kept in
      let total_count := match page_total_count data with
                         | Some n => n
                         | None => 0%Z
                         end in
      if done repositories total_count
         || Nat.ltb (List.length repos_data) per_page
      then ret repositories
      else match following with
           | [] => ret repositories
           | _ :: rest =>
               installation_pages keep done token rest (page + 1)
                 repositories
           end
  end.

Definition installation_repositories
    (keep : list (string * json) -> M (list json))
    (done : list json -> Z -> bool) (token : pystr) : M (list json) :=
  fun w => installation_pages keep done token (w_pages w) 1 [] w.

(** Lines 1719-1746: the repositories of the installation that belong to
    [owner]. *)
Definition keep_owned (owner : pystr) (repo_data : list (string * json))
    : M (list json) :=
  let repo_owner_login := owner_login repo_data in
  if truthy repo_owner_login then
    login <- expect_method repo_owner_login "lower" ;;
    ret (if pystr_eqb (lower login) (lower owner)
         then [installation_entry repo_data repo_owner_login] else [])
  else ret [].

(** Lines 1790-1817. *)
Definition keep_all (repo_data : list (string * json)) : M (list json) :=
  ret [installation_entry repo_data (owner_login repo_data)].

(** Lines 1650-1750: the repositories of a user, else of an organization,
    else those of the installation that belong to the owner. *)
Definition repositories_of (owner repo_type sort direction : json)
    : M (list json) :=
  try_except_github
    (user <- get_account GetUser w_accounts owner ;;
     repos <- get_repos GetUserRepos user repo_type sort direction ;;
     ret (map repository_entry repos))
    (fun _ =>
       try_except_github
         (org <- get_account GetOrganization w_orgs owner ;;
          repos <- get_repos GetOrgRepos org repo_type sort direction ;;
          ret (map repository_entry repos))
         (fun _ =>
            token <- _get_installation_token ;;
            name <- expect_method owner "lower" ;;
            installation_repositories (keep_owned name) (fun _ _ => false)
              token)).

(** Lines 1826-1833. *)
Definition sort_repositories (sort direction : json) (repositories : list json)
    : M (list json) :=
  let sorted_on (key : string) :=
    match py_sort (fun x => if truthy (field key x) then field key x
                            else JStr [])
            (values_equal direction (JStr (lit "desc"))) repositories with
    | inl sorted => ret sorted
    | inr e => raise e
    end in
  if values_equal sort (JStr (lit "updated")) then sorted_on "updated_at"%string
  else if values_equal sort (JStr (lit "created")) then sorted_on "created_at"%string
  else if values_equal sort (JStr (lit "pushed")) then sorted_on "pushed_at"%string
  else if values_equal sort (JStr (lit "full_name")) then sorted_on "full_name"%string
  else ret repositories.

(** Lines 1835-1839. *)
Definition filter_type (repo_type : json) (repositories : list json)
    : list json :=
  if values_equal repo_type (JStr (lit "public"))
  then filter (fun r => negb (truthy (field "private" r))) repositories
  else if values_equal repo_type (JStr (lit "private"))
  then filter (fun r => truthy (field "private" r)) repositories
  else repositories.

(** Lines 1764-1851: every repository of the installation. *)
Definition repositories_of_installation (repo_type sort direction : json)
    : M (list json) :=
  token <- _get_installation_token ;;
  repositories <-
    installation_repositories keep_all
      (fun repositories total_count =>
         Z.leb total_count (Z.of_nat (List.length repositories))) token ;;
  repositories <- sort_repositories sort direction repositories ;;
  ret (filter_type repo_type repositories).

(** Lines 1638-1915. *)
Definition list_repositories (owner repo_type sort direction : json) : M json :=
  tool
    (_ <- _get_github_client ;;
     repositories <-
       (if truthy owner then
          try_except (repositories_of owner repo_type sort direction)
            (fun e => return_ (tool_result
                                 [kv "success" (JBool false);
                                  kv "error"
                                    (JFmt TUserReposError [owner; str_of e]);
                                  kv "status" (status_of e)]))
        else
          try_except (repositories_of_installation repo_type sort direction)
            (fun e => return_ (tool_result
                                 [kv "success" (JBool false);
                                  kv "error"
                                    (JFmt TInstallReposError [str_of e])]))) ;;
     ret (tool_result
            [kv "success" (JBool true);
             kv "owner" (if truthy owner then owner
                         else JStr (lit "GitHub App Installation"));
             kv "type" repo_type;
             kv "sort" sort;
             kv "direction" direction;
             kv "repositories" (JArr repositories);
             kv "total" (total repositories)])).

(** [arguments.get(key, default)]: a value that is not a dict has no
    [get]. *)
Definition arguments_get (arguments : json) (key : string) (default : json)
    : M json :=
  match arguments with
  | JObj fields => ret (get_or key default fields)
  | _ => raise (attribute_error (py_type arguments) "get")
  end.

Definition tool_is (name : json) (tool_name : string) : bool :=
  values_equal name (JStr (lit tool_name)).

(** [arguments.get(key)] *)
Definition arg (arguments : json) (key : string) : M json :=
  arguments_get arguments key JNull.

(** Lines 411-482. *)
Definition handle_tools_call (name arguments : json) : M json :=
  def
    (try_except
       (if tool_is name "get_help" then
          r <- get_help ;; return_ r
        else if tool_is name "read_file" then
          owner <- arg arguments "owner" ;;
          repo <- arg arguments "repo" ;;
          path <- arg arguments "path" ;;
          ref <- arg arguments "ref" ;;
          r <- read_file owner repo path ref ;; return_ r
        else if tool_is name "create_branch" then
          owner <- arg arguments "owner" ;;
          repo <- arg arguments "repo" ;;
          branch_name <- arg arguments "branch_name" ;;
          source_branch <- arg arguments "source_branch" ;;
          source_sha <- arg arguments "source_sha" ;;
          r <- create_branch owner repo branch_name source_branch source_sha ;;
          return_ r
        else if tool_is name "create_or_update_file" then
          owner <- arg arguments "owner" ;;
          repo <- arg arguments "repo" ;;
          path <- arg arguments "path" ;;
          content <- arg arguments "content" ;;
          message <- arg arguments "message" ;;
          branch <- arg arguments "branch" ;;
          is_base64 <- arguments_get arguments "is_base64" (JBool false) ;;
          r <- create_or_update_file owner repo path content message branch
                 is_base64 ;;
          return_ r
        else if tool_is name "create_pull_request" then
          owner <- arg arguments "owner" ;;
          repo <- arg arguments "repo" ;;
          title <- arg arguments "title" ;;
          head <- arg arguments "head" ;;
          base <- arg arguments "base" ;;
          body <- arg arguments "body" ;;
          r <- create_pull_request owner repo title head base body ;;
          return_ r
        else if tool_is name "list_branches" then
          owner <- arg arguments "owner" ;;
          repo <- arg arguments "repo" ;;
          r <- list_branches owner repo ;; return_ r
        else if tool_is name "get_repository" then
          owner <- arg arguments "owner" ;;
          repo <- arg arguments "repo" ;;
          r <- get_repository owner repo ;; return_ r
        else if tool_is name "list_pull_requests" then
          owner <- arg arguments "owner" ;;
          repo <- arg arguments "repo" ;;
          state <- arguments_get arguments "state" (JStr (lit "open")) ;;
          r <- list_pull_requests owner repo state ;; return_ r
        else if tool_is name "get_pull_request" then
          owner <- arg arguments "owner" ;;
          repo <- arg arguments "repo" ;;
          pr_number <- arg arguments "pr_number" ;;
          r <- get_pull_request owner repo pr_number ;; return_ r
        else if tool_is name "list_repositories" then
          owner <- arg arguments "owner" ;;
          repo_type <- arguments_get arguments "type" (JStr (lit "all")) ;;
          sort <- arguments_get arguments "sort" (JStr (lit "updated")) ;;
          direction <- arguments_get arguments "direction" (JStr (lit "desc")) ;;
          r <- list_repositories owner repo_type sort direction ;; return_ r
        else return_ (JObj [kv "error" (JFmt TUnknownTool [name])]))
       (fun e => return_ (JObj [kv "error" (str_of e)]))).

(* ================================================================= *)
(** ** The protocol loop (lines 111-409 and 1917-1966) *)

(** [json.loads(text)]: the value, or the exception it raises. *)
Variable json_loads : pystr -> json + exn.

(** Lines 111-132: the answer to [initialize], whatever the parameters. *)
Definition handle_initialize (params : json) : json :=
  JObj [kv "protocolVersion" (JStr (lit "2024-11-05"));
        kv "capabilities"
          (JObj [kv "tools" (JObj [kv "listChanged" (JBool true)]);
                 kv "resources" (JObj [kv "subscribe" (JBool true);
                                       kv "listChanged" (JBool true)]);
                 kv "prompts" (JObj [kv "listChanged" (JBool true)])]);
        kv "serverInfo"
          (JObj [kv "name" (JStr (lit "github-app"));
                 kv "version" (JStr (lit "1.0.0"));
                 kv "description" (JFmt (TText 130) [])])].

(** Lines 134-409: the catalog of the tools.  The descriptions, long texts
    for the reader of the catalog, are named by their lines. *)
Definition handle_tools_list : json :=
  JObj
    [kv "tools"
       (JArr
          [JObj
            [kv "name" (JStr (lit "read_file"));
             kv "description" (JFmt (TText 140) []);
             kv "inputSchema" (JObj
              [kv "type" (JStr (lit "object"));
               kv "properties" (JObj
                [kv "owner" (JObj
                  [kv "type" (JStr (lit "string"));
                   kv "description" (JFmt (TText 146) [])]);
                 kv "repo" (JObj
                  [kv "type" (JStr (lit "string"));
                   kv "description" (JFmt (TText 150) [])]);
                 kv "path" (JObj
                  [kv "type" (JStr (lit "string"));
                   kv "description" (JFmt (TText 154) [])]);
                 kv "ref" (JObj
                  [kv "type" (JStr (lit "string"));
                   kv "description" (JFmt (TText 158) [])])]);
               kv "required" (JArr
                [JStr (lit "owner");
                 JStr (lit "repo");
                 JStr (lit "path")])])];
           JObj
            [kv "name" (JStr (lit "create_branch"));
             kv "description" (JFmt (TText 168) []);
             kv "inputSchema" (JObj
              [kv "type" (JStr (lit "object"));
               kv "properties" (JObj
                [kv "owner" (JObj
                  [kv "type" (JStr (lit "string"));
                   kv "description" (JFmt (TText 174) [])]);
                 kv "repo" (JObj
                  [kv "type" (JStr (lit "string"));
                   kv "description" (JFmt (TText 178) [])]);
                 kv "branch_name" (JObj
                  [kv "type" (JStr (lit "string"));
                   kv "description" (JFmt (TText 182) [])]);
                 kv "source_branch" (JObj
                  [kv "type" (JStr (lit "string"));
                   kv "description" (JFmt (TText 186) [])]);
                 kv "source_sha" (JObj
                  [kv "type" (JStr (lit "string"));
                   kv "description" (JFmt (TText 190) [])])]);
               kv "required" (JArr
                [JStr (lit "owner");
                 JStr (lit "repo");
                 JStr (lit "branch_name")])])];
           JObj
            [kv "name" (JStr (lit "create_or_update_file"));
             kv "description" (JFmt (TText 200) []);
             kv "inputSchema" (JObj
              [kv "type" (JStr (lit "object"));
               kv "properties" (JObj
                [kv "owner" (JObj
                  [kv "type" (JStr (lit "string"));
                   kv "description" (JFmt (TText 206) [])]);
                 kv "repo" (JObj
                  [kv "type" (JStr (lit "string"));
                   kv "description" (JFmt (TText 210) [])]);
                 kv "path" (JObj
                  [kv "type" (JStr (lit "string"));
                   kv "description" (JFmt (TText 214) [])]);
                 kv "content" (JObj
                  [kv "type" (JStr (lit "string"));
                   kv "description" (JFmt (TText 218) [])]);
                 kv "message" (JObj
                  [kv "type" (JStr (lit "string"));
                   kv "description" (JFmt (TText 222) [])]);
                 kv "branch" (JObj
                  [kv "type" (JStr (lit "string"));
                   kv "description" (JFmt (TText 226) [])]);
                 kv "is_base64" (JObj
                  [kv "type" (JStr (lit "boolean"));
                   kv "description" (JFmt (TText 230) [])])]);
               kv "required" (JArr
                [JStr (lit "owner");
                 JStr (lit "repo");
                 JStr (lit "path");
                 JStr (lit "content");
                 JStr (lit "message")])])];
           JObj
            [kv "name" (JStr (lit "create_pull_request"));
             kv "description" (JFmt (TText 240) []);
             kv "inputSchema" (JObj
              [kv "type" (JStr (lit "object"));
               kv "properties" (JObj
                [kv "owner" (JObj
                  [kv "type" (JStr (lit "string"));
                   kv "description" (JFmt (TText 246) [])]);
                 kv "repo" (JObj
                  [kv "type" (JStr (lit "string"));
                   kv "description" (JFmt (TText 250) [])]);
                 kv "title" (JObj
                  [kv "type" (JStr (lit "string"));
                   kv "description" (JFmt (TText 254) [])]);
                 kv "body" (JObj
                  [kv "type" (JStr (lit "string"));
                   kv "description" (JFmt (TText 258) [])]);
                 kv "head" (JObj
                  [kv "type" (JStr (lit "string"));
                   kv "description" (JFmt (TText 262) [])]);
                 kv "base" (JObj
                  [kv "type" (JStr (lit "string"));
                   kv "description" (JFmt (TText 266) [])])]);
               kv "required" (JArr
                [JStr (lit "owner");
                 JStr (lit "repo");
                 JStr (lit "title")])])];
           JObj
            [kv "name" (JStr (lit "list_branches"));
             kv "description" (JFmt (TText 276) []);
             kv "inputSchema" (JObj
              [kv "type" (JStr (lit "object"));
               kv "properties" (JObj
                [kv "owner" (JObj
                  [kv "type" (JStr (lit "string"));
                   kv "description" (JFmt (TText 282) [])]);
                 kv "repo" (JObj
                  [kv "type" (JStr (lit "string"));
                   kv "description" (JFmt (TText 286) [])])]);
               kv "required" (JArr [JStr (lit "owner"); JStr (lit "repo")])])];
           JObj
            [kv "name" (JStr (lit "get_repository"));
             kv "description" (JFmt (TText 296) []);
             kv "inputSchema" (JObj
              [kv "type" (JStr (lit "object"));
               kv "properties" (JObj
                [kv "owner" (JObj
                  [kv "type" (JStr (lit "string"));
                   kv "description" (JFmt (TText 302) [])]);
                 kv "repo" (JObj
                  [kv "type" (JStr (lit "string"));
                   kv "description" (JFmt (TText 306) [])])]);
               kv "required" (JArr [JStr (lit "owner"); JStr (lit "repo")])])];
           JObj
            [kv "name" (JStr (lit "list_pull_requests"));
             kv "description" (JFmt (TText 316) []);
             kv "inputSchema" (JObj
              [kv "type" (JStr (lit "object"));
               kv "properties" (JObj
                [kv "owner" (JObj
                  [kv "type" (JStr (lit "string"));
                   kv "description" (JFmt (TText 322) [])]);
                 kv "repo" (JObj
                  [kv "type" (JStr (lit "string"));
                   kv "description" (JFmt (TText 326) [])]);
                 kv "state" (JObj
                  [kv "type" (JStr (lit "string"));
                   kv "enum" (JArr
                    [JStr (lit "open");
                     JStr (lit "closed");
                     JStr (lit "all")]);
                   kv "description" (JFmt (TText 331) []);
                   kv "default" (JStr (lit "open"))])]);
               kv "required" (JArr [JStr (lit "owner"); JStr (lit "repo")])])];
           JObj
            [kv "name" (JStr (lit "get_pull_request"));
             kv "description" (JFmt (TText 342) []);
             kv "inputSchema" (JObj
              [kv "type" (JStr (lit "object"));
               kv "properties" (JObj
                [kv "owner" (JObj
                  [kv "type" (JStr (lit "string"));
                   kv "description" (JFmt (TText 348) [])]);
                 kv "repo" (JObj
                  [kv "type" (JStr (lit "string"));
                   kv "description" (JFmt (TText 352) [])]);
                 kv "pr_number" (JObj
                  [kv "type" (JStr (lit "integer"));
                   kv "description" (JFmt (TText 356) [])])]);
               kv "required" (JArr
                [JStr (lit "owner");
                 JStr (lit "repo");
                 JStr (lit "pr_number")])])];
           JObj
            [kv "name" (JStr (lit "list_repositories"));
             kv "description" (JFmt (TText 366) []);
             kv "inputSchema" (JObj
              [kv "type" (JStr (lit "object"));
               kv "properties" (JObj
                [kv "owner" (JObj
                  [kv "type" (JStr (lit "string"));
                   kv "description" (JFmt (TText 372) [])]);
                 kv "type" (JObj
                  [kv "type" (JStr (lit "string"));
                   kv "enum" (JArr
                    [JStr (lit "all");
                     JStr (lit "owner");
                     JStr (lit "public");
                     JStr (lit "private");
                     JStr (lit "member")]);
                   kv "description" (JFmt (TText 377) []);
                   kv "default" (JStr (lit "all"))]);
                 kv "sort" (JObj
                  [kv "type" (JStr (lit "string"));
                   kv "enum" (JArr
                    [JStr (lit "created");
                     JStr (lit "updated");
                     JStr (lit "pushed");
                     JStr (lit "full_name")]);
                   kv "description" (JFmt (TText 383) []);
                   kv "default" (JStr (lit "updated"))]);
                 kv "direction" (JObj
                  [kv "type" (JStr (lit "string"));
                   kv "enum" (JArr [JStr (lit "asc"); JStr (lit "desc")]);
                   kv "description" (JFmt (TText 389) []);
                   kv "default" (JStr (lit "desc"))])]);
               kv "required" (JArr [])])];
           JObj
            [kv "name" (JStr (lit "get_help"));
             kv "description" (JFmt (TText 400) []);
             kv "inputSchema" (JObj
              [kv "type" (JStr (lit "object"));
               kv "properties" (JObj []);
               kv "required" (JArr [])])]])].

Definition is_json_decode_error (e : exn) : bool :=
  match e with
  | PyError "JSONDecodeError" _ => true
  | _ => false
  end.

(** [{"jsonrpc": "2.0", "id": request_id, key: value}] *)
Definition rpc (request_id : json) (key : string) (value : json) : json :=
  JObj [kv "jsonrpc" (JStr (lit "2.0")); kv "id" request_id; kv key value].

(** Lines 1929-1949: the response to a request that was parsed. *)
Definition respond (request : json) : M json :=
  method <- arguments_get request "method" JNull ;;
  params <- arguments_get request "params" (JObj []) ;;
  request_id <- arguments_get request "id" JNull ;;
  result <-
    (if values_equal method (JStr (lit "initialize")) then
       ret (handle_initialize params)
     else if values_equal method (JStr (lit "tools/list")) then
       ret handle_tools_list
     else if values_equal method (JStr (lit "tools/call")) then
       name <- arguments_get params "name" JNull ;;
       arguments <- arguments_get params "arguments" (JObj []) ;;
       handle_tools_call name arguments
     else ret (JObj [kv "error" (JFmt TUnknownMethod [method])])) ;;
  ret (rpc request_id "result" result).

(** Lines 1956-1963: the response to an exception.  [request] is the local
    variable of the loop, [None] while nothing was assigned to it. *)
Definition error_response (request : option json) (e : exn) : M json :=
  request_id <- match request with
                | Some r => arguments_get r "id" JNull
                | None => ret JNull
                end ;;
  ret (rpc request_id "error"
         (JObj [kv "code" (JNum (-32603)); kv "message" (str_of e)])).

(** Lines 1954-1963, the two [except] blocks of a turn: a
    [JSONDecodeError] is passed over in silence, any other exception is
    answered. *)
Definition on_exception (request : option json) (e : exn)
    : M (option json * option json) :=
  if is_json_decode_error e then ret (None, request)
  else
    response <- error_response request e ;;
    ret (Some response, request).

(** Lines 1927-1963, one turn of the loop on a line: what is printed, if
    anything, and the value of [request] afterwards.  An exception raised
    in the block of line 1956 itself leaves the turn. *)
Definition turn (line : pystr) (request : option json)
    : M (option json * option json) :=
  match json_loads (strip isspace line) with
  | inr e => on_exception request e
  | inl parsed =>
      try_except
        (response <- respond parsed ;;
         ret (Some response, Some parsed))
        (on_exception (Some parsed))
  end.

(** Lines 1922-1963: the loop over what [readline] gives, an empty string
    being the end of the input.  The result is what was printed and the
    exception that ended the loop, if one did. *)
Fixpoint serve (lines : list pystr) (request : option json)
    : M (list json * option exn) :=
  match lines with
  | [] => ret ([], None)
  | [] :: _ => ret ([], None)
  | line :: rest =>
      step <- try_except (x <- turn line request ;; ret (inl x))
                (fun e => ret (inr e)) ;;
      match step with
      | inr e => ret ([], Some e)
      | inl (printed, request) =>
          more <- serve rest request ;;
          ret (match printed with
               | Some response => response :: fst more
               | None => fst more
               end, snd more)
      end
  end.

(** Lines 1917-1966. *)
Definition main (stdin : list pystr) : M (list json * option exn) :=
  serve stdin None.

(* ================================================================= *)
(** ** Sample worlds *)

Definition sample_jwt_encode (iat exp : Z) (iss : option pystr) (key : pystr)
    : option pystr := Some (lit "jwt").

Definition sample_fromisoformat (s : pystr) : option Q :=
  if pystr_eqb s (lit "2026-11-04T13:00:00+00:00") then Some 1793797200
  else None.

Definition sample_py_eq (a b : json) : bool :=
  match a, b with
  | JNull, JNull => true
  | _, _ => false
  end.

Definition sample_py_str (v : json) : pystr := lit "None".

(** 2026-11-04 12:00:00, whenever the clock is read. *)
Definition noon : DateTime :=
  {| dt_year := 2026; dt_month := 11; dt_day := 4;
     dt_hour := 12; dt_minute := 0; dt_second := 0;
     dt_timestamp := 1793793600 |}.

Definition sample_server : Server :=
  {| app_id := Some (lit "1"); private_key_path := None;
     private_key := Some (lit "key"); installation_id := Some (lit "2");
     github := Some {| client_token := lit "ghs_first" |};
     _installation_token := Some (lit "ghs_first");
     _token_expires_at := Some 1793797200 |}.

Definition branch (name sha : string) (date : Q) : Branch :=
  {| b_name := lit name; b_sha := lit sha; b_date := DateKnown date;
     b_protected := false |}.

Definition open_pull (number : Z) (head base : string) : Pull :=
  {| pr_number := number; pr_state := lit "open"; pr_head := lit head;
     pr_base := lit base; pr_title := JStr (lit "earlier");
     pr_body := JStr []; pr_attrs := [] |}.

(** A repository [o/r] with the branches [main] and [feature], and an open
    pull request from [feature] to [main]. *)
Definition sample_repo (feature_sha : string) (extra : list Branch) : Repo :=
  {| r_full_name := lit "o/r"; r_default_branch := lit "main";
     r_branches := [branch "main" "m1" 100; branch "feature" feature_sha 200]
                   ++ extra;
     r_pulls := [open_pull 1 "feature" "main"];
     r_history := fun sha => if pystr_eqb sha (lit "m1") then [lit "m1"]
                             else [sha; lit "m1"];
     r_files := fun _ _ => None;
     r_write := fun _ => {| wr_commit := None; wr_content := None |};
     r_attrs := [] |}.

Definition sample_world (repo : Repo) (faults : list (option exn)) : World :=
  {| w_server := sample_server; w_clock := fun _ => noon; w_ticks := 0;
     w_random := 7; w_files := fun _ => None; w_tokens := [];
     w_repo := repo; w_accounts := fun _ => None; w_orgs := fun _ => None;
     w_pages := []; w_faults := faults; w_trace := [] |}.

Definition server_error : exn :=
  GithubException "GithubException" 500 None (lit "500").

(** The server of the samples an hour later: the client it built is still
    in place, and the token it cached has expired. *)
Definition stale_server : Server :=
  {| app_id := Some (lit "1"); private_key_path := None;
     private_key := Some (lit "key"); installation_id := Some (lit "2");
     github := Some {| client_token := lit "ghs_first" |};
     _installation_token := Some (lit "ghs_first");
     _token_expires_at := Some 1793790000 |}.

(** The answer of the token endpoint with the token [ghs_second], which
    expires at 13:00. *)
Definition second_token : Response TokenBody :=
  {| resp_ok := true; resp_status := 201;
     resp_body := Some {| tb_token := Some (lit "ghs_second");
                          tb_expires_at := Some (lit "2026-11-04T13:00:00Z") |}
  |}.

Definition stale_world : World :=
  {| w_server := stale_server; w_clock := fun _ => noon; w_ticks := 0;
     w_random := 7; w_files := fun _ => None; w_tokens := [second_token];
     w_repo := sample_repo "f1" []; w_accounts := fun _ => None;
     w_orgs := fun _ => None; w_pages := []; w_faults := [];
     w_trace := [] |}.

(* ================================================================= *)
(** ** What a program sends *)

(** Every request the program sends satisfies [P]. *)
Definition emits {A} (P : call -> bool) (m : M A) : Prop :=
  forall w, exists tr,
    w_trace (snd (m w)) = w_trace w ++ tr
    /\ Forall (fun ev => P (ev_call ev) = true) tr.

(** The requests of the program are a first stretch satisfying [P1]
    followed by a second one satisfying [P2]. *)
Definition emits_then {A} (P1 P2 : call -> bool) (m : M A) : Prop :=
  forall w, exists tr1 tr2,
    w_trace (snd (m w)) = w_trace w ++ tr1 ++ tr2
    /\ Forall (fun ev => P1 (ev_call ev) = true) tr1
    /\ Forall (fun ev => P2 (ev_call ev) = true) tr2.

(** The requests of the check for an open pull request of the same
    direction (step 6), and those of the history guard and of the
    submission (steps 5 and 7). *)
Definition is_check_call (c : call) : bool :=
  match c with
  | GetPulls _ | CreateGitRef _ _ => true
  | _ => false
  end.

Definition is_branch_call (c : call) : bool :=
  match c with
  | GetBranch _ => true
  | _ => false
  end.

Definition is_guard_call (c : call) : bool :=
  match c with
  | GetCommits _ | CreatePull _ _ => true
  | _ => false
  end.

(** The names line 1082 and line 1097 can give at a reading of the clock. *)
Definition is_fork_name (t : DateTime) (n : pystr) : Prop :=
  n = fork_name t
  \/ exists r, (10 <= r <= 99)%N /\ n = fork_name t ++ decimal r.

(** The program keeps the property [I] of the world. *)
Definition maintains {A} (I : World -> Prop) (m : M A) : Prop :=
  forall w, I w -> I (snd (m w)).

(** A property of the world that does not look at the clock, the log or
    the failures to come. *)
Definition stable (I : World -> Prop) : Prop :=
  forall w, I w ->
    (forall n, I (set_ticks n w)) /\ (forall t, I (set_trace t w))
    /\ (forall f, I (set_faults f w)) /\ (forall s, I (set_server s w))
    /\ (forall l, I (set_tokens l w)).

(** What the check of lines 1061-1111 leaves behind: either nothing, the
    head being the one it was given, or a fork of the head under a new
    name, made because an open pull request of the same direction exists. *)
Definition collision_outcome (head base : json) (w w' : World)
    (head' : json) (created : bool) : Prop :=
  (created = false /\ head' = head /\ w_repo w' = w_repo w)
  \/ (created = true
      /\ exists h hb n t,
           head = JStr h /\ find_branch h (w_repo w) = Some hb
           /\ head' = JStr n /\ is_fork_name t n
           /\ find_branch n (w_repo w) = None
           /\ w_repo w' = with_branch n (b_sha hb) (w_repo w)
           /\ exists pr, In pr (r_pulls (w_repo w)) /\ is_open pr = true
                         /\ pr_matches head base pr = true).

(** The requests that may follow the guard of line 1132: the history of a
    commit, and the creation of a pull request from [head] to [base]. *)
Definition after_guard (head base : json) (c : call) : bool :=
  match c with
  | GetCommits _ => true
  | CreatePull h b => values_equal (JStr h) head && values_equal (JStr b) base
  | _ => false
  end.

(** The branches [h] and [b] of a repository point at different commits. *)
Definition distinct_commits (h b : pystr) (r : Repo) : Prop :=
  exists hb bb,
    find_branch h r = Some hb /\ find_branch b r = Some bb
    /\ b_sha hb <> b_sha bb.

(** The log of a run is a stretch without any request of the guards or of
    the submission, then a stretch without any request of the check for
    open pull requests, and each pull request it asked for goes between
    two branches that point at different commits when the run ends. *)
Definition reconciled {A} (m : M A) : Prop :=
  forall w, exists tr1 tr2,
    w_trace (snd (m w)) = w_trace w ++ tr1 ++ tr2
    /\ Forall (fun ev => is_guard_call (ev_call ev) = false) tr1
    /\ Forall (fun ev => is_check_call (ev_call ev) = false) tr2
    /\ forall h b f,
         In {| ev_call := CreatePull h b; ev_failure := f |} tr2 ->
         distinct_commits h b (w_repo (snd (m w))).

(** A request that is neither of the guards nor of the submission. *)
Definition before_guards (c : call) : bool := negb (is_guard_call c).



(** An exception line 1096 answers with a second attempt. *)
Definition is_name_collision (e : exn) : bool :=
  is_github_exception e && status_is 422 e.

Definition create_ref_event (name sha : pystr) (failure : option exn) : event :=
  {| ev_call := CreateGitRef (lit "refs/heads/" ++ name) sha;
     ev_failure := failure |}.

(** The requests a fork of [sha] at the time [t] sends: one creation under
    the name of lines 1079-1082, and, when and only when that fails with
    the status 422, one more under that name with two digits appended. *)
Definition fork_requests (t : DateTime) (sha : pystr) (tr : list event)
    : Prop :=
  (exists f, tr = [create_ref_event (fork_name t) sha f]
             /\ match f with
                | Some e => is_name_collision e = false
                | None => True
                end)
  \/ (exists e r f,
        tr = [create_ref_event (fork_name t) sha (Some e);
              create_ref_event (fork_name t ++ decimal r) sha f]
        /\ is_name_collision e = true /\ (10 <= r <= 99)%N).

(** The payload inside a result of the shape of [tool_result]. *)
Definition payload_of (result : json) : list (string * json) :=
  match result with
  | JObj [(_, JArr [JObj [_; (_, JDumps (JObj payload))]])] => payload
  | _ => []
  end.

(** The call of the samples: a pull request from [feature] to [main] in
    [o/r]. *)
Definition sample_call
    (run : json -> json -> json -> json -> json -> json -> M json) : M json :=
  run (JStr (lit "o")) (JStr (lit "r")) (JStr (lit "t"))
    (JStr (lit "feature")) (JStr (lit "main")) JNull.

(** The remote side fails the fifth request, the creation of the fork. *)
Definition fork_fails : list (option exn) :=
  [None; None; None; None; Some server_error].

(* ================================================================= *)
(** ** What a tool call returns *)

(** The payload has a boolean [success] and, when that is false, an
    [error]. *)
Definition reports_success (payload : list (string * json)) : bool :=
  match lookup "success" payload with
  | Some (JBool true) => true
  | Some (JBool false) =>
      match lookup "error" payload with Some _ => true | None => false end
  | _ => false
  end.

(** [{"content": [{"type": "text", "text": json.dumps(payload)}]}] with such
    a payload. *)
Definition tool_shaped (r : json) : bool :=
  match r with
  | JObj [(content, JArr [JObj [(type, JStr t); (text, JDumps (JObj payload))]])] =>
      String.eqb content "content" && String.eqb type "type"
      && pystr_eqb t (lit "text") && String.eqb text "text"
      && reports_success payload
  | _ => false
  end.

(** [{"error": message}], the answer of lines 480 and 482. *)
Definition bare_error (r : json) : bool :=
  match r with
  | JObj [(key, _)] => String.eqb key "error"
  | _ => false
  end.

(** A failure that carries the triple [error], [error_type] and
    [status]. *)
Definition has_error_triple (r : json) : bool :=
  match r with
  | JObj [(_, JArr [JObj [_; (_, JDumps (JObj payload))]])] =>
      match lookup "error" payload, lookup "error_type" payload,
            lookup "status" payload with
      | Some _, Some _, Some _ => true
      | _, _, _ => false
      end
  | _ => false
  end.

Definition tool_names : list string :=
  ["get_help"; "read_file"; "create_branch"; "create_or_update_file";
   "create_pull_request"; "list_branches"; "get_repository";
   "list_pull_requests"; "get_pull_request"; "list_repositories"]%string.

Definition known_tool (name : json) : bool :=
  existsb (tool_is name) tool_names.

Definition is_dict (v : json) : bool :=
  match v with JObj _ => true | _ => false end.

(** The calls that reach a tool: those of [get_help], which reads no
    argument, and those of the other tools with a dict of arguments. *)
Definition reaches_tool (name arguments : json) : bool :=
  tool_is name "get_help" || (known_tool name && is_dict arguments).

(** What a statement may end in: a value satisfying [V], a [return] of a
    result in the shape of the tools, and an exception only when [raises]. *)
Definition outcomes {A} (V : A -> Prop) (raises : bool) (m : M A) : Prop :=
  forall w,
    match fst (m w) with
    | Val a => V a
    | Return r => tool_shaped r = true
    | Raise _ => raises = true
    end.

Definition any {A} (a : A) : Prop := True.

Definition in_shape (r : json) : Prop := tool_shaped r = true.

(* ================================================================= *)
(** ** The requests of each tool *)

(** A ref below [refs/heads/c3/]. *)
Definition under_prefix (ref : pystr) : bool :=
  startswith ref (lit "refs/heads/" ++ branch_prefix).

(** The requests a call of the dispatcher under a given name may send. *)
Definition tool_requests (name : json) (c : call) : bool :=
  match c with
  | PostAccessToken =>
      known_tool name && negb (tool_is name "get_help")
  | GetRepo _ =>
      known_tool name && negb (tool_is name "get_help")
      && negb (tool_is name "list_repositories")
  | GetContents _ _ =>
      tool_is name "read_file" || tool_is name "create_or_update_file"
  | UpdateFile _ | CreateFile _ => tool_is name "create_or_update_file"
  | GetBranch _ =>
      tool_is name "create_branch" || tool_is name "create_pull_request"
  | CreateGitRef ref _ =>
      (tool_is name "create_branch" || tool_is name "create_pull_request")
      && under_prefix ref
  | GetBranches =>
      tool_is name "list_branches" || tool_is name "create_pull_request"
  | GetPulls _ =>
      tool_is name "list_pull_requests" || tool_is name "create_pull_request"
  | GetPull _ => tool_is name "get_pull_request"
  | GetCommits _ | CreatePull _ _ => tool_is name "create_pull_request"
  | GetUser _ | GetUserRepos | GetOrganization _ | GetOrgRepos
  | GetInstallationRepos _ _ => tool_is name "list_repositories"
  end.

(** The requests that change the repository. *)
Definition writes (c : call) : bool :=
  match c with
  | UpdateFile _ | CreateFile _ | CreateGitRef _ _ | CreatePull _ _ => true
  | _ => false
  end.

Definition writing_tools : list string :=
  ["create_branch"; "create_or_update_file"; "create_pull_request"]%string.

(** A request that creates a ref creates it below [refs/heads/c3/]. *)
Definition creates_under_prefix (c : call) : bool :=
  match c with
  | CreateGitRef ref _ => under_prefix ref
  | _ => true
  end.

(* ================================================================= *)
(** ** A server without credentials *)

(** No key is configured: no text in [private_key], and no path in
    [private_key_path] that leads to a file. *)
Definition no_key (w : World) : bool :=
  match private_key (w_server w) with
  | Some (_ :: _) => false
  | _ =>
      match private_key_path (w_server w) with
      | Some (c :: path) =>
          match w_files w (c :: path) with
          | Some _ => false
          | None => true
          end
      | _ => true
      end
  end.

(** The server as [__init__] leaves it, without a key. *)
Definition unconfigured (w : World) : bool :=
  match github (w_server w), _installation_token (w_server w) with
  | None, None => no_key w
  | _, _ => false
  end.

(** The exception of line 49, as lines 68 and 102 pass it on. *)
Definition no_credentials : exn :=
  value_error TTokenError [JFmt TJwtError [JFmt TNoKeyConfigured []]].

(** A server started without any of the environment variables. *)
Definition unset_server : Server :=
  {| app_id := None; private_key_path := None; private_key := None;
     installation_id := None; github := None; _installation_token := None;
     _token_expires_at := None |}.

(** Stand-ins for the codecs and the sort of the runtime, on ASCII. *)
Definition sample_utf8_decode (bytes : list N) : option pystr := Some bytes.
Definition sample_utf8_encode (text : pystr) : option (list N) := Some text.
Definition sample_b64encode (bytes : list N) : pystr := bytes.
Definition sample_b64decode (text : pystr) : list N + exn := inl text.
Definition sample_py_sort (key : json -> json) (reverse : bool) (l : list json)
    : list json + exn := inl l.

(** The sample repository behind a server without credentials. *)
Definition unset_world : World :=
  {| w_server := unset_server; w_clock := fun _ => noon; w_ticks := 0;
     w_random := 7; w_files := fun _ => None; w_tokens := [];
     w_repo := sample_repo "f1" []; w_accounts := fun _ => None;
     w_orgs := fun _ => None; w_pages := []; w_faults := [];
     w_trace := [] |}.

Definition sample_arguments : json :=
  JObj [kv "owner" (JStr (lit "o")); kv "repo" (JStr (lit "r"))].

(* ================================================================= *)
(** ** How many requests of a kind a call sends *)

Definition count (P : call -> bool) (tr : list event) : nat :=
  List.length (filter (fun ev => P (ev_call ev)) tr).

(** The program sends at most [n] requests satisfying [P]. *)
Definition sends_at_most {A} (P : call -> bool) (n : nat) (m : M A) : Prop :=
  forall w, exists tr,
    w_trace (snd (m w)) = w_trace w ++ tr /\ (count P tr <= n)%nat.

Definition is_create_ref (c : call) : bool :=
  match c with CreateGitRef _ _ => true | _ => false end.

Definition is_create_pull (c : call) : bool :=
  match c with CreatePull _ _ => true | _ => false end.

Definition is_file_write (c : call) : bool :=
  match c with UpdateFile _ | CreateFile _ => true | _ => false end.

(* ================================================================= *)
(** ** Calls that stop at the first failure *)

Definition failed (ev : event) : bool :=
  match ev_failure ev with Some _ => true | None => false end.

(** Every request of the log was served. *)
Definition all_served (tr : list event) : Prop :=
  Forall (fun ev => failed ev = false) tr.

(** No request of the log but the last failed: nothing was sent after a
    failure. *)
Definition fails_last (tr : list event) : Prop := all_served (removelast tr).

(** The result of a tool says [success: true]. *)
Definition succeeded (r : json) : bool :=
  match r with
  | JObj [(_, JArr [JObj [_; (_, JDumps (JObj payload))]])] =>
      match lookup "success" payload with
      | Some (JBool true) => true
      | _ => false
      end
  | _ => false
  end.

(** The program stops at the first request that fails: it sends nothing
    after it, does not run to its end, and returns no success. *)
Definition halting {A} (m : M A) : Prop :=
  forall w, exists tr,
    w_trace (snd (m w)) = w_trace w ++ tr
    /\ fails_last tr
    /\ match fst (m w) with
       | Val _ => all_served tr
       | Return r => succeeded r = false
       | Raise _ => True
       end.

(** A handler that sends nothing and ends the call with a failure. *)
Definition aborts {A} (m : M A) : Prop :=
  forall w,
    w_trace (snd (m w)) = w_trace w
    /\ match fst (m w) with
       | Val _ => False
       | Return r => succeeded r = false
       | Raise _ => True
       end.

(** The tools in which no failure of a request is handled by going on. *)
Definition straight_tools : list string :=
  ["get_help"; "read_file"; "create_branch"; "list_branches";
   "get_repository"; "list_pull_requests"; "get_pull_request"]%string.

(** What such a tool does: it answers, nothing was sent after a failed
    request, and the answer says [success: true] only when every request was
    served. *)
Definition stops_at_failure (m : M json) : Prop :=
  forall w, exists r w' tr,
    m w = (Val r, w')
    /\ w_trace w' = w_trace w ++ tr
    /\ fails_last tr
    /\ (all_served tr \/ succeeded r = false).

(** The sample server and repository, with the failures the remote side is
    going to answer with. *)
Definition faulty_world (faults : list (option exn)) : World :=
  sample_world (sample_repo "f1" []) faults.

(* ================================================================= *)
(** ** The pages of the installation's repositories *)

(** The requests for [k] pages in a row, from [page] on, all of them with
    the [token]. *)
Definition page_calls (token : pystr) (page : Z) (k : nat) : list call :=
  map (fun i => GetInstallationRepos token (page + Z.of_nat i)) (seq 0 k).

(** The program requests at most [n] pages, one after the other from
    [page] on, and nothing else. *)
Definition requests_pages {A} (token : pystr) (page : Z) (n : nat) (m : M A)
    : Prop :=
  forall w, exists k tr,
    w_trace (snd (m w)) = w_trace w ++ tr
    /\ map ev_call tr = page_calls token page k
    /\ (k <= n)%nat.

(** The same with at least one page requested: [k + 1] pages, [k] at most
    [n]. *)
Definition requests_some_pages {A} (token : pystr) (page : Z) (n : nat)
    (m : M A) : Prop :=
  forall w, exists k tr,
    w_trace (snd (m w)) = w_trace w ++ tr
    /\ map ev_call tr = page_calls token page (S k)
    /\ (k <= n)%nat.

(** A program that sends no request. *)
Definition sends_nothing {A} (m : M A) : Prop := emits (fun _ => false) m.

(* ================================================================= *)
(** ** Lines of input *)

(** The line holds a JSON object. *)
Definition is_request (line : pystr) : bool :=
  match json_loads (strip isspace line) with
  | inl (JObj _) => true
  | _ => false
  end.

(** The line holds no JSON. *)
Definition is_malformed (line : pystr) : bool :=
  match json_loads (strip isspace line) with
  | inr e => is_json_decode_error e
  | inl _ => false
  end.

(** The line holds JSON that is no object. *)
Definition is_stray_value (line : pystr) : bool :=
  match json_loads (strip isspace line) with
  | inl v => negb (is_dict v)
  | inr _ => false
  end.

(** The [id] of the request a line holds. *)
Definition request_id (line : pystr) : json :=
  match json_loads (strip isspace line) with
  | inl (JObj fields) => get_or "id" JNull fields
  | _ => JNull
  end.

(** A line the loop gets over: not the end of the input, and either a
    request or no JSON at all. *)
Definition readable (line : pystr) : bool :=
  match line with
  | [] => false
  | _ => is_request line || is_malformed line
  end.

(** The methods the loop knows. *)
Definition known_method (method : json) : bool :=
  existsb (values_equal method)
    [JStr (lit "initialize"); JStr (lit "tools/list"); JStr (lit "tools/call")].

(** A call of a tool whose parameters are no dict. *)
Definition bad_call (method params : json) : bool :=
  values_equal method (JStr (lit "tools/call")) && negb (is_dict params).

(** Sample lines of input: a request for an unknown method, a JSON value
    that is no object, and text that is no JSON. *)
Definition quoted (s : string) : pystr := [34%N] ++ lit s ++ [34%N].

Definition request_text : pystr :=
  lit "{" ++ quoted "id" ++ lit ": 7, " ++ quoted "method" ++ lit ": "
  ++ quoted "ping" ++ lit "}".

Definition sample_request : list (string * json) :=
  [kv "id" (JNum 7); kv "method" (JStr (lit "ping"))].

Definition sample_json_loads (text : pystr) : json + exn :=
  if pystr_eqb text request_text then inl (JObj sample_request)
  else if pystr_eqb text (lit "[]") then inl (JArr [])
  else inr (PyError "JSONDecodeError" (JStr (lit "Expecting value"))).

Definition request_line : pystr := request_text ++ [10%N].
Definition stray_line : pystr := lit "[]" ++ [10%N].
Definition broken_line : pystr := lit "ping" ++ [10%N].

(* ================================================================= *)
(** ** When a token can be minted *)

(** The key [_load_private_key] gives: the text of the field, else the
    content of the file of the path. *)
Definition configured_key (w : World) : option pystr :=
  match private_key (w_server w) with
  | Some (c :: k) => Some (c :: k)
  | _ =>
      match private_key_path (w_server w) with
      | Some (c :: path) =>
          match w_files w (c :: path) with
          | Some (inl content) => Some content
          | _ => None
          end
      | _ => None
      end
  end.

(** The remote side does not fail the next request. *)
Definition next_served (w : World) : bool :=
  match w_faults w with
  | Some _ :: _ => false
  | _ => true
  end.

(** The answer of the token endpoint has no [expires_at], or one that
    [fromisoformat] reads. *)
Definition readable_expiry (body : TokenBody) : bool :=
  match tb_expires_at body with
  | Some (c :: text) =>
      match fromisoformat (replace_Z (c :: text)) with
      | Some _ => true
      | None => false
      end
  | _ => true
  end.

(* ================================================================= *)
(** ** The client and the tokens of the requests *)

(** A property of the server object. *)
Definition on_server (Q : Server -> Prop) (w : World) : Prop :=
  Q (w_server w).




(* ================================================================= *)
(** ** What lets a pull request through *)

(** The history guard of lines 1152-1183 lets a head at [head_sha] and a
    base at [base_sha] through: one of the ten newest commits of the head is
    not among the ten newest of the base, or a commit of the head is. *)
Definition has_new_commits (r : Repo) (head_sha base_sha : pystr) : bool :=
  let head_commits := r_history r head_sha in
  let base_commit_shas := take 10 (r_history r base_sha) in
  negb (forallb (fun c => mem c base_commit_shas) (take 10 head_commits)
        && negb (pystr_eqb head_sha base_sha))
  || match take 5 (filter (fun c => negb (mem c base_commit_shas))
                     head_commits) with
     | [] => false
     | _ :: _ => true
     end.




(** The base of line 922: the default branch of the repository when the
    caller gave none. *)
Definition base_or_default (r : Repo) (base : json) : json :=
  if negb (truthy base) then JStr (r_default_branch r) else base.


(** An event of a request that was served. *)
Definition served (c : call) : event := {| ev_call := c; ev_failure := None |}.



(** A pull request from the branch [hb] to the branch [br] passes the
    guards: the two are at different commits, and the history guard lets
    them through. *)
Definition can_receive (r : Repo) (hb br : Branch) : bool :=
  negb (pystr_eqb (b_sha hb) (b_sha br))
  && has_new_commits r (b_sha hb) (b_sha br).

(** The requests of a call that takes another base, [b], for a head [h]
    that was its own base. *)
Definition rebased_requests (owner repo : json) (h b : pystr)
    (hb bb : Branch) : list event :=
  [served (GetRepo (full_name owner repo)); served GetBranches;
   served (GetBranch b); served (GetBranch h);
   served (GetPulls (JStr (lit "open"))); served (GetBranch h);
   served (GetCommits (b_sha hb)); served (GetCommits (b_sha bb));
   served (CreatePull h b)].

(* ================================================================= *)
(** * Theorems *)

(* ----------------------------------------------------------------- *)
(** ** String lemmas *)

Lemma startswith_app (p s : pystr) : startswith (p ++ s) p = true.
Proof.
  induction p as [|x p IH]; simpl; [reflexivity|].
  now rewrite N.eqb_refl, IH.
Qed.

Lemma lstrip_id (p : N -> bool) (c : N) (s : pystr) :
  p c = false -> lstrip p (c :: s) = c :: s.
Proof. intros H; simpl; now rewrite H. Qed.

Lemma rstrip_nil_iff (p : N -> bool) (s : pystr) :
  rstrip p s = [] <-> forallb p s = true.
Proof.
  induction s as [|c t IH]; simpl; [tauto|].
  destruct (rstrip p t) eqn:E.
  - destruct (p c); simpl; split; try discriminate; auto.
    intros _; now apply IH.
  - split; [discriminate|].
    intros H; apply andb_true_iff in H as [_ H].
    apply IH in H; discriminate.
Qed.

(** [rstrip] only removes a suffix made of characters of the class. *)
Lemma rstrip_split (p : N -> bool) (s : pystr) :
  exists tl, s = rstrip p s ++ tl /\ forallb p tl = true.
Proof.
  induction s as [|c t (tl & E & F)]; simpl.
  - exists []; auto.
  - destruct (rstrip p t) eqn:R.
    + simpl in E; subst tl. destruct (p c) eqn:P.
      * exists (c :: t); simpl; now rewrite P, F.
      * exists t; auto.
    + exists tl; split; [now rewrite E at 1|assumption].
Qed.

Lemma rstrip_last (p : N -> bool) (s : pystr) (d : N) :
  rstrip p s <> [] -> p (last (rstrip p s) d) = false.
Proof.
  induction s as [|c t IH]; simpl; [congruence|].
  destruct (rstrip p t) as [|y r] eqn:R.
  - destruct (p c) eqn:P; [congruence|]. intros _; exact P.
  - intros _. change (p (last (y :: r) d) = false).
    apply IH; discriminate.
Qed.

Lemma rstrip_id (p : N -> bool) (s : pystr) (d : N) :
  s <> [] -> p (last s d) = false -> rstrip p s = s.
Proof.
  induction s as [|c t IH]; [congruence|].
  intros _ L. destruct t as [|y r].
  - simpl in *. now rewrite L.
  - change (rstrip p (c :: y :: r)) with
      (match rstrip p (y :: r) with
       | [] => if p c then [] else [c]
       | t' => c :: t'
       end).
    rewrite IH; [reflexivity|discriminate|exact L].
Qed.

Lemma startswith_inv (p s : pystr) :
  startswith s p = true -> exists r, s = p ++ r.
Proof.
  revert s; induction p as [|x p IH]; intros s H; [now exists s|].
  destruct s as [|y s]; [discriminate|]. simpl in H.
  apply andb_true_iff in H as [E H]. apply N.eqb_eq in E; subst y.
  destruct (IH _ H) as [r ->]. now exists r.
Qed.

Lemma rstrip_head (p : N -> bool) (c : N) (t : pystr) :
  rstrip p (c :: t) <> [] -> exists t', rstrip p (c :: t) = c :: t'.
Proof.
  simpl. destruct (rstrip p t) as [|y r].
  - destruct (p c); [congruence|]. now exists [].
  - now exists (y :: r).
Qed.

Lemma adjacent_app_l (x : N) (l r : pystr) :
  adjacent x (l ++ r) = false -> adjacent x l = false.
Proof.
  induction l as [|a l IH]; [reflexivity|].
  destruct l as [|b l]; [reflexivity|].
  change (adjacent x ((a :: b :: l) ++ r))
    with (N.eqb a x && N.eqb b x || adjacent x ((b :: l) ++ r)).
  change (adjacent x (a :: b :: l))
    with (N.eqb a x && N.eqb b x || adjacent x (b :: l)).
  intros H. apply orb_false_iff in H as [-> H]. now rewrite IH.
Qed.

Lemma collapse_runs_id (x : N) (s : pystr) :
  adjacent x s = false -> collapse_runs x s = s.
Proof.
  induction s as [|a t IH]; [reflexivity|].
  destruct t as [|b r]; [reflexivity|].
  change (adjacent x (a :: b :: r))
    with (N.eqb a x && N.eqb b x || adjacent x (b :: r)).
  change (collapse_runs x (a :: b :: r)) with
    (if N.eqb a x && N.eqb b x then collapse_runs x (b :: r)
     else a :: collapse_runs x (b :: r)).
  intros H. apply orb_false_iff in H as [-> H]. now rewrite IH.
Qed.

Lemma adjacent_absent (x : N) (s : pystr) :
  Forall (fun c => c <> x) s -> adjacent x s = false.
Proof.
  induction 1 as [|a t Ha _ IH]; [reflexivity|].
  destruct t as [|b r]; [reflexivity|].
  change (adjacent x (a :: b :: r))
    with (N.eqb a x && N.eqb b x || adjacent x (b :: r)).
  rewrite IH. now destruct (N.eqb_spec a x).
Qed.

Lemma collapse_runs_head (x a : N) (t : pystr) :
  exists t', collapse_runs x (a :: t) = a :: t'.
Proof.
  revert a; induction t as [|b r IH]; intros a; [now exists []|].
  change (collapse_runs x (a :: b :: r)) with
    (if N.eqb a x && N.eqb b x then collapse_runs x (b :: r)
     else a :: collapse_runs x (b :: r)).
  destruct (N.eqb_spec a x) as [->|]; simpl andb.
  - destruct (N.eqb_spec b x) as [->|]; [apply IH|eauto].
  - eauto.
Qed.

Lemma collapse_runs_adjacent (x : N) (s : pystr) :
  adjacent x (collapse_runs x s) = false.
Proof.
  induction s as [|a t IH]; [reflexivity|].
  destruct t as [|b r]; [reflexivity|].
  change (collapse_runs x (a :: b :: r)) with
    (if N.eqb a x && N.eqb b x then collapse_runs x (b :: r)
     else a :: collapse_runs x (b :: r)).
  destruct (N.eqb a x && N.eqb b x) eqn:E; [exact IH|].
  destruct (collapse_runs_head x b r) as [t' Ht'].
  rewrite Ht' in *.
  change (adjacent x (a :: b :: t'))
    with (N.eqb a x && N.eqb b x || adjacent x (b :: t')).
  now rewrite E, IH.
Qed.

Lemma collapse_runs_Forall (P : N -> Prop) (x : N) (s : pystr) :
  Forall P s -> Forall P (collapse_runs x s).
Proof.
  induction 1 as [|a t Ha Ht IH]; [constructor|].
  destruct t as [|b r]; [now constructor|].
  change (collapse_runs x (a :: b :: r)) with
    (if N.eqb a x && N.eqb b x then collapse_runs x (b :: r)
     else a :: collapse_runs x (b :: r)).
  destruct (N.eqb a x && N.eqb b x); [exact IH|now constructor].
Qed.

(* ----------------------------------------------------------------- *)
(** ** Branch-name normalization *)

Section Normalization.

(** No whitespace character is alphanumeric in the Unicode database. *)
Hypothesis alnum_not_space :
  forall c, unicode_alnum c = true -> isspace c = false.

Lemma ascii_alnum_bounds (c : N) : ascii_alnum c = true -> (48 <= c <= 122)%N.
Proof.
  unfold ascii_alnum, in_range. intros H.
  repeat (apply orb_true_iff in H as [H|H]);
    apply andb_true_iff in H as [L U];
    apply N.leb_le in L; apply N.leb_le in U; lia.
Qed.

Lemma ascii_alnum_not_space (c : N) : ascii_alnum c = true -> isspace c = false.
Proof.
  intros H. apply ascii_alnum_bounds in H.
  unfold isspace, in_range.
  repeat match goal with
  | |- context [N.leb ?a ?b] => destruct (N.leb_spec a b); try lia
  | |- context [N.eqb ?a ?b] => destruct (N.eqb_spec a b); try lia
  end; reflexivity.
Qed.

Lemma isword_not_space (c : N) : isword c = true -> isspace c = false.
Proof.
  unfold isword. intros H. apply orb_true_iff in H as [H|H].
  - apply N.eqb_eq in H; subst c; reflexivity.
  - destruct (N.ltb c 128); [now apply ascii_alnum_not_space|auto].
Qed.

Lemma allowed_inner_not_space (c : N) :
  allowed c = true -> edge_char c = false -> isspace c = false.
Proof.
  unfold allowed, edge_char. intros A E.
  apply orb_false_iff in E as [E E3]. apply orb_false_iff in E as [E1 E2].
  rewrite E1, E3 in A. rewrite !orb_false_r in A.
  now apply isword_not_space.
Qed.

Lemma allowed_not_dot (c : N) : allowed c = true -> c <> ch_dot.
Proof. intros A ->. discriminate A. Qed.

Lemma replace_disallowed_allowed (s : pystr) :
  Forall (fun c => allowed c = true) (replace_disallowed s).
Proof.
  induction s as [|c t IH]; simpl; constructor; auto.
  destruct (allowed c) eqn:A; [exact A|reflexivity].
Qed.

Lemma replace_disallowed_id (s : pystr) :
  Forall (fun c => allowed c = true) s -> replace_disallowed s = s.
Proof.
  induction 1 as [|c t A _ IH]; simpl; [reflexivity|].
  now rewrite A, IH.
Qed.

Lemma add_prefix_startswith (n : pystr) :
  startswith (add_prefix n) branch_prefix = true.
Proof.
  unfold add_prefix. destruct (startswith n branch_prefix) eqn:E; cbn [negb].
  - exact E.
  - destruct (contains ch_slash n); apply startswith_app.
Qed.

(** A well-formed name is a fixed point of the normalization. *)
Lemma well_formed_fixed (o : pystr) :
  well_formed_name o -> normalize_branch_name o = o.
Proof.
  intros (P & A & D & L).
  destruct (startswith_inv _ _ P) as [r ->].
  change (branch_prefix ++ r) with (99 :: 51 :: 47 :: r)%N in *.
  assert (NE : (99 :: 51 :: 47 :: r)%N <> []) by discriminate.
  assert (AL : allowed (last (99 :: 51 :: 47 :: r)%N 0%N) = true).
  { rewrite Forall_forall in A. apply A.
    destruct (exists_last NE) as (l & x & E). rewrite E.
    rewrite last_last. apply in_or_app; right; now left. }
  unfold normalize_branch_name, strip.
  rewrite lstrip_id by reflexivity.
  rewrite (rstrip_id isspace 0%N NE (allowed_inner_not_space _ AL L)).
  unfold add_prefix. rewrite P. simpl negb. cbv iota.
  rewrite (replace_disallowed_id A).
  rewrite (collapse_runs_id _ _ D).
  rewrite collapse_runs_id.
  2:{ apply adjacent_absent. eapply Forall_impl; [|exact A].
      intros c; apply allowed_not_dot. }
  rewrite lstrip_id by reflexivity.
  rewrite (rstrip_id edge_char 0%N NE L).
  unfold ensure_prefix. now rewrite P.
Qed.

(** Every output of the normalization is well formed. *)
Lemma normalize_well_formed (s : pystr) :
  well_formed_name (normalize_branch_name s).
Proof.
  unfold normalize_branch_name.
  destruct (startswith_inv _ _ (add_prefix_startswith (strip isspace s)))
    as [r1 ->].
  change (replace_disallowed (branch_prefix ++ r1))
    with (99 :: 51 :: 47 :: replace_disallowed r1)%N.
  pose proof (replace_disallowed_allowed r1) as A1.
  set (r2 := replace_disallowed r1) in *. clearbody r2.
  assert (A2 : Forall (fun c => allowed c = true) (99 :: 51 :: 47 :: r2)%N)
    by (repeat constructor; exact A1).
  pose proof (collapse_runs_Forall ch_slash A2) as A3.
  pose proof (collapse_runs_adjacent ch_slash (99 :: 51 :: 47 :: r2)%N) as D3.
  assert (H3 : exists r3,
             collapse_runs ch_slash (99 :: 51 :: 47 :: r2)%N
             = (99 :: 51 :: 47 :: r3)%N).
  { destruct (collapse_runs_head ch_slash 47%N r2) as [t' Ht'].
    exists t'. destruct r2; [inversion Ht'; reflexivity|].
    change (collapse_runs ch_slash (99 :: 51 :: 47 :: n :: r2)%N)
      with (99 :: 51 :: collapse_runs ch_slash (47 :: n :: r2))%N.
    now rewrite Ht'. }
  destruct H3 as [r3 E3]. rewrite E3 in *. clear E3 A2 A1 r2 r1.
  rewrite collapse_runs_id.
  2:{ apply adjacent_absent. eapply Forall_impl; [|exact A3].
      intros c; apply allowed_not_dot. }
  unfold strip. rewrite lstrip_id by reflexivity.
  destruct (rstrip_split edge_char (99 :: 51 :: 47 :: r3)%N) as (tl & E & F).
  change (rstrip edge_char (99 :: 51 :: 47 :: r3)%N) with
    (match
       match rstrip edge_char (47 :: r3)%N with
       | [] => [51%N]
       | t' => 51%N :: t'
       end
     with
     | [] => [99%N]
     | t' => 99%N :: t'
     end) in *.
  destruct (rstrip edge_char (47 :: r3)%N) as [|y r4] eqn:R.
  - (* everything after [c3] was stripped: the prefix is applied again *)
    unfold well_formed_name, ensure_prefix. simpl.
    repeat split; try reflexivity. repeat constructor.
  - assert (NE : rstrip edge_char (47 :: r3)%N <> []) by (rewrite R; discriminate).
    destruct (rstrip_head _ _ _ NE) as [t' Ht'].
    pose proof (rstrip_last edge_char (47 :: r3)%N 0%N NE) as L.
    rewrite R in Ht', L. inversion Ht'; subst y r4.
    unfold ensure_prefix. simpl negb. cbv iota.
    rewrite E in A3, D3.
    repeat split.
    + now apply Forall_app in A3 as [A3 _].
    + now apply adjacent_app_l in D3.
    + exact L.
Qed.

(** C3: the branch-name normalization of [create_branch] is idempotent, and
    on every non-empty input its output starts with the prefix [c3/]. *)
Theorem normalize_branch_name_idempotent (s : pystr) :
  normalize_branch_name (normalize_branch_name s) = normalize_branch_name s
  /\ (s <> [] -> startswith (normalize_branch_name s) branch_prefix = true).
Proof.
  pose proof (normalize_well_formed s) as W. split.
  - now apply well_formed_fixed.
  - intros _. apply W.
Qed.

End Normalization.

(* ----------------------------------------------------------------- *)
(** ** Properties a program keeps *)

Lemma pystr_eqb_eq (a b : pystr) : pystr_eqb a b = true <-> a = b.
Proof. unfold pystr_eqb. destruct (list_eq_dec N.eq_dec a b); split; congruence. Qed.

Lemma pystr_eqb_refl (a : pystr) : pystr_eqb a a = true.
Proof. now apply pystr_eqb_eq. Qed.

Lemma pystr_eqb_neq (a b : pystr) : pystr_eqb a b = false <-> a <> b.
Proof. unfold pystr_eqb. destruct (list_eq_dec N.eq_dec a b); split; congruence. Qed.

Lemma maintains_silent {A} (I : World -> Prop) (m : M A) :
  (forall w, snd (m w) = w) -> maintains I m.
Proof. intros H w Hw. now rewrite H. Qed.

Lemma maintains_bind {A B} (I : World -> Prop) (m : M A) (f : A -> M B) :
  maintains I m -> (forall a, maintains I (f a)) -> maintains I (bind m f).
Proof.
  intros Hm Hf w Hw. unfold bind. specialize (Hm w Hw).
  destruct (m w) as [[a|e|r] w1]; simpl in *; auto. now apply Hf.
Qed.

Lemma maintains_try_except {A} (I : World -> Prop) (m : M A) (h : exn -> M A) :
  maintains I m -> (forall e, maintains I (h e)) -> maintains I (try_except m h).
Proof.
  intros Hm Hh w Hw. unfold try_except. specialize (Hm w Hw).
  destruct (m w) as [[a|e|r] w1]; simpl in *; auto. now apply Hh.
Qed.

Lemma maintains_raise {A} (I : World -> Prop) (e : exn) : maintains I (@raise A e).
Proof. now apply maintains_silent. Qed.

Lemma maintains_try_except_github {A} (I : World -> Prop) (m : M A)
    (h : exn -> M A) :
  maintains I m -> (forall e, maintains I (h e)) ->
  maintains I (try_except_github m h).
Proof.
  intros Hm Hh. apply maintains_try_except; [exact Hm|].
  intros e. destruct (is_github_exception e); [apply Hh|apply maintains_raise].
Qed.

Lemma maintains_def (I : World -> Prop) (m : M json) :
  maintains I m -> maintains I (def m).
Proof.
  intros Hm w Hw. unfold def. specialize (Hm w Hw).
  now destruct (m w) as [[a|e|r] w1].
Qed.

Lemma maintains_datetime_now (I : World -> Prop) :
  stable I -> maintains I datetime_now.
Proof. intros S w Hw. simpl. now apply S. Qed.

Lemma maintains_put_server (I : World -> Prop) (s : Server) :
  stable I -> maintains I (put_server s).
Proof. intros S w Hw. simpl. now apply S. Qed.

Lemma maintains_request_as {A} (I : World -> Prop) (c : call)
    (failed : A -> option exn) (serve : World -> (A + exn) * World) :
  stable I -> (forall w, I w -> I (snd (serve w))) ->
  maintains I (request_as c failed serve).
Proof.
  intros S Hs w Hw. unfold request_as.
  assert (G : forall f,
            I (snd (match serve (set_faults f w) with
                    | (inl a, w') => (Val a, log c (failed a) w')
                    | (inr e, w') => (@Raise A e, log c (Some e) w')
                    end))).
  { intros f. assert (H0 : I (set_faults f w)) by now apply S.
    specialize (Hs _ H0).
    destruct (serve (set_faults f w)) as [[a|e] w1]; simpl in *;
      now apply S. }
  destruct (w_faults w) as [|[e|] rest]; try apply G.
  simpl. apply S. now apply S.
Qed.

Create HintDb maintains.

(** Going through a program, statement by statement. *)
Ltac maintains_tac :=
  repeat first
    [ assumption
    | solve [apply maintains_silent; intros; reflexivity]
    | solve [eauto with maintains]
    | apply maintains_bind; [|intros ?]
    | apply maintains_try_except_github; [|intros ?]
    | apply maintains_try_except; [|intros ?]
    | apply maintains_def
    | apply maintains_datetime_now; [assumption]
    | apply maintains_put_server; [assumption]
    | apply maintains_request_as;
      [ assumption
      | intros ? ?;
        repeat match goal with
               | |- context [match ?x with _ => _ end] => destruct x
               end; simpl;
        try assumption;
        try match goal with
            | S : stable ?I |- _ => solve [apply S; assumption]
            end ]
    | match goal with
      | |- maintains _ (match ?x with _ => _ end) => destruct x
      end ].

(* ----------------------------------------------------------------- *)
(** ** Logs of requests *)

Lemma emits_silent {A} (P : call -> bool) (m : M A) :
  (forall w, w_trace (snd (m w)) = w_trace w) -> emits P m.
Proof. intros H w. exists []. rewrite app_nil_r. auto. Qed.

Lemma emits_ret {A} (P : call -> bool) (a : A) : emits P (ret a).
Proof. now apply emits_silent. Qed.

Lemma emits_raise {A} (P : call -> bool) (e : exn) : emits P (@raise A e).
Proof. now apply emits_silent. Qed.

Lemma emits_return {A} (P : call -> bool) (r : json) : emits P (@return_ A r).
Proof. now apply emits_silent. Qed.

Lemma emits_get_server (P : call -> bool) : emits P get_server.
Proof. now apply emits_silent. Qed.

Lemma emits_put_server (P : call -> bool) (s : Server) : emits P (put_server s).
Proof. now apply emits_silent. Qed.

Lemma emits_datetime_now (P : call -> bool) : emits P datetime_now.
Proof. now apply emits_silent. Qed.

Lemma emits_randint (P : call -> bool) (lo hi : N) : emits P (randint lo hi).
Proof. now apply emits_silent. Qed.

Lemma emits_expect_str (P : call -> bool) (v : json) : emits P (expect_str v).
Proof. destruct v; now apply emits_silent. Qed.

Lemma emits_bind {A B} (P : call -> bool) (m : M A) (f : A -> M B) :
  emits P m -> (forall a, emits P (f a)) -> emits P (bind m f).
Proof.
  intros Hm Hf w. unfold bind. destruct (Hm w) as (tr & E & F).
  destruct (m w) as [[a|e|r] w1]; simpl in E; try (exists tr; now split).
  destruct (Hf a w1) as (tr' & E' & F'). exists (tr ++ tr').
  rewrite E', E, app_assoc. split; [reflexivity|]. now apply Forall_app.
Qed.

Lemma emits_try_except {A} (P : call -> bool) (m : M A) (h : exn -> M A) :
  emits P m -> (forall e, emits P (h e)) -> emits P (try_except m h).
Proof.
  intros Hm Hh w. unfold try_except. destruct (Hm w) as (tr & E & F).
  destruct (m w) as [[a|e|r] w1]; simpl in E; try (exists tr; now split).
  destruct (Hh e w1) as (tr' & E' & F'). exists (tr ++ tr').
  rewrite E', E, app_assoc. split; [reflexivity|]. now apply Forall_app.
Qed.

Lemma emits_try_except_github {A} (P : call -> bool) (m : M A)
    (h : exn -> M A) :
  emits P m -> (forall e, emits P (h e)) -> emits P (try_except_github m h).
Proof.
  intros Hm Hh. apply emits_try_except; [exact Hm|].
  intros e. destruct (is_github_exception e); [apply Hh|apply emits_raise].
Qed.

Lemma emits_def (P : call -> bool) (m : M json) : emits P m -> emits P (def m).
Proof.
  intros Hm w. unfold def. destruct (Hm w) as (tr & E & F).
  destruct (m w) as [[a|e|r] w1]; exists tr; now split.
Qed.

Lemma emits_request_as {A} (P : call -> bool) (c : call)
    (failed : A -> option exn) (serve : World -> (A + exn) * World) :
  P c = true -> (forall w, w_trace (snd (serve w)) = w_trace w) ->
  emits P (request_as c failed serve).
Proof.
  intros Pc Hs w. unfold request_as.
  assert (G : forall f, exists tr,
            w_trace (snd (match serve (set_faults f w) with
                          | (inl a, w') => (Val a, log c (failed a) w')
                          | (inr e, w') => (@Raise A e, log c (Some e) w')
                          end)) = w_trace w ++ tr
            /\ Forall (fun ev => P (ev_call ev) = true) tr).
  { intros f. specialize (Hs (set_faults f w)).
    destruct (serve (set_faults f w)) as [[a|e] w1]; simpl in *;
      rewrite Hs; eexists; split; try reflexivity; now repeat constructor. }
  destruct (w_faults w) as [|[e|] rest]; try apply G.
  eexists; split; [reflexivity|]. now repeat constructor.
Qed.

Lemma emits_weaken {A} (P Q : call -> bool) (m : M A) :
  (forall c, P c = true -> Q c = true) -> emits P m -> emits Q m.
Proof.
  intros PQ Hm w. destruct (Hm w) as (tr & E & F). exists tr. split; auto.
  eapply Forall_impl; [|exact F]. intros ev; apply PQ.
Qed.

Lemma emits_expect_str_bind {A} (P : call -> bool) (v : json)
    (f : pystr -> M A) :
  (forall s, v = JStr s -> emits P (f s)) -> emits P (bind (expect_str v) f).
Proof.
  intros H. destruct v; try (apply emits_silent; reflexivity).
  intros w. unfold bind, expect_str, ret. now apply H.
Qed.

(** Going through a program, statement by statement. *)
Ltac emits_tac :=
  repeat first
    [ apply emits_ret | apply emits_raise | apply emits_return
    | apply emits_get_server | apply emits_put_server
    | apply emits_datetime_now | apply emits_randint | apply emits_expect_str
    | solve [eauto with emits]
    | apply emits_expect_str_bind; intros ? ?
    | apply emits_bind; [|intros ?]
    | apply emits_try_except_github; [|intros ?]
    | apply emits_try_except; [|intros ?]
    | apply emits_def
    | apply emits_request_as;
      [ try reflexivity
      | intros ?;
        repeat match goal with
               | |- context [match ?x with _ => _ end] => destruct x
               end; reflexivity ]
    | match goal with
      | |- emits _ (match ?x with _ => _ end) => destruct x
      end ].

(* ----------------------------------------------------------------- *)
(** ** Credential manager *)

Lemma posts_app (a b : list event) : posts (a ++ b) = (posts a + posts b)%nat.
Proof. unfold posts. now rewrite filter_app, length_app. Qed.

(** Unfolding the control-flow operators of a program. *)
Ltac run :=
  cbv [bind ret raise return_ try_except try_except_github def
       get_server put_server time_time datetime_now].

(** Projections of an updated world or server. *)
Ltac proj :=
  cbn [log tick set_server set_ticks set_tokens set_repo set_faults set_trace
       set_token set_expires_at set_github
       w_server w_clock w_ticks w_random w_files w_tokens w_repo w_accounts
       w_orgs w_pages w_faults w_trace
       app_id private_key_path private_key installation_id github
       _installation_token _token_expires_at fst snd tl] in *.

Lemma cached_token_fresh (w : World) :
  token_is_fresh (w_server w) (now w) = true ->
  exists token,
    _installation_token (w_server w) = Some token
    /\ cached_token w = (Val (Some token), tick w).
Proof.
  unfold token_is_fresh, cached_token, now. run.
  destruct (_installation_token (w_server w)) as [token|]; [|discriminate].
  destruct (_token_expires_at (w_server w)) as [e|]; [|discriminate].
  intros H. apply andb_true_iff in H as [H1 H2].
  rewrite H1, H2. now exists token.
Qed.

Lemma cached_token_stale (w : World) :
  token_is_fresh (w_server w) (now w) = false ->
  exists w', cached_token w = (Val None, w') /\ (w' = w \/ w' = tick w).
Proof.
  unfold token_is_fresh, cached_token, now. run.
  destruct (_installation_token (w_server w)) as [token|]; [|eauto].
  destruct (_token_expires_at (w_server w)) as [e|]; [|eauto].
  destruct (truthy_str token && truthy_float e); [|eauto].
  rewrite andb_true_l. intros ->. eauto.
Qed.

Lemma later_refl (w : World) : later w w.
Proof. unfold later. now destruct w. Qed.

Lemma later_tick (w : World) : later w (tick w).
Proof. reflexivity. Qed.

Lemma later_trans (a b c : World) : later a b -> later b c -> later a c.
Proof. unfold later. intros H1 H2. rewrite H2, H1. reflexivity. Qed.

Lemma _load_private_key_world (w : World) :
  snd (_load_private_key w) = w.
Proof.
  unfold _load_private_key. run.
  destruct (private_key (w_server w)) as [[|c k]|]; try reflexivity;
    destruct (private_key_path (w_server w)) as [[|c' path]|];
    try reflexivity; now destruct (w_files w (c' :: path)) as [[?|?]|].
Qed.

Lemma _generate_jwt_later (w : World) : later w (snd (_generate_jwt w)).
Proof.
  unfold _generate_jwt. run.
  pose proof (_load_private_key_world w) as L.
  destruct (_load_private_key w) as [[key|e|r] w1]; simpl in L; subst w1;
    simpl; try apply later_refl.
  destruct (jwt_encode _ _ _ key); simpl; apply later_tick.
Qed.

Lemma post_access_tokens_spec (w : World) :
  let (r, w') := post_access_tokens w in
  w_server w' = w_server w /\ w_clock w' = w_clock w
  /\ w_ticks w' = w_ticks w
  /\ posts (w_trace w') = (posts (w_trace w) + 1)%nat
  /\ (forall resp, r = Val resp -> resp_ok resp = true ->
      w_tokens w = resp :: w_tokens w').
Proof.
  unfold post_access_tokens, request_as.
  destruct (w_tokens w) as [|resp0 more] eqn:T;
    destruct (w_faults w) as [|[e|] rest];
    proj; rewrite ?T; proj; rewrite posts_app; repeat split;
    try reflexivity;
    intros resp E OK; inversion E; subst; try discriminate; reflexivity.
Qed.

Lemma later_fields (w w' : World) :
  later w w' ->
  w_trace w' = w_trace w /\ w_tokens w' = w_tokens w
  /\ w_clock w' = w_clock w /\ w_server w' = w_server w
  /\ w_faults w' = w_faults w.
Proof. intros H. rewrite H. proj. repeat split. Qed.

(** The expiry line 93-98 record for an answer, the last reading of the
    clock being [t]. *)
Lemma mint_token_spec (w : World) :
  let (r, w') := mint_token w in
  (posts (w_trace w') <= posts (w_trace w) + 1)%nat
  /\ forall token, r = Val token ->
       posts (w_trace w') = (posts (w_trace w) + 1)%nat
       /\ _installation_token (w_server w') = Some token
       /\ exists resp body,
            w_tokens w = resp :: w_tokens w'
            /\ resp_ok resp = true /\ resp_body resp = Some body
            /\ tb_token body = Some token
            /\ _token_expires_at (w_server w')
               = match tb_expires_at body with
                 | Some (c :: text) => fromisoformat (replace_Z (c :: text))
                 | _ => Some (dt_timestamp (w_clock w (pred (w_ticks w')))
                              + 55 * 60)
                 end.
Proof.
  unfold mint_token. run.
  pose proof (_generate_jwt_later w) as L. apply later_fields in L.
  destruct (_generate_jwt w) as [[key|e|r0] w1]; proj;
    destruct L as (Ltr & Ltok & Lclock & Lsrv & Lf);
    try (rewrite Ltr; split; [lia|discriminate]).
  pose proof (post_access_tokens_spec w1) as P.
  destruct (post_access_tokens w1) as [[resp|e|r0] w2];
    destruct P as (Psrv & Pclock & Pticks & Pposts & Ptok);
    try (rewrite Pposts, Ltr; split; [lia|discriminate]).
  unfold raise_for_status, http_error, response_json. run.
  destruct (resp_ok resp) eqn:OK;
    [|rewrite Pposts, Ltr; split; [lia|discriminate]].
  destruct (resp_body resp) as [body|] eqn:B;
    [|rewrite Pposts, Ltr; split; [lia|discriminate]].
  destruct (tb_token body) as [token|] eqn:T;
    [|rewrite Pposts, Ltr; split; [lia|discriminate]].
  specialize (Ptok resp eq_refl OK).
  destruct (tb_expires_at body) as [[|c text]|] eqn:X; proj.
  - rewrite Pposts, Ltr. split; [lia|]. intros t E; inversion E; subst t.
    repeat split. exists resp, body. rewrite X, Pclock, Lclock, <- Ltok.
    repeat split; auto.
  - destruct (fromisoformat (replace_Z (c :: text))) as [ts|] eqn:F; proj;
      rewrite Pposts, Ltr; (split; [lia|]); [|discriminate].
    intros t E; inversion E; subst t.
    repeat split. exists resp, body. rewrite X, F, <- Ltok.
    repeat split; auto.
  - rewrite Pposts, Ltr. split; [lia|]. intros t E; inversion E; subst t.
    repeat split. exists resp, body. rewrite X, Pclock, Lclock, <- Ltok.
    repeat split; auto.
Qed.

Create HintDb emits.
#[local] Hint Extern 1 (_ = true) => reflexivity : emits.
#[local] Hint Extern 1 (forall _, _ = true) => intros; reflexivity : emits.
#[local] Hint Extern 1 (forall _ _, _ = true) => intros; reflexivity : emits.

Section Emits.

Variable P : call -> bool.

Lemma emits_load_private_key : emits P _load_private_key.
Proof.
  apply emits_silent. intros w. now rewrite _load_private_key_world.
Qed.

Hypothesis P_post : P PostAccessToken = true.

Lemma emits_get_installation_token : emits P _get_installation_token.
Proof.
  pose proof emits_load_private_key.
  unfold _get_installation_token, cached_token, mint_token, _generate_jwt,
    post_access_tokens, raise_for_status, response_json, time_time.
  emits_tac.
Qed.

Lemma emits_get_github_client : emits P _get_github_client.
Proof.
  pose proof emits_get_installation_token.
  unfold _get_github_client. emits_tac.
Qed.

End Emits.

#[local] Hint Resolve emits_get_installation_token emits_get_github_client
  : emits.

Lemma emits_get_repo (P : call -> bool) (name : pystr) :
  P (GetRepo name) = true -> emits P (get_repo name).
Proof. intros. unfold get_repo, request. emits_tac. Qed.

Lemma emits_get_branches (P : call -> bool) :
  P GetBranches = true -> emits P get_branches.
Proof. intros. unfold get_branches, request. emits_tac. Qed.

Lemma emits_get_branch (P : call -> bool) (name : json) :
  (forall n, P (GetBranch n) = true) -> emits P (get_branch name).
Proof. intros. unfold get_branch, request. emits_tac. Qed.

Lemma emits_get_pulls (P : call -> bool) (state : json) :
  (forall st, P (GetPulls st) = true) -> emits P (get_pulls state).
Proof. intros. unfold get_pulls, request. emits_tac. Qed.

Lemma emits_get_commits (P : call -> bool) (sha : pystr) :
  (forall x, P (GetCommits x) = true) -> emits P (get_commits sha).
Proof. intros. unfold get_commits, request. emits_tac. Qed.

Lemma emits_create_git_ref (P : call -> bool) (name sha : pystr) :
  (forall r x, P (CreateGitRef r x) = true) -> emits P (create_git_ref name sha).
Proof. intros. unfold create_git_ref, request. emits_tac. Qed.

Lemma emits_create_pull (P : call -> bool) (title body head base : json) :
  (forall h b, P (CreatePull h b) = true) ->
  emits P (create_pull title body head base).
Proof. intros. unfold create_pull, request. emits_tac. Qed.

#[local] Hint Resolve emits_get_repo emits_get_branches emits_get_branch
  emits_get_pulls emits_get_commits emits_create_git_ref emits_create_pull
  : emits.

Lemma getter_returns_cached (w w1 : World) (token : pystr) :
  _get_installation_token w = (Val token, w1) ->
  _installation_token (w_server w1) = Some token.
Proof.
  unfold _get_installation_token. run.
  destruct (token_is_fresh (w_server w) (now w)) eqn:F.
  - destruct (cached_token_fresh w F) as (t & E & C). rewrite C.
    intros H; inversion H; subst. exact E.
  - destruct (cached_token_stale w F) as (w0 & C & _). rewrite C.
    pose proof (mint_token_spec w0) as S.
    destruct (mint_token w0) as [[t|e|r0] w']; intros H; inversion H; subst.
    now destruct S as (_ & S); destruct (S token eq_refl) as (_ & S' & _).
Qed.

Lemma load_configured_key (w : World) (key : pystr) :
  configured_key w = Some key -> _load_private_key w = (Val key, w).
Proof.
  unfold configured_key, _load_private_key. run.
  destruct (private_key (w_server w)) as [[|c k]|];
    try (intros H; now inversion H);
    destruct (private_key_path (w_server w)) as [[|c' path]|];
    try discriminate;
    destruct (w_files w (c' :: path)) as [[content|e]|]; try discriminate;
    intros H; now inversion H.
Qed.

Lemma generate_jwt_succeeds (w : World) key jwt :
  configured_key w = Some key ->
  jwt_encode (int_of (now w) - 60) (int_of (now w) + 10 * 60)
    (app_id (w_server w)) key = Some jwt ->
  _generate_jwt w = (Val jwt, tick w).
Proof.
  intros K J. unfold _generate_jwt. run.
  rewrite (load_configured_key w K). proj. unfold now in J. now rewrite J.
Qed.

Lemma post_access_tokens_served (w : World) resp more :
  next_served w = true ->
  w_tokens w = resp :: more ->
  resp_ok resp = true ->
  post_access_tokens w
  = (Val resp,
     log PostAccessToken None
       (set_tokens more (set_faults (tl (w_faults w)) w))).
Proof.
  intros S T OK. unfold post_access_tokens, request_as, next_served in *.
  destruct (w_faults w) as [|[e|] rest]; try discriminate; proj;
    rewrite T; unfold http_error; now rewrite OK.
Qed.

(** When the key is there, the signing works, the remote side serves the
    request and answers it with a token, the minting returns that token. *)
Lemma mint_token_succeeds (w : World) key jwt resp more body token :
  configured_key w = Some key ->
  jwt_encode (int_of (now w) - 60) (int_of (now w) + 10 * 60)
    (app_id (w_server w)) key = Some jwt ->
  next_served w = true ->
  w_tokens w = resp :: more ->
  resp_ok resp = true -> resp_body resp = Some body ->
  tb_token body = Some token ->
  readable_expiry body = true ->
  exists w', mint_token w = (Val token, w') /\ w_tokens w' = more.
Proof.
  intros K J S T OK B TK X.
  unfold mint_token, bind at 1. rewrite (generate_jwt_succeeds w K J).
  unfold bind at 1.
  rewrite (@post_access_tokens_served (tick w) resp more S T OK).
  unfold raise_for_status, response_json, http_error. rewrite OK, B.
  run. rewrite TK. unfold readable_expiry in X.
  destruct (tb_expires_at body) as [[|c text]|]; proj;
    try (eexists; split; reflexivity).
  destruct (fromisoformat (replace_Z (c :: text))); [|discriminate].
  eexists; split; reflexivity.
Qed.

(** C2: while a cached token exists and the time is more than 60 seconds
    before its recorded expiry, the getter returns it unchanged and sends
    nothing.  Otherwise it sends at most one request to the token endpoint,
    and when it returns, exactly one, caching and returning the token of the
    answer with the expiry of the answer, or the time of recording plus 55
    minutes when the answer has none.  And it does return then, with the
    token of the answer, whenever the key is configured, the signing works,
    the remote side serves the request and answers it with a token whose
    expiry, if any, can be read.  Hence a second call within the freshness
    window returns the same token and sends nothing. *)
Theorem installation_token_cache (w : World) :
  (token_is_fresh (w_server w) (now w) = true ->
   exists token,
     _installation_token (w_server w) = Some token
     /\ _get_installation_token w = (Val token, tick w))
  /\ (token_is_fresh (w_server w) (now w) = false ->
      forall r w', _get_installation_token w = (r, w') ->
        (posts (w_trace w') <= posts (w_trace w) + 1)%nat
        /\ forall token, r = Val token ->
             posts (w_trace w') = (posts (w_trace w) + 1)%nat
             /\ _installation_token (w_server w') = Some token
             /\ exists resp body,
                  w_tokens w = resp :: w_tokens w'
                  /\ resp_ok resp = true /\ resp_body resp = Some body
                  /\ tb_token body = Some token
                  /\ _token_expires_at (w_server w')
                     = match tb_expires_at body with
                       | Some (c :: text) =>
                           fromisoformat (replace_Z (c :: text))
                       | _ =>
                           Some (dt_timestamp
                                   (w_clock w (pred (w_ticks w')))
                                 + 55 * 60)
                       end)
  /\ (token_is_fresh (w_server w) (now w) = false ->
      forall key jwt resp more body token,
        let issued := int_of (now (snd (cached_token w))) in
        configured_key w = Some key ->
        jwt_encode (issued - 60) (issued + 10 * 60) (app_id (w_server w)) key
        = Some jwt ->
        next_served w = true ->
        w_tokens w = resp :: more ->
        resp_ok resp = true -> resp_body resp = Some body ->
        tb_token body = Some token ->
        readable_expiry body = true ->
        exists w',
          _get_installation_token w = (Val token, w')
          /\ posts (w_trace w') = (posts (w_trace w) + 1)%nat
          /\ w_tokens w' = more
          /\ _installation_token (w_server w') = Some token
          /\ _token_expires_at (w_server w')
             = match tb_expires_at body with
               | Some (c :: text) => fromisoformat (replace_Z (c :: text))
               | _ =>
                   Some (dt_timestamp (w_clock w (pred (w_ticks w')))
                         + 55 * 60)
               end)
  /\ (forall token w1 w2,
        _get_installation_token w = (Val token, w1) ->
        w_server w2 = w_server w1 ->
        token_is_fresh (w_server w2) (now w2) = true ->
        _get_installation_token w2 = (Val token, tick w2)).
Proof.
  assert (Fresh : forall v, token_is_fresh (w_server v) (now v) = true ->
            exists token, _installation_token (w_server v) = Some token
              /\ _get_installation_token v = (Val token, tick v)).
  { intros v F. destruct (cached_token_fresh v F) as (t & E & C).
    exists t. split; [exact E|].
    unfold _get_installation_token. run. now rewrite C. }
  assert (Stale : token_is_fresh (w_server w) (now w) = false ->
      forall r w', _get_installation_token w = (r, w') ->
        (posts (w_trace w') <= posts (w_trace w) + 1)%nat
        /\ forall token, r = Val token ->
             posts (w_trace w') = (posts (w_trace w) + 1)%nat
             /\ _installation_token (w_server w') = Some token
             /\ exists resp body,
                  w_tokens w = resp :: w_tokens w'
                  /\ resp_ok resp = true /\ resp_body resp = Some body
                  /\ tb_token body = Some token
                  /\ _token_expires_at (w_server w')
                     = match tb_expires_at body with
                       | Some (c :: text) =>
                           fromisoformat (replace_Z (c :: text))
                       | _ =>
                           Some (dt_timestamp
                                   (w_clock w (pred (w_ticks w')))
                                 + 55 * 60)
                       end).
  { intros F r w'. unfold _get_installation_token. run.
    destruct (cached_token_stale w F) as (w0 & C & L). rewrite C.
    assert (L' : later w w0)
      by (destruct L; subst; [apply later_refl|apply later_tick]).
    apply later_fields in L'. destruct L' as (Ltr & Ltok & Lclock & _).
    pose proof (mint_token_spec w0) as S. rewrite Ltr, Ltok, Lclock in S.
    destruct (mint_token w0) as [[t|e|r0] w1]; intros H; inversion H; subst;
      destruct S as (S1 & S2); split; try exact S1;
      try (intros token D; discriminate D).
    exact S2. }
  split; [apply Fresh|]. split; [exact Stale|]. split.
  - intros F key jwt resp more body token issued K J S T OK B TK X.
    destruct (cached_token_stale w F) as (w0 & C & L).
    subst issued. rewrite C in J. cbn [snd] in J.
    assert (E : exists w',
              mint_token w0 = (Val token, w') /\ w_tokens w' = more).
    { destruct L as [->| ->].
      - exact (mint_token_succeeds w K J S T OK B TK X).
      - exact (@mint_token_succeeds (tick w) key jwt resp more body token
                 K J S T OK B TK X). }
    destruct E as (w' & E & M). exists w'.
    assert (G : _get_installation_token w = (Val token, w')).
    { unfold _get_installation_token, bind at 1. rewrite C.
      unfold try_except. now rewrite E. }
    split; [exact G|].
    destruct (Stale F _ _ G) as (_ & R).
    destruct (R token eq_refl) as (P & I & resp' & body' & T' & _ & B' & _ & X').
    rewrite T in T'. injection T' as <- _. rewrite B in B'.
    injection B' as <-. auto.
  - intros token w1 w2 G E F.
    apply getter_returns_cached in G. rewrite <- E in G.
    destruct (Fresh w2 F) as (t & Et & R). congruence.
Qed.

(* ----------------------------------------------------------------- *)
(** ** The requests of [create_pull_request] *)

Lemma emits_then_first {A} (P1 P2 : call -> bool) (m : M A) :
  emits P1 m -> emits_then P1 P2 m.
Proof.
  intros H w. destruct (H w) as (tr & E & F). exists tr, [].
  rewrite app_nil_r. auto.
Qed.

Lemma emits_then_second {A} (P1 P2 : call -> bool) (m : M A) :
  emits P2 m -> emits_then P1 P2 m.
Proof.
  intros H w. destruct (H w) as (tr & E & F). exists [], tr. auto.
Qed.

Lemma emits_then_bind {A B} (P1 P2 : call -> bool) (m : M A) (f : A -> M B) :
  emits P1 m -> (forall a, emits_then P1 P2 (f a)) ->
  emits_then P1 P2 (bind m f).
Proof.
  intros Hm Hf w. unfold bind. destruct (Hm w) as (tr & E & F).
  destruct (m w) as [[a|e|r] w1]; simpl in E;
    try (exists tr, []; rewrite app_nil_r; now auto).
  destruct (Hf a w1) as (tr1 & tr2 & E' & F1 & F2).
  exists (tr ++ tr1), tr2. rewrite E', E, !app_assoc.
  repeat split; auto. now apply Forall_app.
Qed.

Lemma emits_then_def (P1 P2 : call -> bool) (m : M json) :
  emits_then P1 P2 m -> emits_then P1 P2 (def m).
Proof.
  intros Hm w. unfold def. destruct (Hm w) as (tr1 & tr2 & E & F).
  destruct (m w) as [[a|e|r] w1]; exists tr1, tr2; now split.
Qed.

Lemma emits_pull_request_error {A} (P : call -> bool) (head base : json)
    (e : exn) :
  emits P (@pull_request_error A head base e).
Proof. unfold pull_request_error. emits_tac. Qed.

#[local] Hint Resolve emits_pull_request_error : emits.

Section EmitsPullRequest.

Variable P : call -> bool.

Lemma emits_branches_with_commits (base : json) (branches : list Branch) :
  emits P (branches_with_commits base branches).
Proof.
  induction branches as [|b rest IH]; simpl; emits_tac.
Qed.

Lemma emits_other_branches (head : json) (default_branch : pystr)
    (branches : list Branch) :
  emits P (other_branches head default_branch branches).
Proof.
  induction branches as [|b rest IH]; simpl; emits_tac.
Qed.

#[local] Hint Resolve emits_branches_with_commits emits_other_branches : emits.

Hypothesis P_branches : P GetBranches = true.
Hypothesis P_branch : forall n, P (GetBranch n) = true.

Lemma emits_default_head (base : json) : emits P (default_head base).
Proof.
  unfold default_head, sort_newest_first. emits_tac.
Qed.

Lemma emits_other_base (repository : Repo) (head base : json) :
  emits P (other_base repository head base).
Proof.
  unfold other_base. emits_tac.
Qed.

Lemma emits_fetch_base (base : json) : emits P (fetch_base base).
Proof. unfold fetch_base. emits_tac. Qed.

Lemma emits_avoid_collision (head base : json) :
  (forall st, P (GetPulls st) = true) ->
  (forall r x, P (CreateGitRef r x) = true) ->
  emits P (avoid_collision head base).
Proof.
  intros. unfold avoid_collision, check_open_pulls, fork_branch. emits_tac.
Qed.

Lemma emits_submit (owner repo title body : json) (base_branch : Branch)
    (created : bool) (original_head head base : json) :
  (forall x, P (GetCommits x) = true) ->
  (forall h b, P (CreatePull h b) = true) ->
  emits P (submit owner repo title body base_branch created original_head
             head base).
Proof.
  intros. unfold submit, guard_and_submit, check_history. emits_tac.
Qed.

End EmitsPullRequest.

#[local] Hint Resolve emits_default_head emits_other_base emits_fetch_base
  emits_avoid_collision emits_submit : emits.

(* ----------------------------------------------------------------- *)
(** ** Sorting *)

Section Sorting.

Context {A : Type} (lt : A -> A -> bool).



Hypothesis lt_asym : forall a b, lt a b = true -> lt b a = false.
Hypothesis lt_between :
  forall a b c, lt a c = true -> lt a b = true \/ lt b c = true.



End Sorting.





(* ----------------------------------------------------------------- *)
(** ** What the requests of [create_pull_request] answer *)

Lemma get_branch_spec (name : json) (w : World) :
  let (r, w') := get_branch name w in
  w_repo w' = w_repo w
  /\ match r with
     | Val b => exists n, name = JStr n /\ find_branch n (w_repo w) = Some b
     | Raise _ => True
     | Return _ => False
     end.
Proof.
  unfold get_branch, expect_str, request, request_as. run.
  destruct name; try (split; [reflexivity|exact I]).
  destruct (w_faults w) as [|[e|] rest]; proj;
    try destruct (find_branch s (w_repo w)) eqn:F; proj; split; eauto.
Qed.

Lemma get_pulls_open_spec (w : World) :
  let (r, w') := get_pulls (JStr (lit "open")) w in
  w_repo w' = w_repo w
  /\ match r with
     | Val prs => prs = filter is_open (r_pulls (w_repo w))
     | Raise _ => True
     | Return _ => False
     end.
Proof.
  unfold get_pulls, expect_str, request, request_as. run.
  destruct (w_faults w) as [|[e|] rest]; proj; split; auto.
Qed.

Lemma create_git_ref_spec (name sha : pystr) (w : World) :
  let (r, w') := create_git_ref name sha w in
  match r with
  | Val _ => find_branch name (w_repo w) = None
             /\ w_repo w' = with_branch name sha (w_repo w)
  | Raise _ => w_repo w' = w_repo w
  | Return _ => False
  end.
Proof.
  unfold create_git_ref, request, request_as.
  destruct (w_faults w) as [|[e|] rest]; proj;
    try destruct (find_branch name (w_repo w)) eqn:F; proj; auto.
Qed.

Lemma randint_two_digits (w : World) :
  exists r, randint 10 99 w = (Val r, w) /\ (10 <= r <= 99)%N.
Proof.
  unfold randint. eexists; split; [reflexivity|].
  change (99 - 10 + 1)%N with 90%N.
  assert (H : (w_random w mod 90 < 90)%N) by now apply N.mod_lt.
  revert H. generalize (w_random w mod 90)%N. intros m H. lia.
Qed.

Lemma fork_branch_spec (head_sha : pystr) (w : World) :
  let (r, w') := fork_branch head_sha w in
  match r with
  | Val n => is_fork_name (w_clock w (w_ticks w)) n
             /\ find_branch n (w_repo w) = None
             /\ w_repo w' = with_branch n head_sha (w_repo w)
  | Raise _ => w_repo w' = w_repo w
  | Return _ => False
  end.
Proof.
  unfold fork_branch. run.
  set (t := w_clock w (w_ticks w)).
  pose proof (create_git_ref_spec (fork_name t) head_sha (tick w)) as C1.
  fold (tick w).
  destruct (create_git_ref (fork_name t) head_sha (tick w))
    as [[[]|e|r0] w1]; proj.
  - destruct C1 as (F & R). repeat split; auto. now left.
  - destruct (is_github_exception e); [|exact C1].
    destruct (status_is 422 e); [|exact C1].
    destruct (randint_two_digits w1) as (r & E & B). rewrite E.
    pose proof (create_git_ref_spec (fork_name t ++ decimal r) head_sha w1)
      as C2.
    destruct (create_git_ref (fork_name t ++ decimal r) head_sha w1)
      as [[[]|e2|r2] w2]; try rewrite C1 in C2; auto.
    destruct C2 as (F & R). repeat split; auto. right. now exists r.
  - exact C1.
Qed.

Lemma avoid_collision_spec (head base : json) (w : World) :
  exists head' created w',
    avoid_collision head base w = (Val (head', created), w')
    /\ collision_outcome head base w w' head' created.
Proof.
  unfold avoid_collision, check_open_pulls. run.
  pose proof (get_branch_spec head w) as G.
  destruct (get_branch head w) as [[hb|e|r0] w1]; destruct G as (R1 & G);
    try contradiction;
    [|exists head, false, w1; split; [reflexivity|left; auto]].
  destruct G as (h & -> & Fh).
  pose proof (get_pulls_open_spec w1) as L.
  destruct (get_pulls (JStr (lit "open")) w1) as [[prs|e|r0] w2];
    destruct L as (R2 & L); try contradiction; rewrite R1 in *;
    [|exists (JStr h), false, w2; split; [reflexivity|left; auto]].
  subst prs.
  destruct (existsb (pr_matches (JStr h) base)
              (filter is_open (r_pulls (w_repo w)))) eqn:X;
    [|exists (JStr h), false, w2; split; [reflexivity|left; auto]].
  pose proof (fork_branch_spec (b_sha hb) w2) as K.
  destruct (fork_branch (b_sha hb) w2) as [[n|e|r0] w3];
    try contradiction; rewrite R2 in *.
  - destruct K as (N1 & N2 & N3).
    exists (JStr n), true, w3. split; [reflexivity|]. right.
    split; [reflexivity|]. exists h, hb, n, (w_clock w2 (w_ticks w2)).
    repeat split; auto.
    apply existsb_exists in X as (pr & I & M).
    apply filter_In in I as (I & O). eauto.
  - exists (JStr h), false, w3. split; [reflexivity|left; auto].
Qed.

Lemma fetch_base_spec (base : json) (w : World) :
  let (r, w') := fetch_base base w in
  w_repo w' = w_repo w
  /\ match r with
     | Val bb => exists b, base = JStr b /\ find_branch b (w_repo w) = Some bb
     | _ => True
     end.
Proof.
  unfold fetch_base. run.
  pose proof (get_branch_spec base w) as G.
  destruct (get_branch base w) as [[hb|e|r0] w1]; destruct G as (R1 & G);
    try contradiction; [auto|].
  destruct (is_github_exception e); auto.
Qed.

Lemma emits_after_guard (owner repo title body : json) (base_branch : Branch)
    (created : bool) (original_head head base : json) (head_branch : Branch) :
  emits (after_guard head base)
    (guard_and_submit owner repo title body base_branch created original_head
       head base head_branch).
Proof.
  unfold guard_and_submit, check_history, create_pull, request.
  emits_tac. subst. simpl. now rewrite !pystr_eqb_refl.
Qed.

Lemma find_app_some {A} (f : A -> bool) (l l' : list A) (x : A) :
  find f l = Some x -> find f (l ++ l') = Some x.
Proof.
  induction l as [|y l IH]; simpl; [discriminate|].
  destruct (f y); auto.
Qed.


Lemma find_branch_with_branch (x n sha : pystr) (r : Repo) (b : Branch) :
  find_branch x r = Some b -> find_branch x (with_branch n sha r) = Some b.
Proof. unfold find_branch, with_branch. simpl. apply find_app_some. Qed.


(** The branches of the repository stay as they are. *)
Lemma keeps_branches_after_guard (owner repo title body : json)
    (base_branch : Branch) (created : bool) (original_head head base : json)
    (head_branch : Branch) (l : list Branch) :
  maintains (fun w => r_branches (w_repo w) = l)
    (guard_and_submit owner repo title body base_branch created original_head
       head base head_branch).
Proof.
  assert (S : stable (fun w => r_branches (w_repo w) = l))
    by (intros w H; repeat split; intros; exact H).
  unfold guard_and_submit, check_history, create_pull, get_commits,
    expect_str, request.
  maintains_tac.
Qed.

Lemma guard_stops_equal_commits (owner repo title body : json)
    (base_branch : Branch) (created : bool) (original_head head base : json)
    (head_branch : Branch) (w : World) :
  b_sha head_branch = b_sha base_branch ->
  guard_and_submit owner repo title body base_branch created original_head
    head base head_branch w
  = (Return (no_differences_error head base head_branch base_branch), w).
Proof.
  intros E. unfold guard_and_submit. rewrite E, pystr_eqb_refl. reflexivity.
Qed.

Lemma find_branch_same_branches (x : pystr) (r r' : Repo) :
  r_branches r' = r_branches r -> find_branch x r' = find_branch x r.
Proof. unfold find_branch. now intros ->. Qed.

Lemma values_equal_str (a b : pystr) :
  values_equal (JStr a) (JStr b) = true -> a = b.
Proof. simpl. apply pystr_eqb_eq. Qed.

Lemma Forall_calls (P Q : call -> bool) (v : bool) (tr : list event) :
  (forall c, P c = true -> Q c = v) ->
  Forall (fun ev => P (ev_call ev) = true) tr ->
  Forall (fun ev => Q (ev_call ev) = v) tr.
Proof.
  intros PQ F. eapply Forall_impl; [|exact F]. intros ev. apply PQ.
Qed.

(** Settling what kind of requests a stretch of the log holds. *)
Ltac calls :=
  match goal with
  | F : Forall _ ?tr |- Forall _ ?tr =>
      eapply Forall_calls; [|exact F]; intros [];
      unfold before_guards; simpl; congruence
  end.

Lemma try_except_world {A} (m : M A) (h : exn -> M A) (w : World) :
  (forall e w0, snd (h e w0) = w0) ->
  snd (try_except m h w) = snd (m w).
Proof.
  intros H. unfold try_except. destruct (m w) as [[a|e|r0] w1]; auto.
Qed.

(** The last stretch of [create_pull_request], run when the branch of
    [base] is known. *)
Lemma submit_reconciled (owner repo title body : json) (bb : Branch)
    (created : bool) (original_head head base : json) (b : pystr)
    (w : World) :
  base = JStr b -> find_branch b (w_repo w) = Some bb ->
  let w' := snd (try_except
                   (submit owner repo title body bb created original_head
                      head base)
                   (pull_request_error head base) w) in
  exists tr2,
    w_trace w' = w_trace w ++ tr2
    /\ Forall (fun ev => is_check_call (ev_call ev) = false) tr2
    /\ forall h b' f,
         In {| ev_call := CreatePull h b'; ev_failure := f |} tr2 ->
         distinct_commits h b' (w_repo w').
Proof.
  intros -> Fb. unfold submit. cbv zeta.
  rewrite try_except_world by reflexivity.
  unfold bind, try_except_github, try_except.
  pose proof (get_branch_spec head w) as G.
  destruct (@emits_get_branch is_branch_call head ltac:(reflexivity) w)
    as (tr & Et & Ft).
  destruct (get_branch head w) as [[hb|e|r0] w1]; destruct G as (R1 & G);
    try contradiction; simpl in Et.
  - destruct G as (h0 & -> & Fh).
    destruct (emits_after_guard owner repo title body bb created original_head
                (JStr h0) (JStr b) hb w1) as (tr' & Et' & Ft').
    pose proof (@keeps_branches_after_guard owner repo title body bb created
                  original_head (JStr h0) (JStr b) hb _ w1 eq_refl) as K.
    destruct (pystr_eqb (b_sha hb) (b_sha bb)) eqn:S.
    { apply pystr_eqb_eq in S.
      rewrite (@guard_stops_equal_commits owner repo title body bb created
                 original_head (JStr h0) (JStr b) hb w1 S) in *.
      simpl. exists tr. rewrite Et. repeat split.
      - calls.
      - intros h b' f I. rewrite Forall_forall in Ft.
        specialize (Ft _ I). discriminate Ft. }
    apply pystr_eqb_neq in S.
    exists (tr ++ tr'). rewrite Et', Et, app_assoc. repeat split.
    + apply Forall_app; split; calls.
    + intros h b' f I. apply in_app_or in I as [I|I].
      * rewrite Forall_forall in Ft. specialize (Ft _ I). discriminate Ft.
      * rewrite Forall_forall in Ft'. specialize (Ft' _ I). simpl in Ft'.
        apply andb_true_iff in Ft' as (E1 & E2).
        apply pystr_eqb_eq in E1, E2. subst h b'.
        exists hb, bb. rewrite !(find_branch_same_branches _ _ _ K), R1.
        auto.
  - destruct (is_github_exception e); simpl; exists tr; rewrite Et;
      repeat split; try calls;
      intros h b' f I; rewrite Forall_forall in Ft; specialize (Ft _ I);
      discriminate Ft.
Qed.

Lemma reconciled_quiet {A} (m : M A) : emits before_guards m -> reconciled m.
Proof.
  intros H w. destruct (H w) as (tr & E & F). exists tr, [].
  rewrite app_nil_r. repeat split; auto; [calls|]. intros h b f [].
Qed.

Lemma reconciled_bind {A B} (m : M A) (f : A -> M B) :
  emits before_guards m -> (forall a, reconciled (f a)) ->
  reconciled (bind m f).
Proof.
  intros Hm Hf w. unfold bind. destruct (Hm w) as (tr & E & F).
  destruct (m w) as [[a|e|r] w1]; simpl in E;
    try (exists tr, []; rewrite app_nil_r; simpl; repeat split; auto;
         [calls|intros ? ? ? []]).
  destruct (Hf a w1) as (tr1 & tr2 & E' & F1 & F2 & D).
  exists (tr ++ tr1), tr2. rewrite E', E, !app_assoc.
  repeat split; auto. apply Forall_app; split; [calls|assumption].
Qed.

Lemma reconciled_def (m : M json) : reconciled m -> reconciled (def m).
Proof.
  intros Hm w. unfold def. destruct (Hm w) as (tr1 & tr2 & E & F).
  destruct (m w) as [[a|e|r] w1]; exists tr1, tr2; exact (conj E F).
Qed.

Lemma try_except_error_val {A} (m : M A) (head base : json) (w w1 : World)
    (a : A) :
  try_except m (pull_request_error head base) w = (Val a, w1) ->
  m w = (Val a, w1).
Proof.
  unfold try_except. destruct (m w) as [[x|e|r] w2]; try discriminate; auto.
Qed.

(** From the fetch of the base branch on: lines 1042-1227. *)
Lemma tail_reconciled (owner repo title body head base : json) :
  reconciled
    (bind (try_except (fetch_base base) (pull_request_error head base))
       (fun base_branch =>
          bind (avoid_collision head base)
            (fun checked =>
               try_except
                 (submit owner repo title body base_branch (snd checked)
                    head (fst checked) base)
                 (pull_request_error (fst checked) base)))).
Proof.
  intros w. unfold bind.
  assert (Q : emits before_guards
                (try_except (fetch_base base)
                   (@pull_request_error Branch head base)))
    by (apply emits_try_except;
        [apply emits_fetch_base; auto with emits|auto with emits]).
  destruct (Q w) as (tr & E & F).
  destruct (try_except (fetch_base base) (pull_request_error head base) w)
    as [[bb|e|r0] w1] eqn:T; simpl in E;
    try (exists tr, []; rewrite app_nil_r; simpl; repeat split; auto;
         [calls|intros ? ? ? []]).
  apply try_except_error_val in T.
  pose proof (fetch_base_spec base w) as S. rewrite T in S.
  destruct S as (R1 & b & -> & Fb).
  destruct (avoid_collision_spec head (JStr b) w1)
    as (head' & created & w2 & A & O).
  assert (Q2 : emits before_guards (avoid_collision head (JStr b)))
    by (apply emits_avoid_collision; auto with emits).
  destruct (Q2 w1) as (tr' & E' & F'). rewrite A in *. simpl in E'.
  assert (Fb' : find_branch b (w_repo w2) = Some bb).
  { destruct O as [(_ & _ & R)|(_ & h & hb & n & t & _ & _ & _ & _ & _ & R & _)];
      rewrite R, R1; [exact Fb|now apply find_branch_with_branch]. }
  destruct (@submit_reconciled owner repo title body bb created head head'
              (JStr b) b w2 eq_refl Fb') as (tr2 & E2 & F2 & D).
  simpl fst; simpl snd.
  exists (tr ++ tr'), tr2. rewrite E2, E', E, !app_assoc.
  repeat split; auto. apply Forall_app; split; calls.
Qed.

Lemma create_pull_request_reconciled (owner repo title head base body : json) :
  reconciled (create_pull_request owner repo title head base body).
Proof.
  unfold create_pull_request. apply reconciled_def.
  apply reconciled_bind; [emits_tac|intros opened]. cbv zeta.
  apply reconciled_bind; [emits_tac|intros head1].
  apply reconciled_bind; [emits_tac|intros base2].
  apply tail_reconciled.
Qed.

(** C1 (as the code has it): the check for an open pull request of the same
    direction, with the fork it may make, comes before the guards, not
    after them.  In the log of every call, the requests up to some point
    include none of the history guard or of the submission, and the
    requests after that point include no listing of pull requests and no
    creation of a branch. *)
Theorem collision_check_precedes_guards
    (owner repo title head base body : json) (w : World) :
  exists tr1 tr2,
    w_trace (snd (create_pull_request owner repo title head base body w))
    = w_trace w ++ tr1 ++ tr2
    /\ Forall (fun ev => is_guard_call (ev_call ev) = false) tr1
    /\ Forall (fun ev => is_check_call (ev_call ev) = false) tr2.
Proof.
  destruct (create_pull_request_reconciled owner repo title head base body w)
    as (tr1 & tr2 & E & F1 & F2 & _).
  now exists tr1, tr2.
Qed.

(* ----------------------------------------------------------------- *)
(** ** Choosing another base *)














(* ----------------------------------------------------------------- *)
(** ** The fork *)

Lemma create_git_ref_log (name sha : pystr) (w : World) :
  exists f,
    w_trace (snd (create_git_ref name sha w))
    = w_trace w ++ [create_ref_event name sha f]
    /\ match fst (create_git_ref name sha w) with
       | Val _ => f = None
       | Raise e => f = Some e
       | Return _ => False
       end.
Proof.
  unfold create_git_ref, request, request_as, create_ref_event.
  destruct (w_faults w) as [|[e|] rest]; proj;
    try destruct (find_branch name (w_repo w)); proj; eauto.
Qed.

Lemma fork_branch_log (sha : pystr) (w : World) :
  exists tr,
    w_trace (snd (fork_branch sha w)) = w_trace w ++ tr
    /\ fork_requests (w_clock w (w_ticks w)) sha tr.
Proof.
  unfold fork_branch. run. fold (tick w).
  set (t := w_clock w (w_ticks w)).
  destruct (create_git_ref_log (fork_name t) sha (tick w)) as (f & E & O).
  destruct (create_git_ref (fork_name t) sha (tick w)) as [[[]|e|r0] w1];
    simpl in E, O; try contradiction; subst f.
  - exists [create_ref_event (fork_name t) sha None]. split; [exact E|].
    left. now exists None.
  - unfold fork_requests, is_name_collision.
    destruct (is_github_exception e) eqn:G;
      [destruct (status_is 422 e) eqn:S|].
    + destruct (randint_two_digits w1) as (r & R & B). rewrite R.
      destruct (create_git_ref_log (fork_name t ++ decimal r) sha w1)
        as (f2 & E2 & _).
      destruct (create_git_ref (fork_name t ++ decimal r) sha w1)
        as [[[]|e2|r2] w2]; simpl in E2 |- *;
        rewrite E2, E, <- app_assoc; (eexists; split; [reflexivity|]);
        right; exists e, r, f2; rewrite G, S; auto.
    + simpl. eexists; split; [exact E|]. left. exists (Some e).
      now rewrite G, S.
    + simpl. eexists; split; [exact E|]. left. exists (Some e).
      now rewrite G.
Qed.

(** C10: the check for an open pull request of the same direction never
    reports a failure.  Whatever is raised while the head branch is fetched,
    the open pull requests are listed or the fork is created, is dropped,
    and the call goes on with the head it had and no branch created; so
    there are calls that ask the remote side for a pull request of the
    direction of one that is open. *)
Theorem collision_check_is_best_effort (head base : json) (w : World) :
  (exists head' created w',
     avoid_collision head base w = (Val (head', created), w'))
  /\ (forall e w1,
        check_open_pulls head base w = (Raise e, w1) ->
        avoid_collision head base w = (Val (head, false), w1))
  /\ (forall e w1,
        get_branch head w = (Raise e, w1) ->
        check_open_pulls head base w = (Raise e, w1))
  /\ (forall hb w1 e w2,
        get_branch head w = (Val hb, w1) ->
        get_pulls (JStr (lit "open")) w1 = (Raise e, w2) ->
        check_open_pulls head base w = (Raise e, w2))
  /\ (forall hb w1 prs w2 e w3,
        get_branch head w = (Val hb, w1) ->
        get_pulls (JStr (lit "open")) w1 = (Val prs, w2) ->
        existsb (pr_matches head base) prs = true ->
        fork_branch (b_sha hb) w2 = (Raise e, w3) ->
        check_open_pulls head base w = (Raise e, w3))
  /\ (let w0 := sample_world (sample_repo "f1" []) fork_fails in
      let w' := snd (sample_call create_pull_request w0) in
      existsb (fun pr => is_open pr
                         && same_direction (lit "feature") (lit "main") pr)
        (r_pulls (w_repo w0)) = true
      /\ exists f, In {| ev_call := CreatePull (lit "feature") (lit "main");
                         ev_failure := f |} (w_trace w')).
Proof.
  repeat split.
  - destruct (avoid_collision_spec head base w) as (h & c & w' & E & _).
    now exists h, c, w'.
  - intros e w1 E. unfold avoid_collision, try_except. now rewrite E.
  - intros e w1 E. unfold check_open_pulls, bind. now rewrite E.
  - intros hb w1 e w2 E1 E2. unfold check_open_pulls, bind.
    now rewrite E1, E2.
  - intros hb w1 prs w2 e w3 E1 E2 X E3. unfold check_open_pulls, bind.
    now rewrite E1, E2, X, E3.
  - vm_compute. eexists. do 8 right. left. reflexivity.
Qed.

(* ----------------------------------------------------------------- *)
(** ** The shape of results *)

Lemma outcomes_ret {A} (V : A -> Prop) b (a : A) : V a -> outcomes V b (ret a).
Proof. intros H w. exact H. Qed.

Lemma outcomes_raise {A} (V : A -> Prop) (e : exn) : outcomes V true (raise e).
Proof. intros w. reflexivity. Qed.

Lemma outcomes_return {A} (V : A -> Prop) b r :
  tool_shaped r = true -> outcomes V b (@return_ A r).
Proof. intros H w. exact H. Qed.

Lemma outcomes_bind {A B} (V1 : A -> Prop) (V : B -> Prop) b
    (m : M A) (k : A -> M B) :
  outcomes V1 b m -> (forall a, V1 a -> outcomes V b (k a)) ->
  outcomes V b (bind m k).
Proof.
  intros Hm Hk w. unfold bind. specialize (Hm w).
  destruct (m w) as [[a|e|r] w']; cbn in *; auto.
  now apply Hk.
Qed.

Lemma outcomes_try_except {A} (V : A -> Prop) b (m : M A) h :
  outcomes V true m -> (forall e, outcomes V b (h e)) ->
  outcomes V b (try_except m h).
Proof.
  intros Hm Hh w. unfold try_except. specialize (Hm w).
  destruct (m w) as [[a|e|r] w']; cbn in *; auto.
  apply Hh.
Qed.

Lemma outcomes_try_except_github {A} (V : A -> Prop) (m : M A) h :
  outcomes V true m -> (forall e, outcomes V true (h e)) ->
  outcomes V true (try_except_github m h).
Proof.
  intros Hm Hh. apply outcomes_try_except; auto.
  intros e. destruct (is_github_exception e); auto using outcomes_raise.
Qed.

Lemma outcomes_def b (body : M json) :
  outcomes in_shape b body -> outcomes in_shape b (def body).
Proof.
  intros H w. unfold def. specialize (H w).
  destruct (body w) as [[a|e|r] w']; cbn in *; auto.
Qed.

Lemma outcomes_weaken {A} (V V' : A -> Prop) b (m : M A) :
  outcomes V b m -> (forall a, V a -> V' a) -> outcomes V' true m.
Proof.
  intros H HV w. specialize (H w).
  destruct (fst (m w)); auto.
Qed.

(** A statement that always runs to its end. *)
Lemma outcomes_val {A} (V : A -> Prop) b (m : M A) :
  (forall w, exists a, fst (m w) = Val a /\ V a) -> outcomes V b m.
Proof. intros H w. destruct (H w) as (a & -> & Ha). exact Ha. Qed.

Lemma outcomes_request_as {A} c failed serve :
  outcomes (@any A) true (request_as c failed serve).
Proof.
  intros w. unfold request_as.
  destruct (w_faults w) as [|[e|] rest]; cbn;
    try reflexivity; now destruct (serve _) as [[a|e] w'].
Qed.

Lemma outcomes_request {A} c serve : outcomes (@any A) true (request c serve).
Proof. apply outcomes_request_as. Qed.

Lemma outcomes_get_server b : outcomes any b get_server.
Proof. now intros w. Qed.

Lemma outcomes_put_server b s : outcomes any b (put_server s).
Proof. now intros w. Qed.

Lemma outcomes_datetime_now b : outcomes any b datetime_now.
Proof. now intros w. Qed.

Lemma outcomes_time_time b : outcomes any b time_time.
Proof. now intros w. Qed.

Lemma outcomes_randint b lo hi : outcomes any b (randint lo hi).
Proof. now intros w. Qed.

Lemma outcomes_expect_str v : outcomes any true (expect_str v).
Proof. now destruct v; intros w. Qed.

Lemma outcomes_expect_method v method :
  outcomes any true (expect_method v method).
Proof. now destruct v; intros w. Qed.

Create HintDb shapes.

#[local] Hint Resolve outcomes_request_as outcomes_request outcomes_get_server
  outcomes_put_server outcomes_datetime_now outcomes_time_time outcomes_randint
  outcomes_expect_str outcomes_expect_method outcomes_raise : shapes.

(** Going through a program for the results it returns. *)
Ltac shape_tac :=
  repeat first
    [ apply outcomes_ret; first [exact I | reflexivity]
    | apply outcomes_return; reflexivity
    | solve [eauto with shapes]
    | apply (@outcomes_bind _ _ any); [|intros ? _]
    | apply outcomes_try_except_github; [|intros ?]
    | apply outcomes_try_except; [|intros ?]
    | apply outcomes_def
    | match goal with
      | |- outcomes _ _ (match ?x with _ => _ end) => destruct x
      end ].

Lemma tool_result_in_shape payload :
  reports_success payload = true -> tool_shaped (tool_result payload) = true.
Proof. intros H. cbn. exact H. Qed.

Lemma error_payloads_in_shape e :
  tool_shaped (tool_result (if is_github_exception e
                            then github_error_payload e
                            else generic_error_payload e)) = true.
Proof. now destruct e. Qed.

(** A tool whose body returns results in shape always gives one. *)
Lemma outcomes_tool (body : M json) :
  outcomes in_shape true body -> outcomes in_shape false (tool body).
Proof.
  intros H. unfold tool. apply outcomes_def, outcomes_try_except; auto.
  intros e. apply outcomes_return, error_payloads_in_shape.
Qed.

(** Such a function gives a value in shape, whatever the world. *)
Lemma outcomes_answer (m : M json) :
  outcomes in_shape false (def m) ->
  forall w, exists r w', def m w = (Val r, w') /\ tool_shaped r = true.
Proof.
  intros H w. specialize (H w). unfold def in *.
  destruct (m w) as [[a|e|r] w']; cbn in *; eauto; discriminate.
Qed.

Lemma outcomes_load_private_key : outcomes any true _load_private_key.
Proof.
  unfold _load_private_key. shape_tac.
  all: intros w; now destruct (w_files w _) as [[?|?]|].
Qed.

#[local] Hint Resolve outcomes_load_private_key : shapes.

Lemma outcomes_generate_jwt : outcomes any true _generate_jwt.
Proof. unfold _generate_jwt. shape_tac. Qed.

#[local] Hint Resolve outcomes_generate_jwt : shapes.

Lemma outcomes_get_installation_token :
  outcomes any true _get_installation_token.
Proof.
  unfold _get_installation_token, cached_token, mint_token, post_access_tokens,
    raise_for_status, response_json.
  shape_tac.
Qed.

#[local] Hint Resolve outcomes_get_installation_token : shapes.

Lemma outcomes_get_github_client : outcomes any true _get_github_client.
Proof. unfold _get_github_client. shape_tac. Qed.

#[local] Hint Resolve outcomes_get_github_client : shapes.

Lemma outcomes_get_repo n : outcomes any true (get_repo n).
Proof. unfold get_repo. shape_tac. Qed.

Lemma outcomes_get_branches : outcomes any true get_branches.
Proof. unfold get_branches. shape_tac. Qed.

Lemma outcomes_get_branch n : outcomes any true (get_branch n).
Proof. unfold get_branch. shape_tac. Qed.

Lemma outcomes_get_pulls st : outcomes any true (get_pulls st).
Proof. unfold get_pulls. shape_tac. Qed.

Lemma outcomes_get_commits sha : outcomes any true (get_commits sha).
Proof. unfold get_commits. shape_tac. Qed.

Lemma outcomes_create_git_ref n sha : outcomes any true (create_git_ref n sha).
Proof. unfold create_git_ref. shape_tac. Qed.

Lemma outcomes_create_pull t b h a : outcomes any true (create_pull t b h a).
Proof. unfold create_pull. shape_tac. Qed.

Lemma outcomes_get_contents p r : outcomes any true (get_contents p r).
Proof. unfold get_contents. shape_tac. Qed.

Lemma outcomes_as_file c a : outcomes any true (as_file c a).
Proof. unfold as_file. shape_tac. Qed.

Lemma outcomes_write_file c p m t : outcomes any true (write_file c p m t).
Proof. unfold write_file. shape_tac. Qed.

Lemma outcomes_get_pull n : outcomes any true (get_pull n).
Proof. unfold get_pull. shape_tac. Qed.

Lemma outcomes_get_account c accounts login :
  outcomes any true (get_account c accounts login).
Proof. unfold get_account. shape_tac. Qed.

Lemma outcomes_get_repos c repos t s d :
  outcomes any true (get_repos c repos t s d).
Proof. unfold get_repos. shape_tac. Qed.

Lemma outcomes_last_commit_at b : outcomes any true (last_commit_at b).
Proof. unfold last_commit_at. shape_tac. Qed.

#[local] Hint Resolve outcomes_get_repo outcomes_get_branches
  outcomes_get_branch outcomes_get_pulls outcomes_get_commits
  outcomes_create_git_ref outcomes_create_pull outcomes_get_contents
  outcomes_as_file outcomes_write_file outcomes_get_pull outcomes_get_account
  outcomes_get_repos outcomes_last_commit_at : shapes.

Lemma outcomes_branch_entries repository branches :
  outcomes any true (branch_entries repository branches).
Proof. induction branches; cbn [branch_entries]; shape_tac. Qed.

Lemma outcomes_source_ref repository b s :
  outcomes any true (source_ref repository b s).
Proof. unfold source_ref. shape_tac. Qed.

Lemma outcomes_file_missing p r e : outcomes any true (file_missing p r e).
Proof. unfold file_missing. shape_tac. Qed.

#[local] Hint Resolve outcomes_branch_entries outcomes_source_ref
  outcomes_file_missing : shapes.

Lemma get_help_in_shape : outcomes in_shape false get_help.
Proof. unfold get_help. shape_tac. Qed.

Lemma read_file_in_shape owner repo path ref :
  outcomes in_shape false (read_file owner repo path ref).
Proof. unfold read_file. apply outcomes_tool. shape_tac. Qed.

Lemma create_branch_in_shape owner repo branch_name source_branch source_sha :
  outcomes in_shape false
    (create_branch owner repo branch_name source_branch source_sha).
Proof. unfold create_branch. apply outcomes_tool. shape_tac. Qed.

Lemma create_or_update_file_in_shape owner repo path content message branch
    is_base64 :
  outcomes in_shape false
    (create_or_update_file owner repo path content message branch is_base64).
Proof. unfold create_or_update_file. apply outcomes_tool. shape_tac. Qed.

Lemma list_branches_in_shape owner repo :
  outcomes in_shape false (list_branches owner repo).
Proof. unfold list_branches. apply outcomes_tool. shape_tac. Qed.

Lemma get_repository_in_shape owner repo :
  outcomes in_shape false (get_repository owner repo).
Proof. unfold get_repository. apply outcomes_tool. shape_tac. Qed.

Lemma list_pull_requests_in_shape owner repo state :
  outcomes in_shape false (list_pull_requests owner repo state).
Proof. unfold list_pull_requests. apply outcomes_tool. shape_tac. Qed.

Lemma get_pull_request_in_shape owner repo number :
  outcomes in_shape false (get_pull_request owner repo number).
Proof. unfold get_pull_request. apply outcomes_tool. shape_tac. Qed.

Lemma outcomes_get_installation_repositories token page :
  outcomes any true (get_installation_repositories token page).
Proof. unfold get_installation_repositories. shape_tac. Qed.

Lemma outcomes_raise_for_status {B} (r : Response B) :
  outcomes any true (raise_for_status r).
Proof. unfold raise_for_status. shape_tac. Qed.

Lemma outcomes_response_json {B} (r : Response B) :
  outcomes any true (response_json r).
Proof. unfold response_json. shape_tac. Qed.

#[local] Hint Resolve outcomes_get_installation_repositories
  outcomes_raise_for_status outcomes_response_json : shapes.

Lemma outcomes_installation_pages keep done token following :
  (forall repo_data, outcomes any true (keep repo_data)) ->
  forall page repositories,
    outcomes any true
      (installation_pages keep done token following page repositories).
Proof.
  intros Hkeep.
  assert (Heach : forall l,
    outcomes any true
      ((fix each (l : list (list (string * json))) : M (list json) :=
          match l with
          | [] => ret []
          | repo_data :: rest =>
              entry <- keep repo_data ;;
              entries <- each rest ;;
              ret (entry ++ entries)
          end) l)).
  { induction l; shape_tac. }
  induction following as [|p following IH]; intros page repositories;
    cbn [installation_pages]; shape_tac.
Qed.

Lemma outcomes_installation_repositories keep done token :
  (forall repo_data, outcomes any true (keep repo_data)) ->
  outcomes any true (installation_repositories keep done token).
Proof.
  intros H w. unfold installation_repositories.
  now apply outcomes_installation_pages.
Qed.

Lemma outcomes_keep_owned owner repo_data :
  outcomes any true (keep_owned owner repo_data).
Proof. unfold keep_owned. shape_tac. Qed.

Lemma outcomes_keep_all repo_data : outcomes any true (keep_all repo_data).
Proof. unfold keep_all. shape_tac. Qed.

Lemma outcomes_sort_repositories s d l :
  outcomes any true (sort_repositories s d l).
Proof. unfold sort_repositories. shape_tac. Qed.

#[local] Hint Resolve outcomes_keep_owned outcomes_keep_all
  outcomes_sort_repositories : shapes.

Lemma outcomes_repositories_of owner t s d :
  outcomes any true (repositories_of owner t s d).
Proof.
  unfold repositories_of. shape_tac.
  apply outcomes_installation_repositories. auto with shapes.
Qed.

Lemma outcomes_repositories_of_installation t s d :
  outcomes any true (repositories_of_installation t s d).
Proof.
  unfold repositories_of_installation. shape_tac.
  apply outcomes_installation_repositories. auto with shapes.
Qed.

#[local] Hint Resolve outcomes_repositories_of
  outcomes_repositories_of_installation : shapes.

Lemma list_repositories_in_shape owner repo_type sort direction :
  outcomes in_shape false (list_repositories owner repo_type sort direction).
Proof. unfold list_repositories. apply outcomes_tool. shape_tac. Qed.

Lemma outcomes_branches_with_commits base branches :
  outcomes any true (branches_with_commits base branches).
Proof. induction branches; cbn [branches_with_commits]; shape_tac. Qed.

Lemma outcomes_other_branches head d branches :
  outcomes any true (other_branches head d branches).
Proof. induction branches; cbn [other_branches]; shape_tac. Qed.

Lemma outcomes_sort_newest_first l : outcomes any true (sort_newest_first l).
Proof. unfold sort_newest_first. shape_tac. Qed.

#[local] Hint Resolve outcomes_branches_with_commits outcomes_other_branches
  outcomes_sort_newest_first : shapes.

Lemma outcomes_default_head base : outcomes any true (default_head base).
Proof. unfold default_head. shape_tac. Qed.

Lemma outcomes_other_base repository head base :
  outcomes any true (other_base repository head base).
Proof. unfold other_base. shape_tac. Qed.

Lemma outcomes_fetch_base base : outcomes any true (fetch_base base).
Proof. unfold fetch_base. shape_tac. Qed.

Lemma outcomes_fork_branch sha : outcomes any true (fork_branch sha).
Proof. unfold fork_branch. shape_tac. Qed.

#[local] Hint Resolve outcomes_default_head outcomes_other_base
  outcomes_fetch_base outcomes_fork_branch : shapes.

Lemma outcomes_avoid_collision head base :
  outcomes any false (avoid_collision head base).
Proof. unfold avoid_collision, check_open_pulls. shape_tac. Qed.

Lemma outcomes_check_history head base hb bb :
  outcomes any true (check_history head base hb bb).
Proof. unfold check_history. shape_tac. Qed.

#[local] Hint Resolve outcomes_avoid_collision outcomes_check_history : shapes.

Lemma pull_request_result_in_shape owner repo pr created original head base :
  tool_shaped (pull_request_result owner repo pr created original head base)
  = true.
Proof. reflexivity. Qed.

Lemma outcomes_submit owner repo title body bb created original head base :
  outcomes in_shape true
    (submit owner repo title body bb created original head base).
Proof.
  unfold submit, guard_and_submit. shape_tac.
Qed.

Lemma outcomes_pull_request_error {A} (V : A -> Prop) head base e :
  outcomes V false (pull_request_error head base e).
Proof.
  unfold pull_request_error. apply outcomes_return. now destruct e.
Qed.

#[local] Hint Resolve outcomes_submit outcomes_pull_request_error : shapes.

Lemma create_pull_request_in_shape owner repo title head base body :
  outcomes in_shape false (create_pull_request owner repo title head base body).
Proof. unfold create_pull_request. shape_tac. Qed.

Lemma bind_arguments_get {B} fields key default (k : json -> M B) :
  bind (arguments_get (JObj fields) key default) k
  = k (get_or key default fields).
Proof. reflexivity. Qed.

Lemma bind_arg {B} fields key (k : json -> M B) :
  bind (arg (JObj fields) key) k = k (get_or key JNull fields).
Proof. reflexivity. Qed.

Lemma bind_arg_raises {B} arguments key (k : json -> M B) :
  is_dict arguments = false ->
  bind (arg arguments key) k
  = raise (attribute_error (py_type arguments) "get").
Proof. now destruct arguments. Qed.

Lemma in_shape_not_bare r : tool_shaped r = true -> bare_error r = false.
Proof.
  intros H. destruct r as [| | | | | | | |fields]; try reflexivity.
  destruct fields as [|[k v] [|]]; try reflexivity.
  cbn. destruct (String.eqb k "error") eqn:E; [|reflexivity].
  apply String.eqb_eq in E. subst k. exfalso.
  unfold tool_shaped in H.
  repeat match type of H with
         | context [match ?x with _ => _ end] =>
             is_var x; destruct x; try discriminate H
         end.
Qed.

(** What the dispatcher makes of a tool that answers in shape. *)
Lemma dispatched (h : M json) handler :
  outcomes in_shape false h ->
  forall w, exists r w',
    def (try_except (r <- h ;; return_ r) handler) w = (Val r, w')
    /\ tool_shaped r = true /\ bare_error r = false.
Proof.
  intros H w. specialize (H w). unfold def, try_except, bind, return_.
  destruct (h w) as [[r|e|r] w']; cbn in *; try discriminate;
    unfold in_shape in *; do 2 eexists; repeat split;
    auto using in_shape_not_bare.
Qed.

Create HintDb tools.

#[local] Hint Resolve get_help_in_shape read_file_in_shape
  create_branch_in_shape create_or_update_file_in_shape
  create_pull_request_in_shape list_branches_in_shape get_repository_in_shape
  list_pull_requests_in_shape get_pull_request_in_shape
  list_repositories_in_shape : tools.

(** One branch of the dispatcher: the arguments are read, which fails when
    they are no dict, and the tool answers. *)
Ltac dispatch w arguments :=
  destruct arguments;
  try (rewrite bind_arg_raises by reflexivity;
       do 2 eexists; split; [reflexivity|split; reflexivity]);
  repeat (rewrite ?bind_arg, ?bind_arguments_get; cbv beta);
  match goal with
  | |- context [def (try_except (bind ?h _) ?handler) w] =>
      let S := fresh in
      assert (S : outcomes in_shape false h) by auto with tools;
      destruct (@dispatched h handler S w) as (r & w' & Hr & Hs & Hb);
      exists r, w'; rewrite Hs, Hb; now split
  end.

Lemma dispatcher_answers name arguments w :
  exists r w',
    handle_tools_call name arguments w = (Val r, w')
    /\ tool_shaped r = reaches_tool name arguments
    /\ bare_error r = negb (reaches_tool name arguments).
Proof.
  unfold handle_tools_call, reaches_tool, known_tool, tool_names.
  cbn [existsb].
  destruct (tool_is name "get_help") eqn:E1.
  { destruct (@dispatched get_help
                (fun e => return_ (JObj [kv "error" (str_of e)]))
                get_help_in_shape w) as (r & w' & Hr & Hs & Hb).
    exists r, w'. rewrite Hs, Hb. now split. }
  destruct (tool_is name "read_file"); [dispatch w arguments|].
  destruct (tool_is name "create_branch"); [dispatch w arguments|].
  destruct (tool_is name "create_or_update_file"); [dispatch w arguments|].
  destruct (tool_is name "create_pull_request"); [dispatch w arguments|].
  destruct (tool_is name "list_branches"); [dispatch w arguments|].
  destruct (tool_is name "get_repository"); [dispatch w arguments|].
  destruct (tool_is name "list_pull_requests"); [dispatch w arguments|].
  destruct (tool_is name "get_pull_request"); [dispatch w arguments|].
  destruct (tool_is name "list_repositories"); [dispatch w arguments|].
  do 2 eexists. split; [reflexivity|]. now split.
Qed.

(** Every call of the dispatcher gives an answer, never an exception:
    [get_help], and each of the other nine tools when the arguments are a
    dict, answers with the content wrapper around a payload that has a boolean
    [success] and, when that is false, an [error]; an unknown name, and
    arguments that are no dict, are answered with the bare object
    [{"error": message}]. *)
Theorem handle_tools_call_answers name arguments w :
  exists r w',
    handle_tools_call name arguments w = (Val r, w')
    /\ tool_shaped r = reaches_tool name arguments
    /\ bare_error r = negb (reaches_tool name arguments).
Proof.
  destruct (dispatcher_answers name arguments w) as (r & w' & E & S & B).
  exists r, w'. now repeat split.
Qed.

(* ----------------------------------------------------------------- *)
(** ** The requests of the tools *)

Section EmitsTools.

Variable P : call -> bool.

Lemma emits_expect_method (v : json) (method : string) :
  emits P (expect_method v method).
Proof. destruct v; now apply emits_silent. Qed.

Lemma emits_arguments_get (arguments : json) (key : string) (default : json) :
  emits P (arguments_get arguments key default).
Proof. destruct arguments; now apply emits_silent. Qed.

Lemma emits_arg (arguments : json) (key : string) :
  emits P (arg arguments key).
Proof. apply emits_arguments_get. Qed.

Lemma emits_as_file (c : Contents) (attribute : string) :
  emits P (as_file c attribute).
Proof. destruct c; now apply emits_silent. Qed.

Lemma emits_file_missing (path ref : json) (e : exn) :
  emits P (file_missing path ref e).
Proof. unfold file_missing. destruct (status_is 404 e); now apply emits_silent. Qed.

Lemma emits_last_commit_at (b : Branch) : emits P (last_commit_at b).
Proof. unfold last_commit_at. destruct (b_date b); now apply emits_silent. Qed.

Lemma emits_raise_for_status {B} (r : Response B) :
  emits P (raise_for_status r).
Proof.
  unfold raise_for_status. destruct (http_error r); now apply emits_silent.
Qed.

Lemma emits_response_json {B} (r : Response B) : emits P (response_json r).
Proof.
  unfold response_json. destruct (resp_body r); now apply emits_silent.
Qed.

Lemma emits_sort_repositories (s d : json) (l : list json) :
  emits P (sort_repositories s d l).
Proof.
  unfold sort_repositories.
  repeat match goal with
         | |- emits _ (if ?b then _ else _) => destruct b
         | |- emits _ (match ?x with _ => _ end) => destruct x
         end; now apply emits_silent.
Qed.

#[local] Hint Resolve emits_expect_method emits_as_file emits_file_missing
  emits_last_commit_at : emits.

Lemma emits_branch_entries (repository : Repo) (branches : list Branch) :
  emits P (branch_entries repository branches).
Proof. induction branches; cbn [branch_entries]; emits_tac. Qed.

Lemma emits_keep_owned (owner : pystr) (repo_data : list (string * json)) :
  emits P (keep_owned owner repo_data).
Proof. unfold keep_owned. emits_tac. Qed.

Lemma emits_keep_all (repo_data : list (string * json)) :
  emits P (keep_all repo_data).
Proof. unfold keep_all. emits_tac. Qed.

Lemma emits_get_contents (path ref : json) :
  (forall p r, P (GetContents p r) = true) -> emits P (get_contents path ref).
Proof. intros. unfold get_contents, request. emits_tac. Qed.

Lemma emits_write_file (c : json -> call) (path message content : json) :
  (forall p, P (c p) = true) -> emits P (write_file c path message content).
Proof. intros. unfold write_file, request. emits_tac. Qed.

Lemma emits_get_pull (number : json) :
  (forall n, P (GetPull n) = true) -> emits P (get_pull number).
Proof. intros. unfold get_pull, request. emits_tac. Qed.

Lemma emits_get_account (c : pystr -> call) accounts (login : json) :
  (forall n, P (c n) = true) -> emits P (get_account c accounts login).
Proof. intros. unfold get_account, request. emits_tac. Qed.

Lemma emits_get_repos (c : call) repos (t s d : json) :
  P c = true -> emits P (get_repos c repos t s d).
Proof. intros. unfold get_repos, request. emits_tac. Qed.

Lemma emits_source_ref (repository : Repo) (source_branch source_sha : json) :
  (forall n, P (GetBranch n) = true) ->
  emits P (source_ref repository source_branch source_sha).
Proof. intros. unfold source_ref. emits_tac. Qed.

Lemma emits_get_installation_repositories (token : pystr) (page : Z) :
  (forall n, P (GetInstallationRepos token n) = true) ->
  emits P (get_installation_repositories token page).
Proof. intros. unfold get_installation_repositories. emits_tac. Qed.

End EmitsTools.

#[local] Hint Resolve emits_expect_method emits_arguments_get emits_arg
  emits_as_file emits_file_missing emits_last_commit_at emits_raise_for_status
  emits_response_json emits_sort_repositories emits_branch_entries
  emits_keep_owned emits_keep_all emits_get_contents emits_write_file
  emits_get_pull emits_get_account emits_get_repos emits_source_ref
  emits_get_installation_repositories : emits.

Lemma emits_installation_pages (P : call -> bool) keep done token following :
  (forall n, P (GetInstallationRepos token n) = true) ->
  (forall repo_data, emits P (keep repo_data)) ->
  forall page repositories,
    emits P (installation_pages keep done token following page repositories).
Proof.
  intros HP Hkeep.
  assert (Heach : forall l,
    emits P
      ((fix each (l : list (list (string * json))) : M (list json) :=
          match l with
          | [] => ret []
          | repo_data :: rest =>
              entry <- keep repo_data ;;
              entries <- each rest ;;
              ret (entry ++ entries)
          end) l)).
  { induction l; emits_tac. }
  induction following as [|p following IH]; intros page repositories;
    cbn [installation_pages]; emits_tac.
Qed.

Lemma emits_installation_repositories (P : call -> bool) keep done token :
  (forall n, P (GetInstallationRepos token n) = true) ->
  (forall repo_data, emits P (keep repo_data)) ->
  emits P (installation_repositories keep done token).
Proof.
  intros HP Hkeep w. unfold installation_repositories.
  now apply emits_installation_pages.
Qed.

Lemma tool_is_eq name tool_name :
  tool_is name tool_name = true -> name = JStr (lit tool_name).
Proof.
  unfold tool_is, values_equal. destruct name; try discriminate.
  intros H. apply pystr_eqb_eq in H. now subst.
Qed.

Lemma under_prefix_normalized (s : pystr) :
  under_prefix (lit "refs/heads/" ++ normalize_branch_name s) = true.
Proof.
  unfold under_prefix, normalize_branch_name, ensure_prefix.
  match goal with
  | |- context [startswith ?n branch_prefix] =>
      destruct (startswith n branch_prefix) eqn:E; cbn [negb]
  end.
  - apply startswith_inv in E. destruct E as (t & ->). reflexivity.
  - reflexivity.
Qed.

(** Unfolding a tool down to its requests. *)
Ltac tool_requests_tac :=
  unfold tool, get_repo, get_branches, get_pulls, request;
  emits_tac.

Lemma read_file_requests owner repo path ref :
  emits (tool_requests (JStr (lit "read_file")))
    (read_file owner repo path ref).
Proof. unfold read_file. tool_requests_tac. Qed.

Lemma create_branch_requests owner repo branch_name source_branch source_sha :
  emits (tool_requests (JStr (lit "create_branch")))
    (create_branch owner repo branch_name source_branch source_sha).
Proof.
  unfold create_branch, create_git_ref. tool_requests_tac.
  cbn. apply under_prefix_normalized.
Qed.

Lemma create_or_update_file_requests owner repo path content message branch
    is_base64 :
  emits (tool_requests (JStr (lit "create_or_update_file")))
    (create_or_update_file owner repo path content message branch is_base64).
Proof. unfold create_or_update_file. tool_requests_tac. Qed.

Lemma list_branches_requests owner repo :
  emits (tool_requests (JStr (lit "list_branches"))) (list_branches owner repo).
Proof. unfold list_branches. tool_requests_tac. Qed.

Lemma get_repository_requests owner repo :
  emits (tool_requests (JStr (lit "get_repository")))
    (get_repository owner repo).
Proof. unfold get_repository. tool_requests_tac. Qed.

Lemma list_pull_requests_requests owner repo state :
  emits (tool_requests (JStr (lit "list_pull_requests")))
    (list_pull_requests owner repo state).
Proof. unfold list_pull_requests. tool_requests_tac. Qed.

Lemma get_pull_request_requests owner repo number :
  emits (tool_requests (JStr (lit "get_pull_request")))
    (get_pull_request owner repo number).
Proof. unfold get_pull_request. tool_requests_tac. Qed.

Lemma list_repositories_requests owner repo_type sort direction :
  emits (tool_requests (JStr (lit "list_repositories")))
    (list_repositories owner repo_type sort direction).
Proof.
  unfold list_repositories, repositories_of, repositories_of_installation.
  tool_requests_tac;
    apply emits_installation_repositories; auto with emits.
Qed.

Lemma create_pull_request_requests owner repo title head base body :
  emits (tool_requests (JStr (lit "create_pull_request")))
    (create_pull_request owner repo title head base body).
Proof.
  unfold create_pull_request, avoid_collision, check_open_pulls, fork_branch,
    create_git_ref.
  tool_requests_tac.
Qed.

#[local] Hint Resolve read_file_requests create_branch_requests
  create_or_update_file_requests list_branches_requests
  get_repository_requests list_pull_requests_requests
  get_pull_request_requests list_repositories_requests
  create_pull_request_requests : emits.

Lemma emits_get_help (P : call -> bool) : emits P get_help.
Proof. unfold get_help. emits_tac. Qed.

#[local] Hint Resolve emits_get_help : emits.

Lemma dispatcher_requests name arguments :
  emits (tool_requests name) (handle_tools_call name arguments).
Proof.
  unfold handle_tools_call.
  repeat match goal with
         | |- context [if tool_is name ?s then _ else _] =>
             let E := fresh "E" in
             destruct (tool_is name s) eqn:E; cbv iota;
             [apply tool_is_eq in E; subst name; emits_tac|]
         end.
  emits_tac.
Qed.

Lemma no_request_allowed (tr : list event) (P : call -> bool) :
  (forall c, P c = false) ->
  Forall (fun ev => P (ev_call ev) = true) tr -> tr = [].
Proof.
  intros H F. destruct tr as [|ev tr]; [reflexivity|].
  inversion F as [|? ? X _]; subst. rewrite H in X. discriminate X.
Qed.

(** Each call of the dispatcher sends only requests of the kinds of its
    tool.  Hence a tool other than [create_branch], [create_or_update_file]
    and [create_pull_request] sends no request that changes the repository,
    and [get_help] and an unknown name send no request at all. *)
Theorem tools_send_their_own_requests name arguments w :
  exists tr,
    w_trace (snd (handle_tools_call name arguments w)) = w_trace w ++ tr
    /\ Forall (fun ev => tool_requests name (ev_call ev) = true) tr
    /\ (existsb (tool_is name) writing_tools = true
        \/ Forall (fun ev => writes (ev_call ev) = false) tr)
    /\ ((tool_is name "get_help" = false /\ known_tool name = true)
        \/ tr = []).
Proof.
  destruct (dispatcher_requests name arguments w) as (tr & E & F).
  exists tr. split; [exact E|]. split; [exact F|]. split.
  - destruct (existsb (tool_is name) writing_tools) eqn:W; [now left|right].
    cbn [existsb writing_tools] in W.
    apply orb_false_iff in W as [W1 W]. apply orb_false_iff in W as [W2 W].
    apply orb_false_iff in W as [W3 _].
    eapply Forall_impl; [|exact F]. intros ev. cbv beta.
    destruct (ev_call ev); intros H; try reflexivity;
      cbn [tool_requests] in H; rewrite ?W1, ?W2, ?W3 in H;
      cbn [orb andb] in H; discriminate H.
  - destruct (tool_is name "get_help") eqn:G.
    + right. apply tool_is_eq in G. subst name.
      apply (@no_request_allowed tr (tool_requests (JStr (lit "get_help"))));
        [|exact F].
      now intros [].
    + destruct (known_tool name) eqn:K; [now left|right].
      apply (@no_request_allowed tr (tool_requests name)); [|exact F].
      pose proof K as K0. unfold known_tool in K0.
      cbn [existsb tool_names] in K0.
      repeat match type of K0 with
             | _ || _ = false => apply orb_false_iff in K0 as [? K0]
             end.
      intros c. destruct c; cbn [tool_requests]; rewrite ?K;
        repeat match goal with
               | H : tool_is name _ = false |- _ => rewrite H; clear H
               end; reflexivity.
Qed.

(** Whatever the tool and its arguments, a ref the server creates is below
    [refs/heads/c3/]: the branch of [create_branch] after normalization, and
    the branch [create_pull_request] forks, with or without the two digits
    of the second attempt. *)
Theorem created_refs_are_under_prefix name arguments :
  emits creates_under_prefix (handle_tools_call name arguments).
Proof.
  apply emits_weaken with (P := tool_requests name);
    [|apply dispatcher_requests].
  intros [] H; try reflexivity. cbn in *.
  now apply andb_true_iff in H.
Qed.

(* ----------------------------------------------------------------- *)
(** ** More on the normalization of branch names *)

Lemma lstrip_Forall (Q : N -> Prop) (p : N -> bool) (s : pystr) :
  Forall Q s -> Forall Q (lstrip p s).
Proof.
  induction 1 as [|c t Hc Ht IH]; simpl; [constructor|].
  destruct (p c); [exact IH|now constructor].
Qed.

Lemma rstrip_Forall (Q : N -> Prop) (p : N -> bool) (s : pystr) :
  Forall Q s -> Forall Q (rstrip p s).
Proof.
  intros H. destruct (rstrip_split p s) as (tl & E & _).
  rewrite E in H. now apply Forall_app in H.
Qed.

Lemma rstrip_app_all (p : N -> bool) (l tl : pystr) :
  forallb p tl = true -> rstrip p (l ++ tl) = rstrip p l.
Proof.
  intros H. induction l as [|c l IH]; simpl.
  - now apply rstrip_nil_iff.
  - now rewrite IH.
Qed.

Lemma adjacent_cons_neq (x a : N) (t : pystr) :
  a <> x -> adjacent x (a :: t) = adjacent x t.
Proof.
  intros H. destruct t as [|b t]; [reflexivity|].
  change (adjacent x (a :: b :: t))
    with (N.eqb a x && N.eqb b x || adjacent x (b :: t)).
  apply N.eqb_neq in H. now rewrite H.
Qed.

Lemma adjacent_single (x a : N) (t : pystr) :
  Forall (fun c => c <> x) t -> adjacent x (a :: t) = false.
Proof.
  intros H. destruct t as [|b t]; [reflexivity|].
  change (adjacent x (a :: b :: t))
    with (N.eqb a x && N.eqb b x || adjacent x (b :: t)).
  rewrite (adjacent_absent H). inversion H as [|? ? B _]; subst.
  apply N.eqb_neq in B. now rewrite B, andb_false_r.
Qed.

(** A name that holds no letter, digit, underscore or slash (an empty or
    blank name, a name of punctuation) has nothing to keep: line 695 strips
    the hyphens and the slash of the prefix, and line 699 puts the prefix
    before what is left of it, so that the name becomes [c3/c3]. *)
Theorem normalize_branch_name_without_word (s : pystr) :
  Forall (fun c => isword c = false /\ c <> ch_slash) s ->
  normalize_branch_name s = lit "c3/c3".
Proof.
  intros H. unfold normalize_branch_name.
  assert (R : Forall (fun c => isword c = false /\ c <> ch_slash)
                (strip isspace s))
    by now apply rstrip_Forall, lstrip_Forall.
  set (r := strip isspace s) in *. clearbody r. clear H s.
  assert (S : startswith r branch_prefix = false).
  { destruct r as [|c r]; [reflexivity|]. inversion R as [|? ? [W _] _]; subst.
    assert (X : N.eqb 99 c = false)
      by (apply N.eqb_neq; intros <-; cbv in W; discriminate W).
    change (startswith (c :: r) branch_prefix)
      with (N.eqb 99 c && startswith r [51; 47]%N).
    now rewrite X. }
  assert (C : contains ch_slash r = false).
  { clear S. unfold contains.
    induction R as [|c r [_ N] _ IH]; [reflexivity|].
    cbn [existsb]. rewrite IH, orb_false_r. apply N.eqb_neq. congruence. }
  unfold add_prefix. rewrite S, C. cbn [negb].
  unfold replace_disallowed. rewrite map_app.
  set (h := map (fun c => if allowed c then c else ch_hyphen) r).
  assert (Hh : Forall (fun c => c = ch_hyphen) h).
  { subst h. clear S C.
    induction R as [|c r [W N] _ IH]; cbn [map]; constructor; auto.
    unfold allowed. rewrite W. cbn [orb].
    destruct (N.eqb_spec c ch_hyphen) as [->|]; [reflexivity|].
    destruct (N.eqb_spec c ch_slash); [contradiction|reflexivity]. }
  clearbody h. clear R S C r.
  change (map (fun c => if allowed c then c else ch_hyphen) branch_prefix)
    with [99; 51; 47]%N.
  assert (E : forallb edge_char h = true).
  { induction Hh as [|c h -> _ IH]; [reflexivity|]. simpl. exact IH. }
  assert (A : forall x, x <> ch_hyphen -> x <> 99%N -> x <> 51%N ->
              adjacent x ([99; 51; 47]%N ++ h) = false).
  { intros x X1 X2 X3. cbn [app].
    rewrite !adjacent_cons_neq by congruence.
    apply adjacent_single. eapply Forall_impl; [|exact Hh].
    cbv beta. congruence. }
  rewrite (collapse_runs_id ch_slash) by (apply A; discriminate).
  rewrite (collapse_runs_id ch_dot) by (apply A; discriminate).
  unfold strip. cbn [app]. rewrite lstrip_id by reflexivity.
  change (99 :: 51 :: 47 :: h)%N with ([99; 51; 47]%N ++ h).
  rewrite rstrip_app_all by exact E.
  reflexivity.
Qed.

(** What [create_branch] hands to GitHub is a clean name: it holds only
    letters, digits, underscores, hyphens and slashes (no dot, no blank), has
    no doubled slash, does not end in a slash, a dot or a hyphen, and has at
    least one character after the prefix [c3/]. *)
Theorem normalized_name_is_clean (s : pystr) :
  let o := normalize_branch_name s in
  Forall (fun c => allowed c = true) o
  /\ contains ch_dot o = false
  /\ adjacent ch_slash o = false
  /\ edge_char (last o 0%N) = false
  /\ exists c r, o = branch_prefix ++ c :: r.
Proof.
  cbv zeta. destruct (normalize_well_formed s) as (P & A & D & L).
  repeat split; auto.
  - unfold contains. apply not_true_is_false. intros E.
    apply existsb_exists in E as (c & I & E). apply N.eqb_eq in E. subst c.
    rewrite Forall_forall in A. apply A in I. discriminate I.
  - destruct (startswith_inv _ _ P) as [r E]. rewrite E in *.
    destruct r as [|c r]; [discriminate L|]. now exists c, r.
Qed.

(* ----------------------------------------------------------------- *)
(** ** A server without credentials *)

Lemma client_needs_credentials (w : World) :
  unconfigured w = true -> _get_github_client w = (Raise no_credentials, w).
Proof.
  unfold unconfigured, no_key, _get_github_client, _get_installation_token,
    cached_token, mint_token, _generate_jwt, _load_private_key.
  run.
  destruct (github (w_server w)); [discriminate|].
  destruct (_installation_token (w_server w)); [discriminate|].
  destruct (private_key (w_server w)) as [[|c k]|]; try discriminate;
    destruct (private_key_path (w_server w)) as [[|c' path]|];
    try reflexivity;
    destruct (w_files w (c' :: path)) as [[?|?]|]; try discriminate;
      reflexivity.
Qed.

(** What a tool answers when the client cannot be made. *)
Ltac fails_at_client H :=
  unfold tool, def, try_except, bind;
  rewrite (client_needs_credentials _ H); reflexivity.

(** On a server started without a key, each of the nine tools that talk to
    GitHub fails at the first use of the credentials: it sends no request,
    leaves the server as it is, and answers [success: false] with the
    message of line 49 inside those of lines 68 and 102, and the error type
    [ValueError]. *)
Theorem tools_need_credentials name fields (w : World) :
  unconfigured w = true ->
  known_tool name = true ->
  tool_is name "get_help" = false ->
  handle_tools_call name (JObj fields) w
  = (Val (tool_result [kv "success" (JBool false);
                       kv "error" (str_of no_credentials);
                       kv "error_type" (JStr (lit "ValueError"))]), w).
Proof.
  intros U K G. unfold handle_tools_call. rewrite G.
  unfold known_tool in K. cbn [existsb tool_names] in K. rewrite G in K.
  cbn [orb] in K.
  repeat match goal with
         | |- context [if tool_is name ?s then _ else _] =>
             let E := fresh "E" in
             destruct (tool_is name s) eqn:E;
             [clear K;
              repeat (rewrite ?bind_arg, ?bind_arguments_get; cbv beta)|]
         end;
    [..|discriminate K].
  - unfold read_file. fails_at_client U.
  - unfold create_branch. fails_at_client U.
  - unfold create_or_update_file. fails_at_client U.
  - unfold create_pull_request. fails_at_client U.
  - unfold list_branches. fails_at_client U.
  - unfold get_repository. fails_at_client U.
  - unfold list_pull_requests. fails_at_client U.
  - unfold get_pull_request. fails_at_client U.
  - unfold list_repositories. fails_at_client U.
Qed.

(* ----------------------------------------------------------------- *)
(** ** Counting requests *)

Lemma count_app P (a b : list event) :
  count P (a ++ b) = (count P a + count P b)%nat.
Proof. unfold count. now rewrite filter_app, length_app. Qed.

Lemma count_none P (tr : list event) :
  Forall (fun ev => P (ev_call ev) = false) tr -> count P tr = 0%nat.
Proof.
  unfold count. induction 1 as [|ev tr H _ IH]; [reflexivity|].
  cbn [filter]. now rewrite H.
Qed.

Lemma at_most_none {A} (P : call -> bool) (m : M A) :
  emits (fun c => negb (P c)) m -> sends_at_most P 0 m.
Proof.
  intros H w. destruct (H w) as (tr & E & F). exists tr. split; [exact E|].
  rewrite count_none; [lia|]. eapply Forall_impl; [|exact F].
  intros ev X. now apply negb_true_iff in X.
Qed.

Lemma at_most_weaken {A} (P : call -> bool) (a b : nat) (m : M A) :
  (a <= b)%nat -> sends_at_most P a m -> sends_at_most P b m.
Proof.
  intros L H w. destruct (H w) as (tr & E & C). exists tr. split; [exact E|lia].
Qed.

Lemma at_most_bind {A B} (P : call -> bool) (a b : nat) (m : M A)
    (k : A -> M B) :
  sends_at_most P a m -> (forall x, sends_at_most P b (k x)) ->
  sends_at_most P (a + b) (bind m k).
Proof.
  intros Hm Hk w. unfold bind. destruct (Hm w) as (tr & E & C).
  destruct (m w) as [[x|e|r] w1]; cbn [snd] in *;
    try (exists tr; split; [exact E|lia]).
  destruct (Hk x w1) as (tr' & E' & C'). exists (tr ++ tr').
  rewrite E', E, app_assoc, count_app. split; [reflexivity|lia].
Qed.

Lemma at_most_try_except {A} (P : call -> bool) (a b : nat) (m : M A)
    (h : exn -> M A) :
  sends_at_most P a m -> (forall e, sends_at_most P b (h e)) ->
  sends_at_most P (a + b) (try_except m h).
Proof.
  intros Hm Hh w. unfold try_except. destruct (Hm w) as (tr & E & C).
  destruct (m w) as [[x|e|r] w1]; cbn [snd] in *;
    try (exists tr; split; [exact E|lia]).
  destruct (Hh e w1) as (tr' & E' & C'). exists (tr ++ tr').
  rewrite E', E, app_assoc, count_app. split; [reflexivity|lia].
Qed.

Lemma at_most_try_except_github {A} (P : call -> bool) (a b : nat) (m : M A)
    (h : exn -> M A) :
  sends_at_most P a m -> (forall e, sends_at_most P b (h e)) ->
  sends_at_most P (a + b) (try_except_github m h).
Proof.
  intros Hm Hh. apply at_most_try_except; [exact Hm|].
  intros e. destruct (is_github_exception e); [apply Hh|].
  apply at_most_weaken with (a := 0%nat); [lia|].
  apply at_most_none, emits_raise.
Qed.

Lemma at_most_def (P : call -> bool) (n : nat) (m : M json) :
  sends_at_most P n m -> sends_at_most P n (def m).
Proof.
  intros H w. unfold def. destruct (H w) as (tr & E & C).
  destruct (m w) as [[x|e|r] w1]; exists tr; now split.
Qed.

Lemma at_most_request_as {A} (P : call -> bool) (c : call)
    (failed : A -> option exn) (serve : World -> (A + exn) * World) :
  (forall w, w_trace (snd (serve w)) = w_trace w) ->
  sends_at_most P 1 (request_as c failed serve).
Proof.
  intros Hs w. unfold request_as.
  assert (G : forall ev, (count P [ev] <= 1)%nat).
  { intros ev. unfold count. cbn [filter]. destruct (P (ev_call ev)); cbn; lia. }
  destruct (w_faults w) as [|[e|] rest].
  - specialize (Hs (set_faults (tl []) w)).
    destruct (serve (set_faults (tl []) w)) as [[a|e] w1]; cbn [snd] in *;
      eexists; (split; [proj; rewrite Hs; proj; reflexivity|apply G]).
  - eexists; split; [proj; reflexivity|apply G].
  - specialize (Hs (set_faults (tl (None :: rest)) w)).
    destruct (serve (set_faults (tl (None :: rest)) w)) as [[a|e] w1];
      cbn [snd] in *;
      eexists; (split; [proj; rewrite Hs; proj; reflexivity|apply G]).
Qed.

(** A program with nothing of the kind before its last statement. *)
Lemma at_most_bind_l {A B} (P : call -> bool) (n : nat) (m : M A)
    (k : A -> M B) :
  emits (fun c => negb (P c)) m -> (forall x, sends_at_most P n (k x)) ->
  sends_at_most P n (bind m k).
Proof.
  intros Hm Hk. change n with (0 + n)%nat.
  apply at_most_bind; [now apply at_most_none|exact Hk].
Qed.

Lemma at_most_bind_r {A B} (P : call -> bool) (n : nat) (m : M A)
    (k : A -> M B) :
  sends_at_most P n m -> (forall x, emits (fun c => negb (P c)) (k x)) ->
  sends_at_most P n (bind m k).
Proof.
  intros Hm Hk. rewrite <- (Nat.add_0_r n).
  apply at_most_bind; [exact Hm|]. intros x. now apply at_most_none.
Qed.

Lemma at_most_try_r {A} (P : call -> bool) (n : nat) (m : M A)
    (h : exn -> M A) :
  sends_at_most P n m -> (forall e, emits (fun c => negb (P c)) (h e)) ->
  sends_at_most P n (try_except m h).
Proof.
  intros Hm Hh. rewrite <- (Nat.add_0_r n).
  apply at_most_try_except; [exact Hm|]. intros e. now apply at_most_none.
Qed.

Lemma at_most_create_git_ref (P : call -> bool) (name sha : pystr) :
  sends_at_most P 1 (create_git_ref name sha).
Proof.
  unfold create_git_ref, request. apply at_most_request_as.
  intros w. now destruct (find_branch name (w_repo w)).
Qed.

Lemma fork_branch_creates_twice (sha : pystr) :
  sends_at_most is_create_ref 2 (fork_branch sha).
Proof.
  unfold fork_branch. apply at_most_bind_l; [emits_tac|intros t].
  change 2%nat with (1 + 1)%nat. apply at_most_try_except_github.
  - apply at_most_bind_r; [apply at_most_create_git_ref|intros; emits_tac].
  - intros e. destruct (status_is 422 e).
    + apply at_most_bind_l; [emits_tac|intros r].
      apply at_most_bind_r; [apply at_most_create_git_ref|intros; emits_tac].
    + apply at_most_weaken with (a := 0%nat); [lia|].
      apply at_most_none. emits_tac.
Qed.

Lemma avoid_collision_creates_twice (head base : json) :
  sends_at_most is_create_ref 2 (avoid_collision head base).
Proof.
  unfold avoid_collision, check_open_pulls.
  apply at_most_try_r; [|intros; emits_tac].
  apply at_most_bind_l; [emits_tac|intros hb].
  apply at_most_bind_l; [emits_tac|intros prs].
  destruct (existsb (pr_matches head base) prs).
  - apply at_most_bind_r; [apply fork_branch_creates_twice|intros; emits_tac].
  - apply at_most_weaken with (a := 0%nat); [lia|].
    apply at_most_none. emits_tac.
Qed.

Lemma create_pull_request_creates_refs owner repo title head base body :
  sends_at_most is_create_ref 2
    (create_pull_request owner repo title head base body).
Proof.
  unfold create_pull_request. apply at_most_def.
  do 4 (apply at_most_bind_l; [emits_tac|intros ?]).
  apply at_most_bind_r; [apply avoid_collision_creates_twice|].
  intros; emits_tac.
Qed.

Lemma at_most_create_pull (P : call -> bool) (title body head base : json) :
  sends_at_most P 1 (create_pull title body head base).
Proof.
  unfold create_pull.
  do 4 (apply at_most_bind_l; [emits_tac|intros ?]).
  apply at_most_request_as. intros w.
  now destruct (existsb _ (r_pulls (w_repo w))).
Qed.

Lemma create_pull_request_creates_once owner repo title head base body :
  sends_at_most is_create_pull 1
    (create_pull_request owner repo title head base body).
Proof.
  unfold create_pull_request. apply at_most_def.
  do 5 (apply at_most_bind_l; [emits_tac|intros ?]).
  apply at_most_try_r; [|intros; emits_tac].
  unfold submit, guard_and_submit.
  apply at_most_bind_l; [emits_tac|intros hb].
  match goal with |- context [if ?b then _ else _] => destruct b end.
  - apply at_most_weaken with (a := 0%nat); [lia|].
    apply at_most_none. emits_tac.
  - apply at_most_bind_l; [unfold check_history; emits_tac|intros _].
    apply at_most_bind_r; [apply at_most_create_pull|intros; emits_tac].
Qed.

Lemma create_branch_creates_once owner repo branch_name source_branch
    source_sha :
  sends_at_most is_create_ref 1
    (create_branch owner repo branch_name source_branch source_sha).
Proof.
  unfold create_branch, tool. apply at_most_def.
  apply at_most_try_r; [|intros; emits_tac].
  do 5 (apply at_most_bind_l; [emits_tac|intros ?]).
  apply at_most_bind_r; [apply at_most_create_git_ref|intros; emits_tac].
Qed.

Lemma create_or_update_file_writes_once owner repo path content message
    branch is_base64 :
  sends_at_most is_file_write 1
    (create_or_update_file owner repo path content message branch is_base64).
Proof.
  unfold create_or_update_file, tool. apply at_most_def.
  apply at_most_try_r; [|intros; emits_tac].
  do 4 (apply at_most_bind_l; [emits_tac|intros ?]).
  apply at_most_bind_r; [|intros; emits_tac].
  assert (W : forall c, sends_at_most is_file_write 1
                          (write_file c path message x2)).
  { intros c. unfold write_file, request.
    do 3 (apply at_most_bind_l; [emits_tac|intros ?]).
    now apply at_most_request_as. }
  destruct x1 as [[|]|]; apply W.
Qed.

(** A name other than that of the tool sends nothing of the kind. *)
Lemma dispatcher_sends_none (P : call -> bool) name arguments :
  (forall c, tool_requests name c = true -> P c = false) ->
  sends_at_most P 0 (handle_tools_call name arguments).
Proof.
  intros H. apply at_most_none.
  apply emits_weaken with (P := tool_requests name);
    [|apply dispatcher_requests].
  intros c X. now rewrite (H c X).
Qed.

(** The branch of the dispatcher for a given name. *)
Ltac dispatch_to L :=
  unfold handle_tools_call;
  repeat match goal with
         | |- context [tool_is (JStr (lit ?n)) ?s] =>
             let b := eval vm_compute in (tool_is (JStr (lit n)) s) in
             change (tool_is (JStr (lit n)) s) with b
         end;
  cbv iota;
  apply at_most_def;
  apply at_most_try_r; [|intros; emits_tac];
  repeat (apply at_most_bind_l; [solve [emits_tac]|intros ?]);
  apply at_most_bind_r; [apply L|intros; emits_tac].

Lemma same_trace (t a b : list event) : t ++ a = t ++ b -> a = b.
Proof. apply app_inv_head. Qed.

(** A call changes little: it creates at most one pull request, writes at
    most one file, and creates at most one ref, or two when the tool is
    [create_pull_request], whose fork is attempted a second time after a
    422. *)
Theorem calls_write_little name arguments w :
  exists tr,
    w_trace (snd (handle_tools_call name arguments w)) = w_trace w ++ tr
    /\ (count is_create_pull tr <= 1)%nat
    /\ (count is_file_write tr <= 1)%nat
    /\ (count is_create_ref tr
        <= if tool_is name "create_pull_request" then 2 else 1)%nat.
Proof.
  assert (P1 : sends_at_most is_create_pull 1
                 (handle_tools_call name arguments)).
  { destruct (tool_is name "create_pull_request") eqn:T.
    - apply tool_is_eq in T. subst name.
      dispatch_to create_pull_request_creates_once.
    - apply at_most_weaken with (a := 0%nat); [lia|].
      apply dispatcher_sends_none. intros [] X; try reflexivity.
      cbn [tool_requests] in X. congruence. }
  assert (P2 : sends_at_most is_file_write 1
                 (handle_tools_call name arguments)).
  { destruct (tool_is name "create_or_update_file") eqn:T.
    - apply tool_is_eq in T. subst name.
      dispatch_to create_or_update_file_writes_once.
    - apply at_most_weaken with (a := 0%nat); [lia|].
      apply dispatcher_sends_none. intros [] X; try reflexivity;
        cbn [tool_requests] in X; congruence. }
  assert (P3 : sends_at_most is_create_ref
                 (if tool_is name "create_pull_request" then 2 else 1)
                 (handle_tools_call name arguments)).
  { destruct (tool_is name "create_pull_request") eqn:T.
    - apply tool_is_eq in T. subst name.
      dispatch_to create_pull_request_creates_refs.
    - destruct (tool_is name "create_branch") eqn:T'.
      + apply tool_is_eq in T'. subst name.
        dispatch_to create_branch_creates_once.
      + apply at_most_weaken with (a := 0%nat); [lia|].
        apply dispatcher_sends_none. intros [] X; try reflexivity.
        cbn [tool_requests] in X. rewrite T, T' in X. discriminate X. }
  destruct (P1 w) as (tr & E & C1). destruct (P2 w) as (tr2 & E2 & C2).
  destruct (P3 w) as (tr3 & E3 & C3).
  rewrite E in E2, E3. apply same_trace in E2, E3. subst tr2 tr3.
  exists tr. auto.
Qed.

(* ----------------------------------------------------------------- *)
(** ** Stopping at the first failure *)

Lemma fails_last_nil : fails_last [].
Proof. constructor. Qed.

Lemma fails_last_one (ev : event) : fails_last [ev].
Proof. constructor. Qed.

Lemma all_served_fails_last (tr : list event) : all_served tr -> fails_last tr.
Proof.
  unfold fails_last, all_served. intros H.
  induction H as [|ev tr Hev Htr IH]; [constructor|].
  destruct tr as [|ev' tr]; [constructor|].
  change (removelast (ev :: ev' :: tr)) with (ev :: removelast (ev' :: tr)).
  now constructor.
Qed.

Lemma fails_last_app (a b : list event) :
  all_served a -> fails_last b -> fails_last (a ++ b).
Proof.
  intros Ha Hb. destruct b as [|ev b].
  - rewrite app_nil_r. now apply all_served_fails_last.
  - unfold fails_last. rewrite removelast_app by discriminate.
    now apply Forall_app.
Qed.

Lemma halting_quiet {A} (m : M A) :
  (forall w, w_trace (snd (m w)) = w_trace w
             /\ match fst (m w) with
                | Return r => succeeded r = false
                | _ => True
                end) ->
  halting m.
Proof.
  intros H w. destruct (H w) as [E R]. exists []. rewrite app_nil_r.
  split; [exact E|]. split; [apply fails_last_nil|].
  destruct (fst (m w)); auto. constructor.
Qed.

Lemma halting_ret {A} (a : A) : halting (ret a).
Proof. now apply halting_quiet. Qed.

Lemma halting_raise {A} (e : exn) : halting (@raise A e).
Proof. now apply halting_quiet. Qed.

Lemma halting_return {A} (r : json) :
  succeeded r = false -> halting (@return_ A r).
Proof. intros H. now apply halting_quiet. Qed.

Lemma halting_get_server : halting get_server.
Proof. now apply halting_quiet. Qed.

Lemma halting_put_server (s : Server) : halting (put_server s).
Proof. now apply halting_quiet. Qed.

Lemma halting_datetime_now : halting datetime_now.
Proof. now apply halting_quiet. Qed.

Lemma halting_time_time : halting time_time.
Proof. now apply halting_quiet. Qed.

Lemma halting_expect_str (v : json) : halting (expect_str v).
Proof. destruct v; now apply halting_quiet. Qed.

Lemma halting_expect_method (v : json) (method : string) :
  halting (expect_method v method).
Proof. destruct v; now apply halting_quiet. Qed.

Lemma halting_bind {A B} (m : M A) (k : A -> M B) :
  halting m -> (forall a, halting (k a)) -> halting (bind m k).
Proof.
  intros Hm Hk w. unfold bind. destruct (Hm w) as (tr & E & L & O).
  destruct (m w) as [[a|e|r] w1]; cbn [fst snd] in *;
    try (exists tr; now repeat split).
  destruct (Hk a w1) as (tr' & E' & L' & O'). exists (tr ++ tr').
  rewrite E', E, app_assoc. split; [reflexivity|].
  split; [now apply fails_last_app|].
  destruct (fst (k a w1)); auto. now apply Forall_app.
Qed.

Lemma halting_try_except {A} (m : M A) (h : exn -> M A) :
  halting m -> (forall e, aborts (h e)) -> halting (try_except m h).
Proof.
  intros Hm Hh w. unfold try_except. destruct (Hm w) as (tr & E & L & O).
  destruct (m w) as [[a|e|r] w1]; cbn [fst snd] in *;
    try (exists tr; now repeat split).
  destruct (Hh e w1) as (E' & O'). exists tr. rewrite E', E.
  split; [reflexivity|]. split; [exact L|].
  destruct (fst (h e w1)); auto. contradiction.
Qed.

Lemma aborts_raise {A} (e : exn) : aborts (@raise A e).
Proof. now intros w. Qed.

Lemma aborts_return {A} (r : json) : succeeded r = false -> aborts (@return_ A r).
Proof. now intros H w. Qed.

Lemma halting_try_except_github {A} (m : M A) (h : exn -> M A) :
  halting m -> (forall e, aborts (h e)) -> halting (try_except_github m h).
Proof.
  intros Hm Hh. apply halting_try_except; [exact Hm|].
  intros e. destruct (is_github_exception e); [apply Hh|apply aborts_raise].
Qed.

Lemma halting_request {A} (c : call) (serve : World -> (A + exn) * World) :
  (forall w, w_trace (snd (serve w)) = w_trace w) ->
  halting (request c serve).
Proof.
  intros Hs w. unfold request, request_as.
  assert (G : forall f, exists tr,
            w_trace (snd (match serve (set_faults f w) with
                          | (inl a, w') => (Val a, log c None w')
                          | (inr e, w') => (@Raise A e, log c (Some e) w')
                          end)) = w_trace w ++ tr
            /\ fails_last tr
            /\ match fst (match serve (set_faults f w) with
                          | (inl a, w') => (Val a, log c None w')
                          | (inr e, w') => (@Raise A e, log c (Some e) w')
                          end) with
               | Val _ => all_served tr
               | Return r => succeeded r = false
               | Raise _ => True
               end).
  { intros f. specialize (Hs (set_faults f w)).
    destruct (serve (set_faults f w)) as [[a|e] w1]; cbn [fst snd] in *;
      eexists; (split; [proj; rewrite Hs; proj; reflexivity|]);
      (split; [apply fails_last_one|]); auto.
    now repeat constructor. }
  destruct (w_faults w) as [|[e|] rest]; try apply G.
  eexists. split; [proj; reflexivity|]. split; [apply fails_last_one|exact I].
Qed.

(** A request made with [requests], followed by [raise_for_status]. *)
Lemma halting_checked_request {A B} (c : call)
    (serve : World -> (Response A + exn) * World) (k : Response A -> M B) :
  (forall w, w_trace (snd (serve w)) = w_trace w) ->
  (forall r, halting (k r)) ->
  halting (response <- request_as c (@http_error A) serve ;;
           raise_for_status response ;; k response).
Proof.
  intros Hs Hk w. unfold bind, request_as, raise_for_status.
  assert (G : forall f, exists tr,
    let o :=
      match
        match serve (set_faults f w) with
        | (inl a, w') => (Val a, log c (http_error a) w')
        | (inr e, w') => (@Raise (Response A) e, log c (Some e) w')
        end
      with
      | (Val a, w') =>
          match match http_error a with
                | Some e => raise e
                | None => ret tt
                end w' with
          | (Val _, w'') => k a w''
          | (Raise e, w'') => (Raise e, w'')
          | (Return r, w'') => (Return r, w'')
          end
      | (Raise e, w') => (Raise e, w')
      | (Return r, w') => (Return r, w')
      end in
    w_trace (snd o) = w_trace w ++ tr
    /\ fails_last tr
    /\ match fst o with
       | Val _ => all_served tr
       | Return r => succeeded r = false
       | Raise _ => True
       end).
  { intros f. specialize (Hs (set_faults f w)).
    destruct (serve (set_faults f w)) as [[a|e] w1]; cbn [fst snd] in *.
    - destruct (http_error a) as [e|] eqn:X; cbn [raise ret].
      + eexists. split; [proj; rewrite Hs; proj; reflexivity|].
        split; [apply fails_last_one|exact I].
      + destruct (Hk a (log c None w1)) as (tr & E & L & O).
        exists ({| ev_call := c; ev_failure := None |} :: tr).
        split; [rewrite E; proj; rewrite Hs; proj;
                now rewrite <- app_assoc|].
        split.
        * apply (fails_last_app (a := [_])); [|exact L].
          now repeat constructor.
        * destruct (fst (k a (log c None w1))); auto.
          now constructor.
    - eexists. split; [proj; rewrite Hs; proj; reflexivity|].
      split; [apply fails_last_one|exact I]. }
  destruct (w_faults w) as [|[e|] rest]; try apply G.
  eexists. split; [proj; reflexivity|]. split; [apply fails_last_one|exact I].
Qed.

Create HintDb halts.

#[local] Hint Resolve halting_get_server halting_put_server
  halting_datetime_now halting_time_time halting_expect_str
  halting_expect_method : halts.

(** What the remote side does with a request leaves the log alone. *)
Ltac served_tac :=
  intros ?;
  repeat match goal with
         | |- context [match ?x with _ => _ end] => destruct x
         end;
  reflexivity.

Ltac abort_tac :=
  repeat first
    [ apply aborts_raise
    | apply aborts_return; reflexivity
    | match goal with
      | |- aborts (match ?x with _ => _ end) => destruct x
      end ].

(** Going through a program that stops at the first failure. *)
Ltac halt_tac :=
  repeat first
    [ apply halting_ret | apply halting_raise
    | apply halting_return; reflexivity
    | solve [eauto with halts]
    | apply halting_checked_request; [served_tac|intros ?]
    | apply halting_bind; [|intros ?]
    | apply halting_try_except_github; [|intros ?; abort_tac]
    | apply halting_try_except; [|intros ?; abort_tac]
    | apply halting_request; served_tac
    | match goal with
      | |- halting (match ?x with _ => _ end) => destruct x
      end ].

Lemma halting_load_private_key : halting _load_private_key.
Proof.
  apply halting_quiet. intros w.
  split; [now rewrite _load_private_key_world|].
  unfold _load_private_key. run.
  destruct (private_key (w_server w)) as [[|c k]|]; try exact I;
    destruct (private_key_path (w_server w)) as [[|c' path]|];
    try exact I; now destruct (w_files w (c' :: path)) as [[?|?]|].
Qed.

#[local] Hint Resolve halting_load_private_key : halts.

Lemma halting_get_installation_token : halting _get_installation_token.
Proof.
  unfold _get_installation_token, cached_token, mint_token, _generate_jwt,
    post_access_tokens, response_json.
  halt_tac.
Qed.

#[local] Hint Resolve halting_get_installation_token : halts.

Lemma halting_get_github_client : halting _get_github_client.
Proof. unfold _get_github_client. halt_tac. Qed.

#[local] Hint Resolve halting_get_github_client : halts.

Lemma halting_get_repo n : halting (get_repo n).
Proof. unfold get_repo. halt_tac. Qed.

Lemma halting_get_branches : halting get_branches.
Proof. unfold get_branches. halt_tac. Qed.

Lemma halting_get_branch n : halting (get_branch n).
Proof. unfold get_branch. halt_tac. Qed.

Lemma halting_get_pulls st : halting (get_pulls st).
Proof. unfold get_pulls. halt_tac. Qed.

Lemma halting_create_git_ref n sha : halting (create_git_ref n sha).
Proof. unfold create_git_ref. halt_tac. Qed.

Lemma halting_get_contents p r : halting (get_contents p r).
Proof. unfold get_contents. halt_tac. Qed.

Lemma halting_as_file c a : halting (as_file c a).
Proof. unfold as_file. halt_tac. Qed.

Lemma halting_get_pull n : halting (get_pull n).
Proof. unfold get_pull. halt_tac. Qed.

Lemma halting_last_commit_at b : halting (last_commit_at b).
Proof. unfold last_commit_at. halt_tac. Qed.

#[local] Hint Resolve halting_get_repo halting_get_branches halting_get_branch
  halting_get_pulls halting_create_git_ref halting_get_contents
  halting_as_file halting_get_pull halting_last_commit_at : halts.

Lemma halting_branch_entries repository branches :
  halting (branch_entries repository branches).
Proof. induction branches; cbn [branch_entries]; halt_tac. Qed.

Lemma halting_source_ref repository b s : halting (source_ref repository b s).
Proof. unfold source_ref. halt_tac. Qed.

#[local] Hint Resolve halting_branch_entries halting_source_ref : halts.

Lemma error_payloads_fail e :
  succeeded (tool_result (if is_github_exception e
                          then github_error_payload e
                          else generic_error_payload e)) = false.
Proof. now destruct e. Qed.

(** A tool whose body stops at the first failure. *)
Lemma tool_stops (body : M json) : halting body -> stops_at_failure (tool body).
Proof.
  intros H w. unfold tool, def, try_except, return_.
  destruct (H w) as (tr & E & L & O).
  destruct (body w) as [[r|e|r] w1]; cbn [fst snd] in *;
    do 3 eexists; (split; [reflexivity|]); (split; [exact E|]);
    (split; [exact L|]); auto using error_payloads_fail.
Qed.

Lemma get_help_stops : stops_at_failure get_help.
Proof.
  intros w. unfold get_help, bind, datetime_now, ret. do 2 eexists. exists [].
  split; [reflexivity|]. split; [proj; now rewrite app_nil_r|].
  split; [apply fails_last_nil|left; constructor].
Qed.

Lemma read_file_stops owner repo path ref :
  stops_at_failure (read_file owner repo path ref).
Proof.
  unfold read_file. apply tool_stops. unfold file_missing. halt_tac.
Qed.

Lemma create_branch_stops owner repo branch_name source_branch source_sha :
  stops_at_failure
    (create_branch owner repo branch_name source_branch source_sha).
Proof. unfold create_branch. apply tool_stops. halt_tac. Qed.

Lemma list_branches_stops owner repo :
  stops_at_failure (list_branches owner repo).
Proof. unfold list_branches. apply tool_stops. halt_tac. Qed.

Lemma get_repository_stops owner repo :
  stops_at_failure (get_repository owner repo).
Proof. unfold get_repository. apply tool_stops. halt_tac. Qed.

Lemma list_pull_requests_stops owner repo state :
  stops_at_failure (list_pull_requests owner repo state).
Proof. unfold list_pull_requests. apply tool_stops. halt_tac. Qed.

Lemma get_pull_request_stops owner repo number :
  stops_at_failure (get_pull_request owner repo number).
Proof. unfold get_pull_request. apply tool_stops. halt_tac. Qed.

Create HintDb stops.

#[local] Hint Resolve get_help_stops read_file_stops create_branch_stops
  list_branches_stops get_repository_stops list_pull_requests_stops
  get_pull_request_stops : stops.

(** What the dispatcher makes of such a tool. *)
Lemma dispatched_stops (tool_call : M json) handler :
  stops_at_failure tool_call ->
  stops_at_failure (def (try_except (r <- tool_call ;; return_ r) handler)).
Proof.
  intros H w. destruct (H w) as (r & w' & tr & E & T & L & O).
  exists r, w', tr. unfold def, try_except, bind, return_. rewrite E.
  now repeat split.
Qed.

(** Arguments that are no dict are answered without a request. *)
Lemma bare_error_stops e handler_result :
  stops_at_failure
    (def (try_except (raise e)
            (fun e => return_ (JObj [kv "error" (handler_result e)])))).
Proof.
  intros w. do 2 eexists. exists []. split; [reflexivity|].
  split; [now rewrite app_nil_r|]. split; [apply fails_last_nil|].
  left; constructor.
Qed.

(** One branch of the dispatcher, for a tool that stops at a failure. *)
Ltac dispatch_stops arguments :=
  destruct arguments;
  try (rewrite bind_arg_raises by reflexivity; apply bare_error_stops);
  repeat (rewrite ?bind_arg, ?bind_arguments_get; cbv beta);
  apply dispatched_stops; auto with stops.

(** In [get_help], [read_file], [create_branch], [list_branches],
    [get_repository], [list_pull_requests] and [get_pull_request] a request
    that fails is the last request of the call: nothing is sent after it,
    nothing is sent again, and the answer says [success: true] only when every
    request of the call was served. *)
Theorem failed_request_ends_call name arguments :
  existsb (tool_is name) straight_tools = true ->
  stops_at_failure (handle_tools_call name arguments).
Proof.
  intros S. unfold handle_tools_call.
  cbn [existsb straight_tools] in S.
  repeat match goal with
         | |- context [if tool_is name ?s then _ else _] =>
             let E := fresh "E" in
             destruct (tool_is name s) eqn:E; cbv iota;
             [apply tool_is_eq in E; subst name;
              first [discriminate S | clear S]|]
         end.
  - apply dispatched_stops, get_help_stops.
  - dispatch_stops arguments.
  - dispatch_stops arguments.
  - dispatch_stops arguments.
  - dispatch_stops arguments.
  - dispatch_stops arguments.
  - dispatch_stops arguments.
  - discriminate S.
Qed.

(* ----------------------------------------------------------------- *)
(** ** [create_or_update_file] when the lookup fails *)

Lemma client_is_kept (w : World) client :
  github (w_server w) = Some client -> _get_github_client w = (Val client, w).
Proof. intros H. unfold _get_github_client. run. now rewrite H. Qed.

(** In [create_or_update_file] any [GithubException] from the lookup of the
    file, whatever its status, is read as "the file does not exist": the
    tool goes on, asks for the file to be created and reports the action
    [created]. *)
Theorem failed_lookup_creates_file owner repo p c m bytes e rest client
    (w : World) :
  github (w_server w) = Some client ->
  pystr_eqb (full_name owner repo) (r_full_name (w_repo w)) = true ->
  w_faults w = None :: Some e :: None :: rest ->
  is_github_exception e = true ->
  utf8_encode c = Some bytes ->
  let branch := JStr (r_default_branch (w_repo w)) in
  let written := r_write (w_repo w) p in
  exists w',
    create_or_update_file owner repo (JStr p) (JStr c) (JStr m) JNull
      (JBool false) w
    = (Val (tool_result
              [kv "success" (JBool true);
               kv "owner" owner;
               kv "repo" repo;
               kv "path" (JStr p);
               kv "branch" branch;
               kv "action" (JStr (lit "created"));
               kv "commit" (commit_info (JStr m) (wr_commit written));
               kv "content" (content_info (wr_content written))]), w')
    /\ w_trace w'
       = w_trace w
         ++ [{| ev_call := GetRepo (full_name owner repo);
                ev_failure := None |};
             {| ev_call := GetContents (JStr p) branch;
                ev_failure := Some e |};
             {| ev_call := CreateFile (JStr p); ev_failure := None |}].
Proof.
  intros G R F X U branch written. eexists.
  unfold create_or_update_file, tool, def, try_except_github, try_except, bind.
  rewrite (client_is_kept _ G).
  unfold get_repo, get_contents, write_file, request, request_as, bind,
    expect_str, ret, expect_method, as_file.
  rewrite F. proj. rewrite R. cbn [truthy negb]. proj.
  rewrite X. cbn [ret]. rewrite U. proj.
  split; [reflexivity|].
  proj. now rewrite <- !app_assoc.
Qed.

(* ----------------------------------------------------------------- *)
(** ** Pagination *)

Lemma sends_nothing_trace {A} (m : M A) (w : World) :
  sends_nothing m -> w_trace (snd (m w)) = w_trace w.
Proof.
  intros H. destruct (H w) as (tr & E & F).
  destruct tr as [|ev tr]; [now rewrite app_nil_r in E|].
  inversion F as [|? ? X _]. discriminate X.
Qed.

Lemma page_calls_S (token : pystr) (page : Z) (k : nat) :
  page_calls token page (S k)
  = GetInstallationRepos token page :: page_calls token (page + 1) k.
Proof.
  unfold page_calls. cbn [seq map]. rewrite Z.add_0_r. f_equal.
  rewrite <- seq_shift, map_map. apply map_ext. intros i. f_equal. lia.
Qed.

Lemma requests_pages_quiet {A} (token : pystr) (page : Z) (n : nat) (m : M A) :
  sends_nothing m -> requests_pages token page n m.
Proof.
  intros H w. exists 0%nat, []. rewrite app_nil_r.
  split; [now apply sends_nothing_trace|]. split; [reflexivity|lia].
Qed.

Lemma requests_pages_bind {A B} (token : pystr) (page : Z) (n : nat) (m : M A)
    (k : A -> M B) :
  sends_nothing m -> (forall a, requests_pages token page n (k a)) ->
  requests_pages token page n (bind m k).
Proof.
  intros Hm Hk w. unfold bind. pose proof (sends_nothing_trace w Hm) as E.
  destruct (m w) as [[a|e|r] w1]; cbn [snd] in *;
    try (exists 0%nat, []; rewrite app_nil_r;
         split; [exact E|]; split; [reflexivity|lia]).
  destruct (Hk a w1) as (j & tr & E' & C & L). exists j, tr.
  now rewrite E', E.
Qed.

(** One page is requested, and the rest goes on from the next one. *)
Lemma requests_pages_next {B} (token : pystr) (page : Z) (n : nat)
    (k : Response ReposPage -> M B) :
  (forall r, requests_pages token (page + 1) n (k r)) ->
  requests_some_pages token page n (bind (get_installation_repositories token page) k).
Proof.
  intros Hk w. unfold bind, get_installation_repositories, request_as.
  assert (G : forall f, exists j tr,
    w_trace
      (snd (let (o, w') :=
              (Val (nth (Z.to_nat (page - 1)) (w_pages (set_faults f w))
                      empty_page),
               log (GetInstallationRepos token page)
                 (http_error
                    (nth (Z.to_nat (page - 1)) (w_pages (set_faults f w))
                       empty_page))
                 (set_faults f w)) in
            match o with
            | Val a => k a w'
            | Raise e => (Raise e, w')
            | Return r => (Return r, w')
            end)) = w_trace w ++ tr
    /\ map ev_call tr = page_calls token page (S j) /\ (j <= n)%nat).
  { intros f. cbv iota beta.
    match goal with
    | |- context [k ?r ?w1] =>
        destruct (Hk r w1) as (j & tr & E & C & L);
        exists j, ({| ev_call := GetInstallationRepos token page;
                      ev_failure := http_error r |} :: tr)
    end.
    rewrite E. proj. rewrite <- app_assoc. split; [reflexivity|].
    split; [|lia]. cbn [map ev_call]. now rewrite page_calls_S, C. }
  destruct (w_faults w) as [|[e|] rest]; try apply G.
  exists 0%nat. eexists. split; [proj; reflexivity|]. split; [|lia].
  unfold page_calls. cbn [seq map ev_call]. now rewrite Z.add_0_r.
Qed.

Lemma requests_some_pages_more {A} (token : pystr) (page : Z) (n : nat) (m : M A) :
  requests_some_pages token page n m -> requests_pages token page (S n) m.
Proof.
  intros H w. destruct (H w) as (j & tr & E & C & J). exists (S j), tr.
  repeat split; auto. lia.
Qed.

Lemma requests_pages_weaken {A} (token : pystr) (page : Z) (a b : nat) (m : M A) :
  (a <= b)%nat -> requests_pages token page a m -> requests_pages token page b m.
Proof.
  intros L H w. destruct (H w) as (j & tr & E & C & J). exists j, tr.
  repeat split; auto. lia.
Qed.

Lemma sends_nothing_raise_for_status {B} (r : Response B) :
  sends_nothing (raise_for_status r).
Proof. apply emits_raise_for_status. Qed.

Lemma sends_nothing_response_json {B} (r : Response B) :
  sends_nothing (response_json r).
Proof. apply emits_response_json. Qed.

Lemma sends_nothing_ret {A} (a : A) : sends_nothing (ret a).
Proof. apply emits_ret. Qed.

Lemma halting_raise_for_status {B} (r : Response B) :
  halting (raise_for_status r).
Proof. unfold raise_for_status. halt_tac. Qed.

Lemma halting_response_json {B} (r : Response B) : halting (response_json r).
Proof. unfold response_json. halt_tac. Qed.

#[local] Hint Resolve halting_raise_for_status halting_response_json : halts.

Section Pages.

Variable keep : list (string * json) -> M (list json).
Variable done : list json -> Z -> bool.
Variable token : pystr.

Hypothesis keep_sends_nothing :
  forall repo_data, sends_nothing (keep repo_data).
Hypothesis keep_halting : forall repo_data, halting (keep repo_data).

Lemma installation_pages_requests following :
  forall page repositories,
    requests_some_pages token page (List.length following)
      (installation_pages keep done token following page repositories).
Proof.
  assert (Heach : forall l,
    sends_nothing
      ((fix each (l : list (list (string * json))) : M (list json) :=
          match l with
          | [] => ret []
          | repo_data :: rest =>
              entry <- keep repo_data ;;
              entries <- each rest ;;
              ret (entry ++ entries)
          end) l)).
  { unfold sends_nothing in *. induction l; emits_tac. }
  induction following as [|p following IH]; intros page repositories;
    cbn [installation_pages]; apply requests_pages_next; intros r;
    (apply requests_pages_bind;
     [apply sends_nothing_raise_for_status|intros _]);
    (apply requests_pages_bind;
     [apply sends_nothing_response_json|intros data]);
    destruct (page_repositories data) as [[|d l]|];
    try (apply requests_pages_quiet, sends_nothing_ret);
    (apply requests_pages_bind; [exact (Heach (d :: l))|intros kept]);
    match goal with |- context [if ?b then _ else _] => destruct b end;
    try (apply requests_pages_quiet, sends_nothing_ret).
  apply requests_some_pages_more, IH.
Qed.

Lemma installation_pages_halting following :
  forall page repositories,
    halting (installation_pages keep done token following page repositories).
Proof.
  assert (Heach : forall l,
    halting
      ((fix each (l : list (list (string * json))) : M (list json) :=
          match l with
          | [] => ret []
          | repo_data :: rest =>
              entry <- keep repo_data ;;
              entries <- each rest ;;
              ret (entry ++ entries)
          end) l)).
  { induction l; halt_tac. }
  induction following as [|p following IH]; intros page repositories;
    cbn [installation_pages]; unfold get_installation_repositories;
    halt_tac.
Qed.

(** The loops over the repositories of the installation ask for the pages
    1, 2, 3, ... in this order, each once and at least the first; they ask
    for at most one page more than the remote side has; and a page whose
    request fails, or is answered with an error status, is the last one
    asked for. *)
Theorem installation_pages_in_order (w : World) :
  exists k tr,
    w_trace (snd (installation_repositories keep done token w)) = w_trace w ++ tr
    /\ map ev_call tr = page_calls token 1 (S k)
    /\ (k <= List.length (w_pages w))%nat
    /\ fails_last tr.
Proof.
  unfold installation_repositories.
  destruct (installation_pages_requests (w_pages w) 1 [] w)
    as (k & tr & E & C & L).
  destruct (installation_pages_halting (w_pages w) 1 [] w)
    as (tr' & E' & F & _).
  rewrite E in E'. apply same_trace in E'. subst tr'.
  now exists k, tr.
Qed.

End Pages.

Lemma keep_all_sends_nothing repo_data : sends_nothing (keep_all repo_data).
Proof. apply emits_keep_all. Qed.

Lemma keep_all_halting repo_data : halting (keep_all repo_data).
Proof. unfold keep_all. halt_tac. Qed.

Lemma keep_owned_sends_nothing owner repo_data :
  sends_nothing (keep_owned owner repo_data).
Proof. apply emits_keep_owned. Qed.

Lemma keep_owned_halting owner repo_data :
  halting (keep_owned owner repo_data).
Proof. unfold keep_owned. halt_tac. Qed.

(* ----------------------------------------------------------------- *)
(** ** The protocol loop *)

Lemma values_equal_eq v s :
  values_equal v (JStr s) = true -> v = JStr s.
Proof.
  unfold values_equal. destruct v; try discriminate.
  intros H. apply pystr_eqb_eq in H. now subst.
Qed.

(** A parsed request is answered, with a result or with an error. *)
Lemma respond_or_fail fields (w : World) :
  let method := get_or "method" JNull fields in
  let params := get_or "params" (JObj []) fields in
  exists result w',
    try_except (response <- respond (JObj fields) ;;
                ret (Some response, Some (JObj fields)))
      (on_exception (Some (JObj fields))) w
    = (Val (Some (rpc (get_or "id" JNull fields)
                    (if bad_call method params then "error" else "result")
                    result),
            Some (JObj fields)), w')
    /\ (if bad_call method params
        then result = JObj [kv "code" (JNum (-32603));
                            kv "message"
                              (str_of (attribute_error (py_type params)
                                         "get"))]
             /\ w' = w
        else if known_method method then True
        else result = JObj [kv "error" (JFmt TUnknownMethod [method])]
             /\ w' = w).
Proof.
  cbv zeta. unfold respond, bad_call, known_method.
  rewrite !bind_arguments_get. cbn [existsb].
  set (method := get_or "method" JNull fields).
  set (params := get_or "params" (JObj []) fields).
  destruct (values_equal method (JStr (lit "initialize"))) eqn:I.
  { apply values_equal_eq in I. rewrite I. do 2 eexists.
    split; reflexivity. }
  destruct (values_equal method (JStr (lit "tools/list"))) eqn:L.
  { apply values_equal_eq in L. rewrite L. do 2 eexists.
    split; reflexivity. }
  destruct (values_equal method (JStr (lit "tools/call"))) eqn:C.
  - destruct params as [| | | | | | | |pfields] eqn:P;
      try (do 2 eexists; split; [reflexivity|now split]).
    rewrite !bind_arguments_get. cbn [is_dict negb andb].
    destruct (dispatcher_answers (get_or "name" JNull pfields)
                (get_or "arguments" (JObj []) pfields) w)
      as (r & w' & E & S & B).
    exists r, w'. unfold try_except, bind, ret. rewrite E.
    split; [reflexivity|constructor].
  - do 2 eexists. split; [reflexivity|now split].
Qed.

(** A line that holds a JSON object is always answered, by one response
    with the [id] of the request ([null] when it has none): a [result] for
    [initialize], [tools/list] and [tools/call], and also for an unknown
    method, whose result is the object [{"error": "Unknown method: ..."}];
    an [error] with code -32603 only for a [tools/call] whose [params] are
    no dict, and then nothing else happened. *)
Theorem request_is_answered line request fields (w : World) :
  json_loads (strip isspace line) = inl (JObj fields) ->
  let method := get_or "method" JNull fields in
  let params := get_or "params" (JObj []) fields in
  exists value w',
    turn line request w
    = (Val (Some (rpc (get_or "id" JNull fields)
                    (if bad_call method params then "error" else "result")
                    value),
            Some (JObj fields)), w')
    /\ (if bad_call method params
        then value = JObj [kv "code" (JNum (-32603));
                           kv "message"
                             (str_of (attribute_error (py_type params)
                                        "get"))]
             /\ w' = w
        else if known_method method then True
        else value = JObj [kv "error" (JFmt TUnknownMethod [method])]
             /\ w' = w).
Proof.
  intros H. cbv zeta. unfold turn. rewrite H. apply respond_or_fail.
Qed.

(** A line that holds JSON which is no object ends the loop: the block of
    line 1956 asks the value for its [id], as line 1929 asked it for its
    method, and the [AttributeError] leaves the loop; nothing is printed for
    the line and the rest of the input is not read. *)
Theorem stray_value_ends_loop line rest request (w : World) :
  line <> [] ->
  is_stray_value line = true ->
  exists v,
    json_loads (strip isspace line) = inl v
    /\ serve (line :: rest) request w
       = (Val ([], Some (attribute_error (py_type v) "get")), w).
Proof.
  intros N S. unfold is_stray_value in S.
  destruct line as [|c line]; [contradiction|]. cbn [serve].
  unfold turn.
  destruct (json_loads (strip isspace (c :: line))) as [v|e];
    [|discriminate].
  exists v. split; [reflexivity|]. now destruct v.
Qed.

(** One turn of the loop and the rest of it. *)
Lemma serve_step c line rest request (w : World) :
  serve ((c :: line) :: rest) request w
  = match turn (c :: line) request w with
    | (Val (printed, request'), w1) =>
        match serve rest request' w1 with
        | (Val more, w2) =>
            (Val (match printed with
                  | Some response => response :: fst more
                  | None => fst more
                  end, snd more), w2)
        | (Raise e, w2) => (Raise e, w2)
        | (Return r, w2) => (Return r, w2)
        end
    | (Raise e, w1) => (Val ([], Some e), w1)
    | (Return r, w1) => (Return r, w1)
    end.
Proof.
  cbn [serve]. unfold try_except, bind, ret.
  now destruct (turn (c :: line) request w) as [[[printed request']|e|r] w1].
Qed.

(** On an input whose lines hold a JSON object or no JSON at all, the loop
    prints one response for each line that holds an object, in the order of
    the lines and each with the [id] of its request, prints nothing for the
    other lines, and ends without an exception. *)
Theorem main_answers_in_order stdin (w : World) :
  forallb readable stdin = true ->
  exists responses w',
    main stdin w = (Val (responses, None), w')
    /\ map (field "id") responses = map request_id (filter is_request stdin)
    /\ Forall (fun r => field "jsonrpc" r = JStr (lit "2.0")) responses.
Proof.
  unfold main. generalize (@None json) as request. revert w.
  induction stdin as [|line rest IH]; intros w request R.
  { exists [], w. repeat split; constructor. }
  cbn [forallb] in R. apply andb_true_iff in R as [L R].
  destruct line as [|c line]; [discriminate L|]. cbn [readable] in L.
  rewrite serve_step. cbn [filter].
  unfold is_request, is_malformed, request_id in *.
  destruct (json_loads (strip isspace (c :: line))) as [v|e] eqn:J.
  - destruct v as [| | | | | | | |fields]; try discriminate L.
    destruct (respond_or_fail fields w) as (value & w1 & E & _).
    assert (T : turn (c :: line) request w
                = (Val (Some (rpc (get_or "id" JNull fields)
                                (if bad_call (get_or "method" JNull fields)
                                      (get_or "params" (JObj []) fields)
                                 then "error" else "result") value),
                        Some (JObj fields)), w1))
      by (unfold turn; rewrite J; exact E).
    rewrite T.
    destruct (IH w1 (Some (JObj fields)) R) as (responses & w2 & E2 & I2 & V2).
    rewrite E2. cbn [fst snd].
    do 2 eexists. split; [reflexivity|]. cbn [map]. rewrite J. split.
    + now rewrite I2.
    + constructor; [reflexivity|exact V2].
  - cbn [orb] in L.
    assert (T : turn (c :: line) request w = (Val (None, request), w))
      by (unfold turn, on_exception; now rewrite J, L).
    rewrite T.
    destruct (IH w request R) as (responses & w2 & E2 & I2 & V2).
    rewrite E2. cbn [fst snd].
    now exists responses, w2.
Qed.

(* ----------------------------------------------------------------- *)
(** ** The client, once built, and the tokens of the requests *)

Lemma kept_request_as {A} (Q : Server -> Prop) (c : call)
    (failed : A -> option exn) (serve : World -> (A + exn) * World) :
  (forall w, w_server (snd (serve w)) = w_server w) ->
  maintains (on_server Q) (request_as c failed serve).
Proof.
  intros Hs w Hw. unfold on_server in *. unfold request_as.
  assert (G : forall f,
            Q (w_server
                 (snd (match serve (set_faults f w) with
                       | (inl a, w') => (Val a, log c (failed a) w')
                       | (inr e, w') => (@Raise A e, log c (Some e) w')
                       end)))).
  { intros f. specialize (Hs (set_faults f w)).
    destruct (serve (set_faults f w)) as [[a|e] w1]; proj;
      now rewrite Hs. }
  destruct (w_faults w) as [|[e|] rest]; try apply G. exact Hw.
Qed.

Lemma kept_datetime_now (Q : Server -> Prop) :
  maintains (on_server Q) datetime_now.
Proof. intros w Hw. exact Hw. Qed.

(** The getter of the token leaves the client alone. *)
Lemma getter_keeps_client (w : World) :
  github (w_server (snd (_get_installation_token w))) = github (w_server w).
Proof.
  unfold _get_installation_token, bind at 1.
  assert (C : exists o w0, cached_token w = (Val o, w0) /\ later w w0).
  { destruct (token_is_fresh (w_server w) (now w)) eqn:F.
    - destruct (cached_token_fresh w F) as (t & _ & E).
      exists (Some t), (tick w). split; [exact E|apply later_tick].
    - destruct (cached_token_stale w F) as (w0 & E & [->| ->]);
        exists None; eexists; (split; [exact E|]);
        [apply later_refl|apply later_tick]. }
  destruct C as (o & w0 & -> & L). apply later_fields in L.
  destruct L as (_ & _ & _ & <- & _).
  destruct o as [t|]; [reflexivity|].
  unfold try_except, mint_token, bind at 1.
  pose proof (_generate_jwt_later w0) as J. apply later_fields in J.
  destruct J as (_ & _ & _ & J & _).
  destruct (_generate_jwt w0) as [[jwt|e|r] w1]; cbn [snd] in *;
    try solve [run; proj; congruence].
  unfold bind at 1. pose proof (post_access_tokens_spec w1) as P.
  destruct (post_access_tokens w1) as [[resp|e|r] w2];
    destruct P as (P & _); try solve [run; proj; congruence].
  unfold raise_for_status, response_json, http_error. run.
  destruct (resp_ok resp); [|proj; congruence].
  destruct (resp_body resp) as [body|]; [|proj; congruence].
  destruct (tb_token body) as [token|]; [|proj; congruence].
  destruct (tb_expires_at body) as [[|x text]|]; proj; try congruence.
  destruct (fromisoformat (replace_Z (x :: text))); proj; congruence.
Qed.

Lemma kept_get_installation_token client :
  maintains (on_server (fun s => github s = Some client))
    _get_installation_token.
Proof. intros w Hw. unfold on_server. now rewrite getter_keeps_client. Qed.

Lemma kept_get_github_client client :
  maintains (on_server (fun s => github s = Some client)) _get_github_client.
Proof. intros w Hw. now rewrite (client_is_kept w Hw). Qed.

Create HintDb clients.
#[local] Hint Resolve kept_get_installation_token kept_get_github_client
  kept_datetime_now : clients.

Ltac head_of t :=
  match t with
  | ?f _ => head_of f
  | _ => t
  end.

(** Going through a program, statement by statement, down to its
    requests, for which [request] is the lemma. *)
Ltac walk_tac request :=
  repeat first
    [ assumption
    | solve [apply maintains_silent; intros; reflexivity]
    | solve [eauto with clients]
    | apply maintains_bind; [|intros ?]
    | apply maintains_try_except_github; [|intros ?]
    | apply maintains_try_except; [|intros ?]
    | apply maintains_def
    | apply request; intros ?;
      repeat match goal with
             | |- context [match ?x with _ => _ end] => destruct x
             end; reflexivity
    | match goal with
      | |- maintains _ (match ?x with _ => _ end) => destruct x
      end
    | progress cbv zeta
    | match goal with
      | |- maintains _ ?m => let h := head_of m in unfold h
      end ].

Ltac client_tac := walk_tac kept_request_as.

Lemma kept_branch_entries Q repository branches :
  maintains (on_server Q) (branch_entries repository branches).
Proof. induction branches as [|b rest IH]; cbn [branch_entries]; client_tac. Qed.

Lemma kept_branches_with_commits Q base branches :
  maintains (on_server Q) (branches_with_commits base branches).
Proof.
  induction branches as [|b rest IH]; cbn [branches_with_commits];
    client_tac.
Qed.

Lemma kept_other_branches Q head default_branch branches :
  maintains (on_server Q) (other_branches head default_branch branches).
Proof.
  induction branches as [|b rest IH]; cbn [other_branches]; client_tac.
Qed.

Lemma kept_installation_pages Q keep done token following :
  (forall repo_data, maintains (on_server Q) (keep repo_data)) ->
  forall page repositories,
    maintains (on_server Q)
      (installation_pages keep done token following page repositories).
Proof.
  intros Hkeep.
  assert (Heach : forall l,
    maintains (on_server Q)
      ((fix each (l : list (list (string * json))) : M (list json) :=
          match l with
          | [] => ret []
          | repo_data :: rest =>
              entry <- keep repo_data ;;
              entries <- each rest ;;
              ret (entry ++ entries)
          end) l)).
  { induction l; client_tac. }
  induction following as [|p following IH]; intros page repositories;
    cbn [installation_pages]; client_tac.
Qed.

Lemma kept_installation_repositories Q keep done token :
  (forall repo_data, maintains (on_server Q) (keep repo_data)) ->
  maintains (on_server Q) (installation_repositories keep done token).
Proof.
  intros H w. unfold installation_repositories.
  now apply kept_installation_pages.
Qed.

Lemma kept_keep_owned Q owner repo_data :
  maintains (on_server Q) (keep_owned owner repo_data).
Proof. client_tac. Qed.

Lemma kept_keep_all Q repo_data :
  maintains (on_server Q) (keep_all repo_data).
Proof. client_tac. Qed.

#[local] Hint Resolve kept_branch_entries kept_branches_with_commits
  kept_other_branches kept_keep_owned kept_keep_all : clients.
#[local] Hint Extern 1 (maintains _ (installation_repositories _ _ _)) =>
  apply kept_installation_repositories; intros : clients.


(** *** The token of the requests for the installation's repositories *)














(* ----------------------------------------------------------------- *)
(** ** Runs in which the remote side fails no request *)

Lemma request_served {A} (c : call) (failed : A -> option exn)
    (serve : World -> (A + exn) * World) (w : World) :
  w_faults w = [] ->
  request_as c failed serve w
  = match serve w with
    | (inl a, w') => (Val a, log c (failed a) w')
    | (inr e, w') => (Raise e, log c (Some e) w')
    end.
Proof.
  intros F. unfold request_as. rewrite F. cbn [tl].
  replace (set_faults [] w) with w; [reflexivity|].
  destruct w; cbn in F; subst; reflexivity.
Qed.

Lemma served_request_as {A} (c : call) (failed : A -> option exn)
    (serve : World -> (A + exn) * World) :
  (forall w, w_faults (snd (serve w)) = w_faults w) ->
  maintains (fun w => w_faults w = []) (request_as c failed serve).
Proof.
  intros Hs w Hw. rewrite request_served by exact Hw.
  specialize (Hs w). destruct (serve w) as [[a|e] w1]; proj; congruence.
Qed.


Lemma get_branches_served (w : World) :
  w_faults w = [] ->
  get_branches w = (Val (r_branches (w_repo w)), log GetBranches None w).
Proof.
  intros F. unfold get_branches, request. now rewrite request_served by exact F.
Qed.






Lemma served_datetime_now :
  maintains (fun w => w_faults w = []) datetime_now.
Proof. intros w Hw. exact Hw. Qed.

#[local] Hint Resolve served_datetime_now : clients.

Ltac unfailing_tac := walk_tac served_request_as.


Lemma other_branches_served (head : json) d branches :
  maintains (fun w => w_faults w = []) (other_branches head d branches).
Proof.
  induction branches as [|b rest IH]; cbn [other_branches]; unfailing_tac.
Qed.





Lemma truthy_base_or_default (r : Repo) (base : json) (b : pystr) :
  base_or_default r base = JStr b ->
  (if negb (truthy base) then JStr (r_default_branch r) else base) = JStr b.
Proof. intros H. exact H. Qed.



(* ----------------------------------------------------------------- *)
(** ** The fork of a head that has an open pull request *)





End Server.

(* ================================================================= *)
(** * Concrete runs *)

Lemma latin_alnum_not_space (c : N) : latin_alnum c = true -> isspace c = false.
Proof.
  unfold latin_alnum, in_range. intros H.
  apply andb_true_iff in H as [H _]. apply andb_true_iff in H as [H _].
  apply andb_true_iff in H as [L U].
  apply N.leb_le in L; apply N.leb_le in U.
  unfold isspace, in_range.
  repeat match goal with
  | |- context [N.leb ?a ?b] => destruct (N.leb_spec a b); try lia
  | |- context [N.eqb ?a ?b] => destruct (N.eqb_spec a b); try lia
  end; reflexivity.
Qed.

Lemma normalize_branch_name_idempotent_witness :
  (forall c, latin_alnum c = true -> isspace c = false)
  /\ normalize_branch_name latin_alnum
       (normalize_branch_name latin_alnum sample_branch_name)
     = normalize_branch_name latin_alnum sample_branch_name
  /\ (sample_branch_name <> [] ->
      startswith (normalize_branch_name latin_alnum sample_branch_name)
        branch_prefix = true).
Proof.
  split; [exact latin_alnum_not_space|].
  apply (@normalize_branch_name_idempotent latin_alnum latin_alnum_not_space
           sample_branch_name).
Defined.

(** C1, as the spec orders the steps, fails: with [feature] and [main] at
    the same commit and an open pull request from one to the other, the
    call forks [c3/2026-11-04/120000] off [feature] first and only then
    stops at the guard against a pull request without differences. *)
Lemma fork_precedes_failed_guard :
  let r := sample_call
             (create_pull_request sample_jwt_encode sample_fromisoformat
                sample_py_eq sample_py_str)
             (sample_world (sample_repo "m1" []) []) in
  In (create_ref_event (lit "c3/2026-11-04/120000") (lit "m1") None)
    (w_trace (snd r))
  /\ (exists result,
        fst r = Val result
        /\ lookup "error" (payload_of result)
           = Some (JFmt TNoDifferences [JStr (lit "c3/2026-11-04/120000");
                                        JStr (lit "main")]))
  /\ find_branch (lit "c3/2026-11-04/120000") (w_repo (snd r)) <> None.
Proof.
  vm_compute. split; [|split].
  - do 4 right. left. reflexivity.
  - eexists. split; reflexivity.
  - discriminate.
Qed.



(** A blank name with punctuation, [" ?!. "], becomes [c3/c3]. *)
Lemma normalize_branch_name_without_word_witness :
  Forall (fun c => isword latin_alnum c = false /\ c <> ch_slash)
    (lit " ?!. ")
  /\ normalize_branch_name latin_alnum (lit " ?!. ") = lit "c3/c3".
Proof.
  assert (H : Forall (fun c => isword latin_alnum c = false /\ c <> ch_slash)
                (lit " ?!. "))
    by (repeat constructor; discriminate).
  split; [exact H|].
  exact (@normalize_branch_name_without_word latin_alnum (lit " ?!. ") H).
Defined.

(** [list_branches] on a server without credentials. *)
Lemma tools_need_credentials_witness :
  handle_tools_call latin_alnum sample_jwt_encode sample_fromisoformat
    sample_py_eq sample_py_str sample_utf8_decode sample_utf8_encode
    sample_b64encode sample_b64decode sample_py_sort
    (JStr (lit "list_branches")) sample_arguments unset_world
  = (Val (tool_result [kv "success" (JBool false);
                       kv "error" (str_of no_credentials);
                       kv "error_type" (JStr (lit "ValueError"))]),
     unset_world).
Proof.
  unfold sample_arguments.
  apply tools_need_credentials; reflexivity.
Defined.

(** [read_file] is one of the tools that stop at the first failure. *)
Lemma failed_request_ends_call_witness :
  existsb (tool_is sample_py_eq (JStr (lit "read_file"))) straight_tools = true
  /\ stops_at_failure
       (handle_tools_call latin_alnum sample_jwt_encode sample_fromisoformat
          sample_py_eq sample_py_str sample_utf8_decode sample_utf8_encode
          sample_b64encode sample_b64decode sample_py_sort
          (JStr (lit "read_file")) sample_arguments).
Proof.
  split; [reflexivity|].
  apply failed_request_ends_call. reflexivity.
Defined.

(** The lookup of [README.md] is answered with a 500, and the file is
    created. *)
Lemma failed_lookup_creates_file_witness :
  exists w',
    create_or_update_file sample_jwt_encode sample_fromisoformat sample_py_str
      sample_utf8_encode sample_b64encode
      (JStr (lit "o")) (JStr (lit "r")) (JStr (lit "README.md"))
      (JStr (lit "text")) (JStr (lit "add")) JNull (JBool false)
      (faulty_world [None; Some server_error; None])
    = (Val (tool_result
              [kv "success" (JBool true);
               kv "owner" (JStr (lit "o"));
               kv "repo" (JStr (lit "r"));
               kv "path" (JStr (lit "README.md"));
               kv "branch" (JStr (lit "main"));
               kv "action" (JStr (lit "created"));
               kv "commit" (JObj []);
               kv "content" (JObj [])]), w')
    /\ w_trace w'
       = [{| ev_call := GetRepo (lit "o/r"); ev_failure := None |};
          {| ev_call := GetContents (JStr (lit "README.md"))
                          (JStr (lit "main"));
             ev_failure := Some server_error |};
          {| ev_call := CreateFile (JStr (lit "README.md"));
             ev_failure := None |}].
Proof.
  exact (@failed_lookup_creates_file sample_jwt_encode sample_fromisoformat
           sample_py_str sample_utf8_encode sample_b64encode
           (JStr (lit "o")) (JStr (lit "r")) (lit "README.md") (lit "text")
           (lit "add") (lit "text") server_error [] _
           (faulty_world [None; Some server_error; None])
           eq_refl eq_refl eq_refl eq_refl eq_refl).
Defined.

(** The loop of lines 1779-1823 against an installation without
    repositories. *)
Lemma installation_pages_in_order_witness :
  exists k tr,
    w_trace (snd (installation_repositories keep_all
                    (fun repositories total_count =>
                       Z.leb total_count
                         (Z.of_nat (List.length repositories)))
                    (lit "ghs_1") (faulty_world [])))
    = w_trace (faulty_world []) ++ tr
    /\ map ev_call tr = page_calls (lit "ghs_1") 1 (S k)
    /\ (k <= List.length (w_pages (faulty_world [])))%nat
    /\ fails_last tr.
Proof.
  exact (@installation_pages_in_order keep_all _ (lit "ghs_1")
           keep_all_sends_nothing keep_all_halting (faulty_world [])).
Defined.

(** A request for the unknown method [ping] is answered with a result. *)
Lemma request_is_answered_witness :
  sample_json_loads (strip isspace request_line) = inl (JObj sample_request)
  /\ exists value w',
       turn latin_alnum sample_jwt_encode sample_fromisoformat sample_py_eq
         sample_py_str sample_utf8_decode sample_utf8_encode sample_b64encode
         sample_b64decode sample_py_sort sample_json_loads request_line None
         (faulty_world [])
       = (Val (Some (rpc (JNum 7) "result" value), Some (JObj sample_request)),
          w')
       /\ value = JObj [kv "error" (JFmt TUnknownMethod [JStr (lit "ping")])]
       /\ w' = faulty_world [].
Proof.
  split; [reflexivity|].
  exact (@request_is_answered latin_alnum sample_jwt_encode
           sample_fromisoformat sample_py_eq sample_py_str sample_utf8_decode
           sample_utf8_encode sample_b64encode sample_b64decode sample_py_sort
           sample_json_loads request_line None sample_request
           (faulty_world []) eq_refl).
Defined.

(** The line [[]] ends the loop before the request after it is read. *)
Lemma stray_value_ends_loop_witness :
  serve latin_alnum sample_jwt_encode sample_fromisoformat sample_py_eq
    sample_py_str sample_utf8_decode sample_utf8_encode sample_b64encode
    sample_b64decode sample_py_sort sample_json_loads
    [stray_line; request_line] None (faulty_world [])
  = (Val ([], Some (attribute_error "list" "get")), faulty_world []).
Proof.
  destruct (@stray_value_ends_loop latin_alnum sample_jwt_encode
              sample_fromisoformat sample_py_eq sample_py_str
              sample_utf8_decode sample_utf8_encode sample_b64encode
              sample_b64decode sample_py_sort sample_json_loads
              stray_line [request_line] None (faulty_world []))
    as (v & E & S); [discriminate|reflexivity|].
  injection E as <-. exact S.
Defined.

(** A request, text that is no JSON, and the request again: two responses
    with the id 7. *)
Lemma main_answers_in_order_witness :
  exists responses w',
    main latin_alnum sample_jwt_encode sample_fromisoformat sample_py_eq
      sample_py_str sample_utf8_decode sample_utf8_encode sample_b64encode
      sample_b64decode sample_py_sort sample_json_loads
      [request_line; broken_line; request_line] (faulty_world [])
    = (Val (responses, None), w')
    /\ map (field "id") responses = [JNum 7; JNum 7]
    /\ Forall (fun r => field "jsonrpc" r = JStr (lit "2.0")) responses.
Proof.
  exact (@main_answers_in_order latin_alnum sample_jwt_encode
           sample_fromisoformat sample_py_eq sample_py_str sample_utf8_decode
           sample_utf8_encode sample_b64encode sample_b64decode sample_py_sort
           sample_json_loads [request_line; broken_line; request_line]
           (faulty_world []) eq_refl).
Defined.

(** The getter on a server whose token has expired: one request to the
    token endpoint, whose answer [ghs_second] is cached with its expiry and
    returned. *)
Lemma installation_token_cache_witness :
  token_is_fresh (w_server stale_world) (now stale_world) = false
  /\ exists w',
       _get_installation_token sample_jwt_encode sample_fromisoformat
         stale_world
       = (Val (lit "ghs_second"), w')
       /\ posts (w_trace w') = 1%nat
       /\ w_tokens w' = []
       /\ _installation_token (w_server w') = Some (lit "ghs_second")
       /\ _token_expires_at (w_server w') = Some 1793797200.
Proof.
  split; [reflexivity|].
  exact (proj1 (proj2 (proj2 (@installation_token_cache sample_jwt_encode
                                sample_fromisoformat stale_world)))
           eq_refl (lit "key") (lit "jwt") second_token []
           {| tb_token := Some (lit "ghs_second");
              tb_expires_at := Some (lit "2026-11-04T13:00:00Z") |}
           (lit "ghs_second")
           eq_refl eq_refl eq_refl eq_refl eq_refl eq_refl eq_refl eq_refl).
Defined.

(** C9, as stated, fails: on a server whose client was built with the
    token [ghs_first], which has expired since, [list_repositories] asks
    for a new token and sends its request for the repositories of the
    installation with that one, [ghs_second], while the client stays the
    one built with [ghs_first]. *)
Lemma list_repositories_uses_fresh_token :
  let w := stale_world in
  let w' := snd (handle_tools_call latin_alnum sample_jwt_encode
                   sample_fromisoformat sample_py_eq sample_py_str
                   sample_utf8_decode sample_utf8_encode sample_b64encode
                   sample_b64decode sample_py_sort
                   (JStr (lit "list_repositories")) (JObj []) w) in
  github (w_server w) = Some {| client_token := lit "ghs_first" |}
  /\ github (w_server w') = Some {| client_token := lit "ghs_first" |}
  /\ w_trace w'
     = [{| ev_call := PostAccessToken; ev_failure := None |};
        {| ev_call := GetInstallationRepos (lit "ghs_second") 1;
           ev_failure := None |}]
  /\ lit "ghs_second" <> lit "ghs_first".
Proof. vm_compute. repeat split. discriminate. Qed.



